(** * Gesture-classification core of the hand-recognition panel

    A shallow embedding of the [HandRecognition] React component: the
    static, dynamic and tracking classifiers, the arbiter [analyzeGesture],
    the per-frame callback [processVideoFrame] and [resetSession].

    JavaScript numbers are IEEE-754 binary64 values, so they are modelled by
    Rocq's primitive floats, which are the same format with the same
    operations (including NaN and the infinities).  A property access on
    [undefined] raises a [TypeError]; such code is modelled in an error
    monad.  React state is an explicit record; a callback reads the values
    its closure captured at render time ([seen]) and queues updater
    functions that are applied to the current state. *)

From Stdlib Require Import Floats ZArith String List Bool Lia.
Import ListNotations.

Set Warnings "-inexact-float".

Local Open Scope float_scope.

(** ** JavaScript numbers *)

Module Num.

(** [a > b] on numbers: false as soon as one side is NaN. *)
Definition gtb (a b : float) : bool := b <? a.

(** [Math.pow(x, 2)].  The engines' [pow] returns [x * x] for the exponent
    2 (the case is singled out in fdlibm, which V8 and SpiderMonkey use).
    [Math.sqrt] and [Math.abs] are the binary64 operations [sqrt] and
    [abs]. *)
Definition pow2 (x : float) : float := x * x.

(** [Math.min(a, b)]: NaN if either is NaN, [-0] below [+0]. *)
Definition min (a b : float) : float :=
  if a <? b then a
  else if b <? a then b
  else if is_nan a || is_nan b then nan
  else if is_zero a && get_sign a then a
  else b.

(** A non-negative integer as a number (array lengths and image sizes
    are far below [2^53], so the conversion is exact). *)
Definition of_N (n : N) : float := of_uint63 (Uint63.of_Z (Z.of_N n)).

(** An element of a [Uint8ClampedArray] as a number. *)
Definition of_byte (b : Byte.byte) : float := of_N (Byte.to_N b).

(** [a % b] on non-negative integers: NaN when [b] is 0. *)
Definition rem_N (a b : N) : float :=
  if (b =? 0)%N then nan else of_N (a mod b).

(** [Math.floor(a / b)] on non-negative integers: [0/0] is NaN and
    [a/0] is [Infinity]. *)
Definition floor_div_N (a b : N) : float :=
  if (b =? 0)%N then (if (a =? 0)%N then nan else infinity)
  else of_N (a / b).

(** [Math.round]: the nearest integer, ties towards [+Infinity]; NaN, the
    infinities and the zeros are returned as they are, and a result of
    zero keeps the sign of the argument. *)
Definition round (x : float) : float :=
  match Prim2SF x with
  | S754_finite s m e =>
      if (0 <=? e)%Z then x
      else
        let d := (2 ^ (- e))%Z in
        let n := if s then ((d - 2 * Z.pos m) / (2 * d))%Z
                 else ((2 * Z.pos m + d) / (2 * d))%Z in
        let r := of_uint63 (Uint63.of_Z (Z.abs n)) in
        if (n =? 0)%Z then (if s then (- 0) else 0)
        else if (n <? 0)%Z then - r else r
  | _ => x
  end.

End Num.

(** ** Exceptions *)

Inductive exn : Type :=
| TypeError.

(** The result of running code that may throw. *)
Inductive outcome (A : Type) : Type :=
| Return (a : A)
| Throw (e : exn).

Arguments Return {A} a.
Arguments Throw {A} e.

Definition obind {A B : Type} (m : outcome A) (k : A -> outcome B) : outcome B :=
  match m with
  | Return a => k a
  | Throw e => Throw e
  end.

Declare Scope outcome_scope.
Delimit Scope outcome_scope with outcome.
Notation "x <- m ;; k" := (obind m (fun x => k))
  (at level 100, m at next level, right associativity) : outcome_scope.

(** [a && b] where both sides may throw: [b] is evaluated only if [a] is
    true. *)
Definition oand (a b : outcome bool) : outcome bool :=
  obind a (fun x => if x then b else Return false).

Infix "&&&" := oand (at level 40, left associativity) : outcome_scope.

Local Open Scope outcome_scope.

(** ** Data model *)

Record Point3D : Type := mkPoint { x : float; y : float; z : float }.

Record GestureResult : Type := mkResult { gesture : string; confidence : float }.

(** [ImageData]: RGBA bytes, row-major. *)
Record ImageData : Type := mkImage { data : list Byte.byte; width : N; height : N }.

(** ** Landmark access *)

Section Landmarks.

Variable points : list Point3D.

(** [points[i].y]: [points[i]] is [undefined] past the end of the array,
    and reading a property of [undefined] throws. *)
Definition py (i : nat) : outcome float :=
  match nth_error points i with
  | Some p => Return (y p)
  | None => Throw TypeError
  end.

Definition px (i : nat) : outcome float :=
  match nth_error points i with
  | Some p => Return (x p)
  | None => Throw TypeError
  end.

(** [points[i].y < points[j].y] *)
Definition y_lt (i j : nat) : outcome bool :=
  a <- py i ;; b <- py j ;; Return (a <? b).

(** [points[i].y > points[j].y] *)
Definition y_gt (i j : nat) : outcome bool :=
  a <- py i ;; b <- py j ;; Return (Num.gtb a b).

(** *** Static gesture analysis *)

Definition thumbUp : outcome bool :=
  y_lt 4 3 &&& y_lt 4 2.

Definition otherFingersDown : outcome bool :=
  y_gt 8 6 &&& y_gt 12 10 &&& y_gt 16 14 &&& y_gt 20 18.

Definition peaceSign : outcome bool :=
  y_lt 8 6 &&& y_lt 12 10 &&& y_gt 16 14 &&& y_gt 20 18.

Definition pointing : outcome bool :=
  y_lt 8 6 &&& y_gt 12 10 &&& y_gt 16 14 &&& y_gt 20 18.

Definition allFingersUp : outcome bool :=
  y_lt 8 6 &&& y_lt 12 10 &&& y_lt 16 14 &&& y_lt 20 18.

Definition allFingersDown : outcome bool :=
  y_gt 8 6 &&& y_gt 12 10 &&& y_gt 16 14 &&& y_gt 20 18.

Definition thumbIndexDistance : outcome float :=
  x4 <- px 4 ;; x8 <- px 8 ;;
  y4 <- py 4 ;; y8 <- py 8 ;;
  Return (sqrt (Num.pow2 (x4 - x8) + Num.pow2 (y4 - y8))).

(** The thumbs-up rule: [otherFingersDown] is evaluated inside the
    [if] on the thumb. *)
Definition thumbsUp : outcome bool :=
  tu <- thumbUp ;;
  if tu then otherFingersDown else Return false.

Definition analyzeStaticGesture : outcome (option GestureResult) :=
  tu <- thumbsUp ;;
  if tu then Return (Some (mkResult "Thumbs Up" 92)) else
  ps <- peaceSign ;;
  if ps then Return (Some (mkResult "Peace Sign" 88)) else
  pt <- pointing ;;
  if pt then Return (Some (mkResult "Pointing" 85)) else
  up <- allFingersUp ;;
  if up then Return (Some (mkResult "Open Palm" 83)) else
  dn <- allFingersDown ;;
  if dn then Return (Some (mkResult "Fist" 80)) else
  d <- thumbIndexDistance ;;
  if d <? 0.05 then Return (Some (mkResult "OK Hand" 90)) else
  Return None.

(** *** Object-tracking gesture analysis *)

(** The [i]-th element of
    [[points[8], points[12], points[16], points[20]]]. *)
Definition fingertips (i : nat) : option Point3D :=
  match i with
  | 0 => nth_error points 8
  | 1 => nth_error points 12
  | 2 => nth_error points 16
  | 3 => nth_error points 20
  | _ => None
  end.

Definition fingertip (i : nat) : outcome Point3D :=
  match fingertips i with
  | Some p => Return p
  | None => Throw TypeError
  end.

(** One iteration of the loop over [i]. *)
Definition spreadStep (totalSpread : float) (i : nat) : outcome float :=
  a <- fingertip i ;; b <- fingertip (i + 1) ;;
  let distance := sqrt (Num.pow2 (x a - x b) + Num.pow2 (y a - y b)) in
  Return (totalSpread + distance).

Definition totalSpread : outcome float :=
  fold_left (fun acc i => t <- acc ;; spreadStep t i) (seq 0 3) (Return 0).

Definition analyzeTrackingGesture : outcome (option GestureResult) :=
  t <- totalSpread ;;
  if t <? 0.15 then Return (Some (mkResult "Pinch" 87)) else
  if Num.gtb t 0.4 then Return (Some (mkResult "Spread" 85)) else
  Return None.

End Landmarks.

(** ** Dynamic gesture analysis (frame difference) *)

(** The three accumulators of the pixel loop. *)
Record Motion : Type := mkMotion {
  motionMagnitude : float;
  horizontalMotion : float;
  verticalMotion : float
}.

Section Dynamic.

(** Captured by the callback. *)
Variable motionThreshold : float.

(** [img.data[i]] in an arithmetic expression: an index past the end
    reads [undefined], which [+] converts to NaN. *)
Definition channel (img : ImageData) (i : nat) : float :=
  match nth_error (data img) i with
  | Some b => Num.of_byte b
  | None => nan
  end.

Definition gray (img : ImageData) (i : nat) : float :=
  (channel img i + channel img (i + 1) + channel img (i + 2)) / 3.

(** The body of the loop, at byte offset [i] (a multiple of 4, so that
    [i / 4] is the pixel index). *)
Definition motionStep (current previous : ImageData) (m : Motion) (i : nat)
  : Motion :=
  let currGray := gray current i in
  let prevGray := gray previous i in
  let diff := abs (currGray - prevGray) in
  if Num.gtb diff motionThreshold then
    let mag := motionMagnitude m + diff in
    let px := Num.rem_N (N.of_nat i / 4) (width current) in
    let py := Num.floor_div_N (N.of_nat i / 4) (width current) in
    let w := Num.of_N (width current) in
    let h := Num.of_N (height current) in
    let hm1 := if Num.gtb px (w * 0.6) then horizontalMotion m + diff
               else horizontalMotion m in
    let hm2 := if px <? w * 0.4 then hm1 - diff else hm1 in
    let vm1 := if Num.gtb py (h * 0.6) then verticalMotion m + diff
               else verticalMotion m in
    let vm2 := if py <? h * 0.4 then vm1 - diff else vm1 in
    mkMotion mag hm2 vm2
  else m.

(** The values taken by [i] in
    [for (let i = 0; i < len; i += 4)]. *)
Definition loopOffsets (len : nat) : list nat :=
  map (fun k => 4 * k)%nat (seq 0 ((len + 3) / 4)).

Definition accumulateMotion (current previous : ImageData) : Motion :=
  fold_left (motionStep current previous)
            (loopOffsets (length (data current)))
            (mkMotion 0 0 0).

(** The classification of the accumulated motion. *)
Definition classifyMotion (m : Motion) : option GestureResult :=
  if Num.gtb (motionMagnitude m) 1000 then
    if Num.gtb (abs (horizontalMotion m)) (abs (verticalMotion m)) then
      Some (mkResult
              (if Num.gtb (horizontalMotion m) 0 then "Swipe Right"
               else "Swipe Left")
              (Num.min 85 (60 + motionMagnitude m / 100)))
    else
      Some (mkResult
              (if Num.gtb (verticalMotion m) 0 then "Swipe Down"
               else "Swipe Up")
              (Num.min 85 (60 + motionMagnitude m / 100)))
  else None.

Definition analyzeDynamicGesture (frames : list ImageData)
  : option GestureResult :=
  if (length frames <? 3)%nat then None else
  match nth_error frames (length frames - 1),
        nth_error frames (length frames - 2) with
  | Some current, Some previous =>
      classifyMotion (accumulateMotion current previous)
  | _, _ => None
  end.

End Dynamic.

(** ** Component state *)

Inductive DetectionMethod : Type :=
| manual
| frame_diff
| object_detection.

Record SessionStats : Type := mkStats {
  gesturesDetected : float;
  accuracy : float;
  sessionTime : float
}.

(** An element of [gestureHistory]. *)
Record HistoryEntry : Type := mkEntry {
  entryGesture : string;
  timestamp : Z;
  entryConfidence : float
}.

(** The [useState] cells of the component that the gesture code reads or
    writes ([shownConfidence] is the cell named [confidence]). *)
Record State : Type := mkState {
  isRecording : bool;
  recognizedGesture : option string;
  shownConfidence : float;
  sessionStats : SessionStats;
  handLandmarker : bool;
  detectionMethod : DetectionMethod;
  gestureHistory : list HistoryEntry;
  isLearningMode : bool;
  customGestures : list string;
  backgroundSubtraction : bool;
  motionThreshold : float;
  gestureSequence : list string;
  frameBuffer : list ImageData
}.

Definition maxFrameBuffer : nat := 10.

(** The state at mount. *)
Definition initialState : State :=
  mkState false None 0 (mkStats 0 0 0) false manual [] false [] true 50 [] [].

(** *** Setters: [setX(f)] replaces cell [X] by [f] of its current value *)

Definition setRecognizedGesture (f : option string -> option string) (s : State) : State :=
  mkState (isRecording s) (f (recognizedGesture s)) (shownConfidence s)
          (sessionStats s) (handLandmarker s) (detectionMethod s)
          (gestureHistory s) (isLearningMode s) (customGestures s)
          (backgroundSubtraction s) (motionThreshold s) (gestureSequence s)
          (frameBuffer s).

Definition setConfidence (f : float -> float) (s : State) : State :=
  mkState (isRecording s) (recognizedGesture s) (f (shownConfidence s))
          (sessionStats s) (handLandmarker s) (detectionMethod s)
          (gestureHistory s) (isLearningMode s) (customGestures s)
          (backgroundSubtraction s) (motionThreshold s) (gestureSequence s)
          (frameBuffer s).

Definition setSessionStats (f : SessionStats -> SessionStats) (s : State) : State :=
  mkState (isRecording s) (recognizedGesture s) (shownConfidence s)
          (f (sessionStats s)) (handLandmarker s) (detectionMethod s)
          (gestureHistory s) (isLearningMode s) (customGestures s)
          (backgroundSubtraction s) (motionThreshold s) (gestureSequence s)
          (frameBuffer s).

Definition setGestureHistory (f : list HistoryEntry -> list HistoryEntry) (s : State) : State :=
  mkState (isRecording s) (recognizedGesture s) (shownConfidence s)
          (sessionStats s) (handLandmarker s) (detectionMethod s)
          (f (gestureHistory s)) (isLearningMode s) (customGestures s)
          (backgroundSubtraction s) (motionThreshold s) (gestureSequence s)
          (frameBuffer s).

Definition setCustomGestures (f : list string -> list string) (s : State) : State :=
  mkState (isRecording s) (recognizedGesture s) (shownConfidence s)
          (sessionStats s) (handLandmarker s) (detectionMethod s)
          (gestureHistory s) (isLearningMode s) (f (customGestures s))
          (backgroundSubtraction s) (motionThreshold s) (gestureSequence s)
          (frameBuffer s).

Definition setGestureSequence (f : list string -> list string) (s : State) : State :=
  mkState (isRecording s) (recognizedGesture s) (shownConfidence s)
          (sessionStats s) (handLandmarker s) (detectionMethod s)
          (gestureHistory s) (isLearningMode s) (customGestures s)
          (backgroundSubtraction s) (motionThreshold s) (f (gestureSequence s))
          (frameBuffer s).

Definition setFrameBuffer (f : list ImageData -> list ImageData) (s : State) : State :=
  mkState (isRecording s) (recognizedGesture s) (shownConfidence s)
          (sessionStats s) (handLandmarker s) (detectionMethod s)
          (gestureHistory s) (isLearningMode s) (customGestures s)
          (backgroundSubtraction s) (motionThreshold s) (gestureSequence s)
          (f (frameBuffer s)).

(** ** Callbacks: queued updates and exceptions *)

(** A callback transforms the pending state and returns or throws; the
    updates queued before a throw stay queued. *)
Definition action (A : Type) : Type := State -> State * outcome A.

Definition ret {A : Type} (a : A) : action A := fun s => (s, Return a).

Definition bind {A B : Type} (m : action A) (k : A -> action B) : action B :=
  fun s =>
    match m s with
    | (s', Return a) => k a s'
    | (s', Throw e) => (s', Throw e)
    end.

(** Code that only returns or throws. *)
Definition lift {A : Type} (o : outcome A) : action A := fun s => (s, o).

(** A call of a state setter. *)
Definition queue (f : State -> State) : action unit := fun s => (f s, Return tt).

(** [try { m } catch (error) { h }] *)
Definition try_catch {A : Type} (m : action A) (h : exn -> action A) : action A :=
  fun s =>
    match m s with
    | (s', Return a) => (s', Return a)
    | (s', Throw e) => h e s'
    end.

Declare Scope action_scope.
Delimit Scope action_scope with action.
Notation "x <~ m ;; k" := (bind m (fun x => k))
  (at level 100, m at next level, right associativity) : action_scope.
Notation "m ;;; k" := (bind m (fun _ => k))
  (at level 100, right associativity) : action_scope.

Local Open Scope action_scope.

(** ** JavaScript arrays and strings *)

(** [l.slice(-n)]: the last [n] elements. *)
Definition slice_last {A : Type} (n : nat) (l : list A) : list A :=
  skipn (length l - n) l.

(** [l.slice(1)] *)
Definition slice_from1 {A : Type} (l : list A) : list A := tl l.

(** [l.includes(s)] on an array of strings. *)
Definition includes (s : string) (l : list string) : bool :=
  existsb (String.eqb s) l.

(** A string in a condition: the empty string is falsy. *)
Definition truthy (s : string) : bool := negb (String.eqb s "").

(** An element of the array handed to [analyzeGesture], as far as the
    code looks at it: the value of its property [landmarks], [None] when
    the element has no such property (as an array of points has none). *)
Record Hand : Type := mkHand { landmarks : option (list Point3D) }.

(** ** The arbiter and the frame callback *)

Section Render.

(** The state of the render in which the callbacks were created: what
    their closures read. *)
Variable seen : State.

(** The [toast] call is an effect on the user interface only. *)
Definition addCustomGesture (g : string) : action unit :=
  if negb (includes g (customGestures seen)) then
    queue (setCustomGestures (fun prev => prev ++ [g]))
  else ret tt.

(** The learning-mode statement of [analyzeGesture]:
    [if (isLearningMode && gestureResult && confidence > 70)
       addCustomGesture(gestureResult)]. *)
Definition captureCustomGesture (gestureResult : option string) (conf : float)
  : action unit :=
  match gestureResult with
  | Some g =>
      if isLearningMode seen && truthy g && Num.gtb conf 70
      then addCustomGesture g
      else ret tt
  | None => ret tt
  end.

Definition analyzeGesture (lms : option (list Hand)) (frameData : option ImageData)
  : action (option GestureResult) :=
  match lms with
  | None | Some [] => ret None
  | Some (hand :: _) =>
    match landmarks hand with
    | None => ret None
    | Some points =>
      (* Store frame data for temporal analysis *)
      match frameData with
      | Some fd =>
          if (maxFrameBuffer <=? length (frameBuffer seen))%nat
          then queue (setFrameBuffer (fun prev => slice_from1 prev ++ [fd]))
          else queue (setFrameBuffer (fun prev => prev ++ [fd]))
      | None => ret tt
      end ;;;
      (* Static gesture recognition *)
      staticGesture <~ lift (analyzeStaticGesture points) ;;
      let '(gestureResult, conf) :=
        match staticGesture with
        | Some sg => (Some (gesture sg), confidence sg)
        | None => (None, 0)
        end in
      (* Dynamic gesture recognition using frame difference *)
      let '(gestureResult, conf) :=
        match detectionMethod seen with
        | frame_diff =>
            if (3 <=? length (frameBuffer seen))%nat then
              match analyzeDynamicGesture (motionThreshold seen) (frameBuffer seen) with
              | Some dg =>
                  if Num.gtb (confidence dg) conf
                  then (Some (gesture dg), confidence dg)
                  else (gestureResult, conf)
              | None => (gestureResult, conf)
              end
            else (gestureResult, conf)
        | _ => (gestureResult, conf)
        end in
      (* Object tracking based recognition *)
      r <~ match detectionMethod seen with
           | object_detection =>
               trackingGesture <~ lift (analyzeTrackingGesture points) ;;
               match trackingGesture with
               | Some tg =>
                   if Num.gtb (confidence tg) conf
                   then ret (Some (gesture tg), confidence tg)
                   else ret (gestureResult, conf)
               | None => ret (gestureResult, conf)
               end
           | _ => ret (gestureResult, conf)
           end ;;
      let '(gestureResult, conf) := r in
      captureCustomGesture gestureResult conf ;;;
      match gestureResult with
      | Some g => if truthy g then ret (Some (mkResult g conf)) else ret None
      | None => ret None
      end
    end
  end.

(** The body of [processVideoFrame] from the detector's answer on.
    [videoReady] stands for the webcam element being mounted with its
    video in ready state 4, [results] for the [landmarks] property of the
    detector's answer and [now] for [Date.now()]; the rescheduling through
    [requestAnimationFrame] is the caller, [console.error] only logs. *)
Definition processVideoFrame (videoReady : bool) (results : option (list Hand))
           (now : Z) : action unit :=
  if negb videoReady || negb (handLandmarker seen) || negb (isRecording seen)
  then ret tt else
  try_catch
    (match results with
     | None | Some [] => ret tt
     | Some _ =>
       gestureResult <~ analyzeGesture results None ;;
       match gestureResult with
       | Some gr =>
         if negb (String.eqb (gesture gr) "Unknown") then
           queue (setRecognizedGesture (fun _ => Some (gesture gr))) ;;;
           queue (setConfidence (fun _ => confidence gr)) ;;;
           (* Add to gesture history *)
           let newGestureEntry := mkEntry (gesture gr) now (confidence gr) in
           queue (setGestureHistory (fun prev => slice_last 19 prev ++ [newGestureEntry])) ;;;
           (* Update gesture sequence for pattern recognition *)
           queue (setGestureSequence (fun prev => slice_last 4 prev ++ [gesture gr])) ;;;
           queue (setSessionStats (fun prev =>
             mkStats (gesturesDetected prev + 1)
                     (Num.round ((accuracy prev + confidence gr) / 2))
                     (sessionTime prev + 1)))
         else ret tt
       | None => ret tt
       end
     end)
    (fun _ => ret tt).

End Render.

Definition resetSession : action unit :=
  queue (setSessionStats (fun _ => mkStats 0 0 0)) ;;;
  queue (setRecognizedGesture (fun _ => None)) ;;;
  queue (setConfidence (fun _ => 0)) ;;;
  queue (setGestureHistory (fun _ => [])) ;;;
  queue (setGestureSequence (fun _ => [])) ;;;
  queue (setFrameBuffer (fun _ => [])).

(** ** Definitions used by the statements *)

(** The labels the three classifiers can produce. *)
Definition classifierLabels : list string :=
  (["Thumbs Up"; "Peace Sign"; "Pointing"; "Open Palm"; "Fist"; "OK Hand";
    "Swipe Right"; "Swipe Left"; "Swipe Up"; "Swipe Down"; "Pinch"; "Spread"])%string.

(** *** The arbiter as the specification words it *)

(** The confidence of the current winner; 0 while there is none. *)
Definition winnerConfidence (w : option GestureResult) : float :=
  match w with
  | Some r => confidence r
  | None => 0
  end.

(** A further classifier's result replaces the winner exactly when its
    confidence is strictly greater. *)
Definition spec_override (w c : option GestureResult) : option GestureResult :=
  match c with
  | Some r => if winnerConfidence w <? confidence r then Some r else w
  | None => w
  end.

(** Static first; the Dynamic Classifier under [frame_diff] with at least 3
    buffered frames, the Tracking Classifier under [object_detection]. *)
Definition spec_arbiter (seen : State) (points : list Point3D)
  : outcome (option GestureResult) :=
  s <- analyzeStaticGesture points ;;
  match detectionMethod seen with
  | manual => Return s
  | frame_diff =>
      if (3 <=? length (frameBuffer seen))%nat
      then Return (spec_override s (analyzeDynamicGesture (motionThreshold seen)
                                                          (frameBuffer seen)))
      else Return s
  | object_detection =>
      t <- analyzeTrackingGesture points ;;
      Return (spec_override s t)
  end.

(** *** Runs of the component *)

(** What [processVideoFrame] classifies on a frame, before the check on the
    label: nothing unless the detector is loaded, the component records, the
    video is ready and a hand was detected. *)
Definition classification (seen : State) (videoReady : bool)
           (results : option (list Hand)) (st : State) : option GestureResult :=
  if videoReady && handLandmarker seen && isRecording seen then
    match results with
    | Some (_ :: _) =>
        match snd (analyzeGesture seen results None st) with
        | Return (Some gr) => Some gr
        | _ => None
        end
    | _ => None
    end
  else None.

(** [frames_run st es st']: a sequence of calls of [processVideoFrame], each
    from a callback of some render, leads from [st] to [st'], and [es] are
    the history entries of the frames that were classified, in order. *)
Inductive frames_run : State -> list HistoryEntry -> State -> Prop :=
| run_done (st : State) : frames_run st [] st
| run_classified (seen : State) (videoReady : bool) (results : option (list Hand))
                 (now : Z) (gr : GestureResult) (st st' : State)
                 (es : list HistoryEntry) :
    classification seen videoReady results st = Some gr ->
    frames_run (fst (processVideoFrame seen videoReady results now st)) es st' ->
    frames_run st (mkEntry (gesture gr) now (confidence gr) :: es) st'
| run_unclassified (seen : State) (videoReady : bool) (results : option (list Hand))
                   (now : Z) (st st' : State) (es : list HistoryEntry) :
    classification seen videoReady results st = None ->
    frames_run (fst (processVideoFrame seen videoReady results now st)) es st' ->
    frames_run st es st'.

(** *** Sample inputs *)

(** The degenerate hand: 21 points at the origin. *)
Definition zeroHand : list Point3D := repeat (mkPoint 0 0 0) 21.

(** A hand where every landmark is NaN. *)
Definition nanHand : list Point3D := repeat (mkPoint nan nan nan) 21.

(** A hand given by the height of each landmark, all at x = 0.5. *)
Definition handOfYs (ys : list float) : list Point3D :=
  map (fun v => mkPoint 0.5 v 0) ys.

(** Four extended fingers with the thumb tip on the index tip. *)
Definition palmWithCircle : list Point3D :=
  handOfYs [0.9; 0.8; 0.7; 0.6; 0.5;
            0.7; 0.6; 0.55; 0.5;
            0.7; 0.6; 0.55; 0.5;
            0.7; 0.6; 0.55; 0.5;
            0.7; 0.6; 0.55; 0.5].

(** Thumb up, four fingers curled. *)
Definition thumbsUpHand : list Point3D :=
  handOfYs [0.9; 0.8; 0.7; 0.6; 0.5;
            0.6; 0.6; 0.65; 0.7;
            0.6; 0.6; 0.65; 0.7;
            0.6; 0.6; 0.65; 0.7;
            0.6; 0.6; 0.65; 0.7].

(** A frame of [w] by [h] pixels whose pixel at column [c] and row [r] is
    the opaque grey [level c r]. *)
Definition greyPixel (v : N) : list Byte.byte :=
  match Byte.of_N v with
  | Some b => [b; b; b; Byte.xff]
  | None => []
  end.

Definition frameOf (w h : N) (level : N -> N -> N) : ImageData :=
  mkImage (flat_map (fun k => greyPixel (level (N.of_nat k mod w) (N.of_nat k / w))%N)
                    (seq 0 (N.to_nat (w * h))))
          w h.

Definition flatFrame (w h : N) : ImageData := frameOf w h (fun _ _ => 100%N).

(** [flatFrame] with the luminance of the right half raised by 80. *)
Definition rightShiftedFrame (w h : N) : ImageData :=
  frameOf w h (fun c _ => if (w <=? 2 * c)%N then 180%N else 100%N).

(** A frame whose bytes are all zero. *)
Definition blankFrame (w h : N) : ImageData :=
  mkImage (repeat Byte.x00 (4 * N.to_nat (w * h))) w h.

(** Every byte of the frame is zero. *)
Definition allZero (img : ImageData) : Prop :=
  Forall (fun b => b = Byte.x00) (data img).

(** [current] differs from [previous] only by a uniform shift of [delta]
    of the three colour channels of the pixels in the right 50% of the
    columns. *)
Definition pixelAt (img : ImageData) (k : nat) : list Byte.byte :=
  firstn 4 (skipn (4 * k) (data img)).

Definition shiftedPixel (delta : N) (p : list Byte.byte) : list N :=
  match p with
  | [r; g; b; a] => [Byte.to_N r + delta; Byte.to_N g + delta; Byte.to_N b + delta; Byte.to_N a]%N
  | _ => []
  end.

Definition rightHalfShifted (delta : N) (previous current : ImageData) : bool :=
  (width previous =? width current)%N && (height previous =? height current)%N &&
  (length (data previous) =? 4 * N.to_nat (width current * height current))%nat &&
  (length (data current) =? 4 * N.to_nat (width current * height current))%nat &&
  forallb (fun k =>
             let c := (N.of_nat k mod width current)%N in
             if (width current <=? 2 * c)%N
             then if list_eq_dec N.eq_dec (map Byte.to_N (pixelAt current k))
                                          (shiftedPixel delta (pixelAt previous k))
                  then true else false
             else if list_eq_dec Byte.byte_eq_dec (pixelAt current k) (pixelAt previous k)
                  then true else false)
          (seq 0 (N.to_nat (width current * height current))).

(** A recording component with the detector loaded. *)
Definition recordingState : State :=
  mkState true None 0 (mkStats 0 0 0) true manual [] false [] true 50 [] [].

(** The same in learning mode with the tracking classifier selected. *)
Definition learningState : State :=
  mkState true None 0 (mkStats 0 0 0) true object_detection [] true [] true 50 [] [].

(** An answer with one hand of the shape [analyzeGesture] expects: an
    object that holds the points under [landmarks]. *)
Definition resultsOf (points : list Point3D) : option (list Hand) :=
  Some [mkHand (Some points)].

(** A hand as the detector returns it and as the specification describes
    it: the array of its 21 points ([results.landmarks[0]]).  The array has
    no property [landmarks], so [hand.landmarks] is [undefined]. *)
Definition detectedHand (points : list Point3D) : Hand := mkHand None.

(** [results.landmarks] of the detector's answer, which is what
    [processVideoFrame] hands to [analyzeGesture]: one array of points per
    hand. *)
Definition detected (hands : list (list Point3D)) : option (list Hand) :=
  Some (map detectedHand hands).

(** Frames with a thumbs-up hand processed one after the other by the
    callback created when recording started. *)
Definition replayFrames (nows : list Z) (st : State) : State :=
  fold_left (fun s now =>
               fst (processVideoFrame recordingState true (resultsOf thumbsUpHand) now s))
            nows st.

Definition sampleTimes : list Z := map Z.of_nat (seq 1 25).

Definition sampleEntries : list HistoryEntry :=
  map (fun now => mkEntry "Thumbs Up" now 92) sampleTimes.

(** Images handed to [analyzeGesture] one after the other, each to the
    callback of a render that holds the current state and each with a hand
    object that holds its points under [landmarks]. *)
Definition submitFrames (fs : list ImageData) (st : State) : State :=
  fold_left (fun s f => fst (analyzeGesture s (resultsOf thumbsUpHand) (Some f) s))
            fs st.

(** Images handed one after the other, with the same hands, to the
    [analyzeGesture] of one render [seen]. *)
Definition submitThrough (seen : State) (lms : option (list Hand))
           (fs : list ImageData) (st : State) : State :=
  fold_left (fun s f => fst (analyzeGesture seen lms (Some f) s)) fs st.

(** Fifteen distinct one-pixel frames. *)
Definition sampleFrames : list ImageData :=
  map (fun k => frameOf 1 1 (fun _ _ => N.of_nat k)) (seq 1 15).

(** Two frames with the same thumbs-up hand in learning mode, both
    analysed by the [analyzeGesture] created in the render of
    [learningState].  React keeps that callback after the first frame: its
    dependencies are [frameBuffer], [detectionMethod], [isLearningMode] and
    [maxFrameBuffer], and the first frame changes none of them. *)
Definition afterFirstFrame : State :=
  fst (analyzeGesture learningState (resultsOf thumbsUpHand) None learningState).

Definition afterSecondFrame : State :=
  fst (analyzeGesture learningState (resultsOf thumbsUpHand) None afterFirstFrame).

(** ** The rest of the component *)

(** The labels the panel lists as available. *)
Definition gestureLabels : list string :=
  (["Thumbs Up"; "Peace Sign"; "OK Hand"; "Pointing"; "Open Palm";
    "Fist"; "Stop"; "Victory"; "Hello"; "Goodbye"; "Swipe Left";
    "Swipe Right"; "Swipe Up"; "Swipe Down"; "Pinch"; "Spread"])%string.

(** [gestureLabels.slice(0, 10)], listed as "Standard Gestures". *)
Definition standardGestures : list string := firstn 10 gestureLabels.

(** [gestureLabels.slice(10)], listed as "Dynamic Gestures". *)
Definition dynamicGestures : list string := skipn 10 gestureLabels.

(** The line under the confidence bar of the "Current Recognition" card. *)
Definition recognitionMessage (conf : float) : string :=
  if Num.gtb conf 80 then "Excellent recognition!"
  else if Num.gtb conf 60 then "Good recognition"
  else "Try adjusting hand position".

(** The rows of the "Gesture History" card:
    [gestureHistory.slice(-5).reverse()]. *)
Definition shownHistory (st : State) : list HistoryEntry :=
  rev (slice_last 5 (gestureHistory st)).

(** The condition of the overlay on the video:
    [isRecording && recognizedGesture]. *)
Definition overlayShown (st : State) : bool :=
  isRecording st &&
  match recognizedGesture st with
  | Some g => truthy g
  | None => false
  end.

Definition setIsRecording (f : bool -> bool) (s : State) : State :=
  mkState (f (isRecording s)) (recognizedGesture s) (shownConfidence s)
          (sessionStats s) (handLandmarker s) (detectionMethod s)
          (gestureHistory s) (isLearningMode s) (customGestures s)
          (backgroundSubtraction s) (motionThreshold s) (gestureSequence s)
          (frameBuffer s).

(** [toggleRecording], a plain function of the render [seen]; the result
    is the title of the toast it shows. *)
Definition toggleRecording (seen : State) : action string :=
  queue (setIsRecording (fun _ => negb (isRecording seen))) ;;;
  if negb (isRecording seen) then ret "Recording Started"%string
  else ret "Recording Stopped"%string.

(** The component with the cell [isWebcamActive], which only the camera
    buttons write. *)
Record Component : Type := mkComponent { isWebcamActive : bool; session : State }.

Definition stopWebcam (c : Component) : Component :=
  mkComponent false
    (setConfidence (fun _ => 0)
       (setRecognizedGesture (fun _ => None)
          (setIsRecording (fun _ => false) (session c)))).

(** The six results the Static Classifier can return and the two of the
    Tracking Classifier. *)
Definition staticResults : list GestureResult :=
  [mkResult "Thumbs Up" 92; mkResult "Peace Sign" 88; mkResult "Pointing" 85;
   mkResult "Open Palm" 83; mkResult "Fist" 80; mkResult "OK Hand" 90].

Definition trackingResults : list GestureResult :=
  [mkResult "Pinch" 87; mkResult "Spread" 85].

(** The landmarks whose height the Static Classifier reads. *)
Definition staticHeights : list nat := [2; 3; 4; 6; 8; 10; 12; 14; 16; 18; 20]%nat.

(** The landmarks the Tracking Classifier reads. *)
Definition fingertipIndices : list nat := [8; 12; 16; 20]%nat.

(** The updates [processVideoFrame] queues for a classified frame. *)
Definition recordGesture (gr : GestureResult) (now : Z) (s : State) : State :=
  setSessionStats
    (fun prev => mkStats (gesturesDetected prev + 1)
                         (Num.round ((accuracy prev + confidence gr) / 2))
                         (sessionTime prev + 1))
    (setGestureSequence (fun prev => slice_last 4 prev ++ [gesture gr])
       (setGestureHistory
          (fun prev => slice_last 19 prev ++ [mkEntry (gesture gr) now (confidence gr)])
          (setConfidence (fun _ => confidence gr)
             (setRecognizedGesture (fun _ => Some (gesture gr)) s)))).

(** The gesture sequence holds the labels of the five newest history
    entries. *)
Definition sequenceFollowsHistory (st : State) : Prop :=
  gestureSequence st = map entryGesture (slice_last 5 (gestureHistory st)).

(** The two counters of the session statistics agree. *)
Definition countersAgree (st : State) : Prop :=
  gesturesDetected (sessionStats st) = sessionTime (sessionStats st).

(** ** Integers as binary64 numbers *)

(** [p] shifted left by [k] bits ([p] itself when [k] is not positive). *)
Definition shl (p : positive) (k : Z) : positive :=
  match k with
  | Zpos n => Pos.iter xO p n
  | _ => p
  end.

(** The binary64 representation of the integer [p] or [-p], for [p] below
    [2^53]: the mantissa is [p] shifted to 53 bits. *)
Definition intSF (s : bool) (p : positive) : spec_float :=
  S754_finite s (shl p (53 - Zpos (digits2_pos p))) (Zpos (digits2_pos p) - 53).

Definition zSF (z : Z) : spec_float :=
  match z with
  | Z0 => S754_zero false
  | Zpos p => intSF false p
  | Zneg p => intSF true p
  end.

(** The integer with sign bit [s] and magnitude [p]. *)
Definition signed (s : bool) (p : positive) : Z := cond_Zopp s (Zpos p).

(** An integer as a number. *)
Definition Zf (z : Z) : float :=
  if (z <? 0)%Z then (- Num.of_N (Z.abs_N z))%float else Num.of_N (Z.to_N z).

(** ** The thresholds of the pixel loop on integers *)

(** The first column of [d] that lies beyond 60% of [d] ([x > d * 0.6]), and
    the first that does not lie before 40% of [d] ([x < d * 0.4]). *)
Definition beyond60 (d : N) : N := (3 * d / 5 + 1)%N.
Definition before40 (d : N) : N := ((2 * d + 4) / 5)%N.

(** [P] on the [2^n] numbers from [lo] on. *)
Fixpoint forall_range (n : nat) (lo : N) (P : N -> bool) : bool :=
  match n with
  | O => P lo
  | S n' => forall_range n' lo P && forall_range n' (lo + 2 ^ N.of_nat n')%N P
  end.

(** The comparisons with [d * 0.6] and [d * 0.4] change exactly at
    [beyond60 d] and [before40 d]. *)
Definition thresholds_ok (d : N) : bool :=
  (d =? 0)%N ||
  (let t6 := (Num.of_N d * 0.6)%float in
   let t4 := (Num.of_N d * 0.4)%float in
   (t6 <? Num.of_N (beyond60 d))%float &&
   negb (t6 <? Num.of_N (beyond60 d - 1))%float &&
   (Num.of_N (before40 d - 1) <? t4)%float &&
   negb (Num.of_N (before40 d) <? t4)%float).

(** A third of [3 * v] is [v]. *)
Definition third_ok (v : N) : bool :=
  PrimFloat.Leibniz.eqb (Num.of_N (3 * v) / 3)%float (Num.of_N v).

(** The largest image side for which the thresholds were checked. *)
Definition maxSide : N := 65535.

(** ** Frames of whole luminance *)

(** The luminance [(r + g + b) / 3] of pixel [k] is a whole number, as it
    is for every grey pixel. *)
Definition wholeLuminanceAt (img : ImageData) (k : nat) : bool :=
  match pixelAt img k with
  | [r; g; b; _] => ((Byte.to_N r + Byte.to_N g + Byte.to_N b) mod 3 =? 0)%N
  | _ => false
  end.

Definition wholeLuminance (img : ImageData) : bool :=
  forallb (wholeLuminanceAt img) (seq 0 (N.to_nat (width img * height img))).

(** [gray] of a pixel given by its bytes. *)
Definition grayOf (p : list Byte.byte) : float :=
  let ch j := match nth_error p j with Some b => Num.of_byte b | None => nan end in
  ((ch 0%nat + ch 1%nat + ch 2%nat) / 3)%float.

(** What a changed pixel at position [x] of a side [d] adds to the
    accumulator of that axis. *)
Definition share (d x : N) : Z :=
  ((if (beyond60 d <=? x)%N then 80 else 0) - (if (x <? before40 d)%N then 80 else 0))%Z.

(** Accumulators that hold integers. *)
Definition motionOf (M H V : Z) : Motion := mkMotion (Zf M) (Zf H) (Zf V).

(** Pixel [k] of a frame of width [w] lies in the right 50% of the
    columns. *)
Definition changedAt (w : N) (k : nat) : bool := (w <=? 2 * (N.of_nat k mod w))%N.

(** The sum of [f] over a list of indices. *)
Definition Zsum (f : nat -> Z) (l : list nat) : Z :=
  fold_right (fun k acc => (f k + acc)%Z) 0%Z l.

(** What pixel [k] adds to the three accumulators when the right half of
    a [w] by [h] frame is shifted. *)
Definition magnitudeAt (w : N) (k : nat) : Z := if changedAt w k then 80%Z else 0%Z.

Definition horizontalAt (w : N) (k : nat) : Z :=
  if changedAt w k then share w (N.of_nat k mod w) else 0%Z.

Definition verticalAt (w h : N) (k : nat) : Z :=
  if changedAt w k then share h (N.of_nat k / w) else 0%Z.

(** * Supporting lemmas *)

(** ** Facts on binary64 numbers *)

(** Swapping the operands of a comparison reverses its result. *)
Lemma SFcompare_swap (a b : spec_float) :
  SFcompare b a = option_map CompOpp (SFcompare a b).
Proof.
  destruct a as [sa|sa| |sa ma ea], b as [sb|sb| |sb mb eb]; simpl; try reflexivity;
    try (destruct sa; reflexivity); try (destruct sb; reflexivity);
    try (destruct sa, sb; reflexivity).
  destruct sa, sb; simpl; try reflexivity;
    rewrite (Z.compare_antisym ea eb); destruct (ea ?= eb)%Z; simpl; try reflexivity;
    rewrite !Pos.compare_cont_spec; simpl; rewrite (Pos.compare_antisym ma mb);
    destruct (ma ?= mb)%positive; reflexivity.
Qed.

Lemma ltb_asym (a b : float) : (a <? b) = true -> (b <? a) = false.
Proof.
  rewrite !ltb_spec. unfold SFltb. rewrite (SFcompare_swap (Prim2SF a) (Prim2SF b)).
  destruct (SFcompare (Prim2SF a) (Prim2SF b)) as [[]|]; simpl; congruence.
Qed.

Lemma ltb_leb (a b : float) : (a <? b) = true -> (a <=? b) = true.
Proof.
  rewrite ltb_spec, leb_spec. unfold SFltb, SFleb.
  destruct (SFcompare (Prim2SF a) (Prim2SF b)) as [[]|]; simpl; congruence.
Qed.

Lemma ltb_nan_r (a : float) : (a <? nan) = false.
Proof.
  rewrite ltb_spec. unfold SFltb. change (Prim2SF nan) with S754_nan.
  destruct (Prim2SF a); reflexivity.
Qed.

Lemma ltb_nan_l (a : float) : (nan <? a) = false.
Proof.
  rewrite ltb_spec. unfold SFltb. change (Prim2SF nan) with S754_nan. reflexivity.
Qed.

(** Rounding a non-negative mantissa never produces NaN. *)
Section Rounding.

Variables prec emax : Z.

Lemma shr_1_nonneg mrs : (0 <= shr_m mrs)%Z -> (0 <= shr_m (shr_1 mrs))%Z.
Proof.
  destruct mrs as [m r s]. simpl.
  destruct m as [|[p|p|]|[p|p|]]; simpl; lia.
Qed.

Lemma iter_pos_shr_1_nonneg p : forall mrs,
  (0 <= shr_m mrs)%Z -> (0 <= shr_m (SpecFloat.iter_pos shr_1 p mrs))%Z.
Proof.
  induction p as [p IH|p IH|]; intros mrs H; simpl.
  - apply IH, IH, shr_1_nonneg, H.
  - apply IH, IH, H.
  - apply shr_1_nonneg, H.
Qed.

Lemma shr_fexp_nonneg m e l :
  (0 <= m)%Z -> (0 <= shr_m (fst (shr_fexp prec emax m e l)))%Z.
Proof.
  intros H. unfold shr_fexp, shr.
  assert (H0 : (0 <= shr_m (shr_record_of_loc m l))%Z)
    by (destruct l as [|[]]; exact H).
  destruct (fexp prec emax (Zdigits2 m + e) - e)%Z; simpl; auto.
  apply iter_pos_shr_1_nonneg, H0.
Qed.

Lemma round_nearest_even_nonneg m l :
  (0 <= m)%Z -> (0 <= round_nearest_even m l)%Z.
Proof.
  intros H. destruct l as [|[]]; simpl; try lia.
  destruct (Z.even m); lia.
Qed.

Lemma binary_round_aux_not_nan sx mx ex lx :
  (0 <= mx)%Z -> binary_round_aux prec emax sx mx ex lx <> S754_nan.
Proof.
  intros H. unfold binary_round_aux.
  pose proof (shr_fexp_nonneg mx ex lx H) as H1.
  destruct (shr_fexp prec emax mx ex lx) as [mrs' e']. simpl in H1.
  pose proof (shr_fexp_nonneg _ e' loc_Exact
                (round_nearest_even_nonneg _ (loc_of_shr_record mrs') H1)) as H2.
  destruct (shr_fexp prec emax _ e' loc_Exact) as [mrs'' e'']. simpl in H2.
  destruct (shr_m mrs'') as [|m|m]; try discriminate.
  - destruct (e'' <=? emax - prec)%Z; discriminate.
  - lia.
Qed.

Lemma binary_normalize_not_nan m e sz :
  binary_normalize prec emax m e sz <> S754_nan.
Proof.
  destruct m as [|m|m]; simpl; try discriminate; unfold binary_round;
    destruct (shl_align _ _ _) as [mz ez]; apply binary_round_aux_not_nan; lia.
Qed.

Lemma SFdiv_finite_not_nan a sy my ey :
  a <> S754_nan -> SFdiv prec emax a (S754_finite sy my ey) <> S754_nan.
Proof.
  intros Ha. destruct a as [sa|sa| |sa ma ea]; simpl; try discriminate; try congruence.
  unfold SFdiv_core_binary.
  set (m' := match (ea - ey - _)%Z with Z0 => Z.pos ma | Z.pos _ => _ | Z.neg _ => 0%Z end).
  assert (Hm : (0 <= m')%Z).
  { subst m'. destruct (ea - ey - _)%Z; try lia. apply Z.shiftl_nonneg. lia. }
  pose proof (Z.div_pos m' (Z.pos my) Hm ltac:(lia)) as Hq.
  unfold Z.div in Hq.
  destruct (Z.div_eucl m' (Z.pos my)) as [q r]. simpl in Hq.
  apply binary_round_aux_not_nan, Hq.
Qed.

Lemma SFadd_finite_not_nan sx mx ex b :
  b <> S754_nan -> SFadd prec emax (S754_finite sx mx ex) b <> S754_nan.
Proof.
  intros Hb. destruct b as [sb|sb| |sb mb eb]; simpl; try discriminate; try congruence.
  apply binary_normalize_not_nan.
Qed.
End Rounding.

Lemma ltb_true_not_nan_r (a b : float) : (a <? b) = true -> Prim2SF b <> S754_nan.
Proof.
  rewrite ltb_spec. unfold SFltb. intros H E. rewrite E in H.
  destruct (Prim2SF a); discriminate.
Qed.

Lemma SFcompare_not_nan (a b : spec_float) :
  a <> S754_nan -> b <> S754_nan -> SFcompare a b <> None.
Proof.
  destruct a, b; simpl; congruence.
Qed.

(** [60 + m / 100] is a number as soon as [m] is. *)
Lemma scaled_not_nan (m : float) :
  Prim2SF m <> S754_nan -> Prim2SF (60 + m / 100) <> S754_nan.
Proof.
  intros H. rewrite add_spec, div_spec.
  change (Prim2SF 60) with (S754_finite false 8444249301319680 (-47)).
  change (Prim2SF 100) with (S754_finite false 7036874417766400 (-46)).
  apply SFadd_finite_not_nan, SFdiv_finite_not_nan, H.
Qed.

Lemma min_85_le (c : float) :
  Prim2SF c <> S754_nan -> (Num.min 85 c <=? 85) = true.
Proof.
  intros H. unfold Num.min.
  destruct (85 <? c) eqn:E1; [reflexivity|].
  destruct (c <? 85) eqn:E2; [apply ltb_leb, E2|].
  revert E1 E2. rewrite !ltb_spec, leb_spec. unfold SFltb, SFleb.
  rewrite (SFcompare_swap (Prim2SF c) (Prim2SF 85)).
  pose proof (SFcompare_not_nan (Prim2SF c) (Prim2SF 85) H ltac:(discriminate)) as Hc.
  destruct (SFcompare (Prim2SF c) (Prim2SF 85)) as [[]|] eqn:E; simpl; try congruence.
  intros _ _.
  (* c equals 85 up to the sign of zero: not NaN, and 85 is not a zero *)
  assert (Hn : is_nan c = false).
  { unfold is_nan. rewrite FloatAxioms.eqb_spec. unfold SFeqb.
    destruct (Prim2SF c) as [s|s| |s m e]; simpl; try congruence;
      try (destruct s; reflexivity).
    rewrite Z.compare_refl, Pos.compare_cont_refl. destruct s; reflexivity. }
  change (is_nan 85) with false. change (is_zero 85) with false. simpl. rewrite Hn. simpl.
  rewrite E. reflexivity.
Qed.


(** ** Landmark access *)

Lemma oand_true (a b : outcome bool) :
  a &&& b = Return true <-> a = Return true /\ b = Return true.
Proof.
  unfold oand. destruct a as [[|]|e]; simpl.
  - split; [auto | intros [_ H]; exact H].
  - split; [discriminate | intros [H _]; discriminate].
  - split; [discriminate | intros [H _]; discriminate].
Qed.

Lemma py_total (points : list Point3D) (i : nat) :
  (i < length points)%nat -> exists p, nth_error points i = Some p /\ py points i = Return (y p).
Proof.
  intros H. unfold py. destruct (nth_error points i) as [p|] eqn:E.
  - exists p. auto.
  - apply nth_error_None in E. lia.
Qed.

Lemma py_defined (points : list Point3D) (i : nat) (v : float) :
  py points i = Return v -> (i < length points)%nat.
Proof.
  unfold py. destruct (nth_error points i) eqn:E; [|discriminate].
  intros _. apply nth_error_Some. congruence.
Qed.

Lemma py_short (points : list Point3D) (i : nat) :
  (length points <= i)%nat -> py points i = Throw TypeError.
Proof.
  intros H. unfold py. apply nth_error_None in H. now rewrite H.
Qed.

Lemma y_lt_total (points : list Point3D) (i j : nat) :
  (i < length points)%nat -> (j < length points)%nat ->
  exists b, y_lt points i j = Return b.
Proof.
  intros Hi Hj. unfold y_lt.
  destruct (py_total points i Hi) as (p & _ & ->).
  destruct (py_total points j Hj) as (q & _ & ->). simpl. eauto.
Qed.

Lemma y_gt_total (points : list Point3D) (i j : nat) :
  (i < length points)%nat -> (j < length points)%nat ->
  exists b, y_gt points i j = Return b.
Proof.
  intros Hi Hj. unfold y_gt.
  destruct (py_total points i Hi) as (p & _ & ->).
  destruct (py_total points j Hj) as (q & _ & ->). simpl. eauto.
Qed.

Lemma y_lt_defined (points : list Point3D) (i j : nat) (b : bool) :
  y_lt points i j = Return b -> (i < length points)%nat /\ (j < length points)%nat.
Proof.
  unfold y_lt. destruct (py points i) eqn:Ei; [|discriminate].
  destruct (py points j) eqn:Ej; [|discriminate].
  intros _. split; eapply py_defined; eauto.
Qed.

(** A fingertip above its joint is not below it. *)
Lemma y_lt_not_gt (points : list Point3D) (i j : nat) :
  y_lt points i j = Return true -> y_gt points i j = Return false.
Proof.
  unfold y_lt, y_gt, Num.gtb.
  destruct (py points i); [|discriminate]. destruct (py points j); [|discriminate].
  simpl. intros [= H]. now rewrite (ltb_asym _ _ H).
Qed.

(** ** The static classifier *)

Lemma thumbUp_total (points : list Point3D) :
  (21 <= length points)%nat -> exists b, thumbUp points = Return b.
Proof.
  intros H. unfold thumbUp, oand.
  destruct (y_lt_total points 4 3) as [b1 ->]; try lia.
  destruct (y_lt_total points 4 2) as [b2 ->]; try lia.
  destruct b1; simpl; eauto.
Qed.

Lemma open_palm_rule (points : list Point3D) :
  allFingersUp points = Return true ->
  analyzeStaticGesture points = Return (Some (mkResult "Open Palm" 83)).
Proof.
  intros H. pose proof H as H'. unfold allFingersUp in H.
  apply oand_true in H as [H H4]. apply oand_true in H as [H H3].
  apply oand_true in H as [H1 H2].
  pose proof (y_lt_not_gt _ _ _ H1) as G1. pose proof (y_lt_not_gt _ _ _ H2) as G2.
  pose proof (y_lt_not_gt _ _ _ H3) as G3. pose proof (y_lt_not_gt _ _ _ H4) as G4.
  destruct (y_lt_defined _ _ _ _ H4) as [L _].
  destruct (thumbUp_total points) as [tu Htu]; [lia|].
  unfold analyzeStaticGesture, thumbsUp, otherFingersDown, peaceSign, pointing.
  rewrite Htu, H', H1, H2, G1, G2, G3. destruct tu; reflexivity.
Qed.

Lemma ok_hand_rule (points : list Point3D) :
  analyzeStaticGesture points = Return (Some (mkResult "OK Hand" 90)) <->
  thumbsUp points = Return false /\ peaceSign points = Return false /\
  pointing points = Return false /\ allFingersUp points = Return false /\
  allFingersDown points = Return false /\
  exists d, thumbIndexDistance points = Return d /\ (d <? 0.05) = true.
Proof.
  unfold analyzeStaticGesture. split.
  - destruct (thumbsUp points) as [[|]|]; simpl; try discriminate.
    destruct (peaceSign points) as [[|]|]; simpl; try discriminate.
    destruct (pointing points) as [[|]|]; simpl; try discriminate.
    destruct (allFingersUp points) as [[|]|]; simpl; try discriminate.
    destruct (allFingersDown points) as [[|]|]; simpl; try discriminate.
    destruct (thumbIndexDistance points) as [d|]; simpl; try discriminate.
    destruct (d <? 0.05) eqn:E; try discriminate.
    intros _. repeat split. eauto.
  - intros (-> & -> & -> & -> & -> & d & -> & E). simpl. now rewrite E.
Qed.

(** *** Hands of at least 21 points never make the classifiers throw *)

Lemma oand_total (a b : outcome bool) :
  (exists u, a = Return u) -> (exists v, b = Return v) -> exists w, a &&& b = Return w.
Proof.
  intros [u ->] [v ->]. destruct u; simpl; eauto.
Qed.

Ltac rule_total :=
  repeat apply oand_total; (apply y_lt_total || apply y_gt_total); lia.

Lemma px_total (points : list Point3D) (i : nat) :
  (i < length points)%nat -> exists p, nth_error points i = Some p /\ px points i = Return (x p).
Proof.
  intros H. unfold px. destruct (nth_error points i) as [p|] eqn:E.
  - exists p. auto.
  - apply nth_error_None in E. lia.
Qed.

Lemma thumbIndexDistance_total (points : list Point3D) :
  (21 <= length points)%nat -> exists d, thumbIndexDistance points = Return d.
Proof.
  intros H. unfold thumbIndexDistance.
  destruct (px_total points 4) as (p4 & _ & ->); [lia|].
  destruct (px_total points 8) as (p8 & _ & ->); [lia|].
  destruct (py_total points 4) as (q4 & _ & ->); [lia|].
  destruct (py_total points 8) as (q8 & _ & ->); [lia|].
  simpl. eauto.
Qed.

Lemma analyzeStaticGesture_total (points : list Point3D) :
  (21 <= length points)%nat -> exists r, analyzeStaticGesture points = Return r.
Proof.
  intros H. unfold analyzeStaticGesture, thumbsUp.
  destruct (thumbUp_total points H) as [tu ->]. simpl.
  assert (Hd : exists b, otherFingersDown points = Return b) by (unfold otherFingersDown; rule_total).
  assert (Hp : exists b, peaceSign points = Return b) by (unfold peaceSign; rule_total).
  assert (Hq : exists b, pointing points = Return b) by (unfold pointing; rule_total).
  assert (Hu : exists b, allFingersUp points = Return b) by (unfold allFingersUp; rule_total).
  assert (Hf : exists b, allFingersDown points = Return b) by (unfold allFingersDown; rule_total).
  destruct Hd as [d Hd], Hp as [p ->], Hq as [q ->], Hu as [u ->], Hf as [f ->].
  destruct (thumbIndexDistance_total points H) as [dist ->].
  assert (Ht : exists b, (if tu then otherFingersDown points else Return false) = Return b)
    by (destruct tu; eauto).
  destruct Ht as [t ->]. simpl.
  destruct t, p, q, u, f; simpl; eauto.
  destruct (dist <? 0.05); eauto.
Qed.

Lemma fingertip_total (points : list Point3D) (i : nat) :
  (21 <= length points)%nat -> (i <= 3)%nat -> exists p, fingertip points i = Return p.
Proof.
  intros H Hi. unfold fingertip, fingertips.
  destruct i as [|[|[|[|i]]]]; try lia;
    match goal with
    | |- context [nth_error points ?k] =>
        destruct (nth_error points k) as [p|] eqn:E;
        [eauto | apply nth_error_None in E; lia]
    end.
Qed.

Lemma totalSpread_eq (points : list Point3D) :
  totalSpread points =
  (t2 <- (t1 <- spreadStep points 0 0 ;; spreadStep points t1 1) ;; spreadStep points t2 2).
Proof. reflexivity. Qed.

Lemma analyzeTrackingGesture_total (points : list Point3D) :
  (21 <= length points)%nat -> exists r, analyzeTrackingGesture points = Return r.
Proof.
  intros H. unfold analyzeTrackingGesture. rewrite totalSpread_eq. unfold spreadStep.
  cbn [Nat.add].
  destruct (fingertip_total points 0) as [p0 ->]; try lia.
  destruct (fingertip_total points 1) as [p1 ->]; try lia.
  destruct (fingertip_total points 2) as [p2 ->]; try lia.
  destruct (fingertip_total points 3) as [p3 ->]; try lia.
  cbn [obind].
  match goal with |- context [if ?c then _ else _] => destruct c; eauto end.
  match goal with |- context [if ?c then _ else _] => destruct c; eauto end.
Qed.

(** *** Shorter hands *)

Lemma analyzeTrackingGesture_short (points : list Point3D) :
  (length points < 21)%nat -> analyzeTrackingGesture points = Throw TypeError.
Proof.
  intros H. unfold analyzeTrackingGesture. rewrite totalSpread_eq. unfold spreadStep.
  cbn [Nat.add].
  assert (E : fingertip points 3 = Throw TypeError).
  { unfold fingertip, fingertips.
    replace (nth_error points 20) with (@None Point3D); [reflexivity|].
    symmetry. apply nth_error_None. lia. }
  rewrite E.
  destruct (fingertip points 0) as [p0|[]]; cbn [obind]; try reflexivity.
  destruct (fingertip points 1) as [p1|[]]; cbn [obind]; try reflexivity.
  destruct (fingertip points 2) as [p2|[]]; cbn [obind]; reflexivity.
Qed.

Lemma analyzeStaticGesture_short (points : list Point3D) :
  (length points < 9)%nat -> analyzeStaticGesture points = Throw TypeError.
Proof.
  intros H.
  assert (E : py points 8 = Throw TypeError) by (apply py_short; lia).
  unfold analyzeStaticGesture, thumbsUp, thumbUp, otherFingersDown, peaceSign, oand, y_lt, y_gt.
  rewrite E.
  destruct (py points 4) as [a|[]]; simpl; try reflexivity.
  destruct (py points 3) as [b|[]]; simpl; try reflexivity.
  destruct (a <? b); simpl; try reflexivity.
  destruct (py points 2) as [c|[]]; simpl; try reflexivity.
  destruct (a <? c); reflexivity.
Qed.

(** *** Hands of NaN *)

Lemma analyzeStaticGesture_nan (points : list Point3D) :
  (21 <= length points)%nat ->
  (forall p, In p points -> x p = nan /\ y p = nan) ->
  analyzeStaticGesture points = Return None.
Proof.
  intros H Hn.
  assert (Hy : forall i, (i <= 20)%nat -> py points i = Return nan).
  { intros i Hi. destruct (py_total points i) as (p & E & ->); [lia|].
    apply nth_error_In in E. now rewrite (proj2 (Hn p E)). }
  assert (Hx : forall i, (i <= 20)%nat -> px points i = Return nan).
  { intros i Hi. destruct (px_total points i) as (p & E & ->); [lia|].
    apply nth_error_In in E. now rewrite (proj1 (Hn p E)). }
  unfold analyzeStaticGesture, thumbsUp, thumbUp, otherFingersDown, peaceSign,
    pointing, allFingersUp, allFingersDown, thumbIndexDistance, oand, y_lt, y_gt.
  rewrite !Hy, !Hx by lia. reflexivity.
Qed.

Lemma analyzeTrackingGesture_nan (points : list Point3D) :
  (21 <= length points)%nat ->
  (forall p, In p points -> x p = nan /\ y p = nan) ->
  analyzeTrackingGesture points = Return None.
Proof.
  intros H Hn.
  assert (Hf : forall i, (i <= 3)%nat ->
                 exists p, fingertip points i = Return p /\ x p = nan /\ y p = nan).
  { intros i Hi. unfold fingertip, fingertips.
    destruct i as [|[|[|[|i]]]]; try lia;
      match goal with
      | |- context [nth_error points ?k] =>
          destruct (nth_error points k) as [p|] eqn:E;
          [exists p; split; [reflexivity | apply Hn; eapply nth_error_In; eauto]
          | apply nth_error_None in E; lia]
      end. }
  unfold analyzeTrackingGesture. rewrite totalSpread_eq. unfold spreadStep.
  cbn [Nat.add].
  destruct (Hf 0%nat) as (p0 & -> & X0 & Y0); [lia|].
  destruct (Hf 1%nat) as (p1 & -> & X1 & Y1); [lia|].
  destruct (Hf 2%nat) as (p2 & -> & X2 & Y2); [lia|].
  destruct (Hf 3%nat) as (p3 & -> & X3 & Y3); [lia|].
  cbn [obind]. rewrite X0, X1, X2, X3, Y0, Y1, Y2, Y3. reflexivity.
Qed.

(** ** Labels *)

Lemma classifierLabels_truthy (g : string) :
  In g classifierLabels -> truthy g = true /\ String.eqb g "Unknown" = false.
Proof.
  unfold classifierLabels. simpl.
  intros H; repeat (destruct H as [<-|H]; [split; reflexivity|]); contradiction.
Qed.

Lemma analyzeStaticGesture_label (points : list Point3D) (r : GestureResult) :
  analyzeStaticGesture points = Return (Some r) -> In (gesture r) classifierLabels.
Proof.
  unfold analyzeStaticGesture.
  destruct (thumbsUp points) as [[|]|]; simpl; try discriminate;
    [intros [= <-]; simpl; tauto|].
  destruct (peaceSign points) as [[|]|]; simpl; try discriminate;
    [intros [= <-]; simpl; tauto|].
  destruct (pointing points) as [[|]|]; simpl; try discriminate;
    [intros [= <-]; simpl; tauto|].
  destruct (allFingersUp points) as [[|]|]; simpl; try discriminate;
    [intros [= <-]; simpl; tauto|].
  destruct (allFingersDown points) as [[|]|]; simpl; try discriminate;
    [intros [= <-]; simpl; tauto|].
  destruct (thumbIndexDistance points) as [d|]; simpl; try discriminate.
  destruct (d <? 0.05); try discriminate. intros [= <-]; simpl; tauto.
Qed.

Lemma analyzeTrackingGesture_label (points : list Point3D) (r : GestureResult) :
  analyzeTrackingGesture points = Return (Some r) -> In (gesture r) classifierLabels.
Proof.
  unfold analyzeTrackingGesture.
  destruct (totalSpread points) as [t|]; simpl; try discriminate.
  destruct (t <? 0.15); [intros [= <-]; simpl; tauto|].
  destruct (Num.gtb t 0.4); [intros [= <-]; simpl; tauto|discriminate].
Qed.

Lemma classifyMotion_label (m : Motion) (r : GestureResult) :
  classifyMotion m = Some r -> In (gesture r) classifierLabels.
Proof.
  unfold classifyMotion.
  destruct (Num.gtb (motionMagnitude m) 1000); try discriminate.
  destruct (Num.gtb (abs (horizontalMotion m)) (abs (verticalMotion m)));
    intros [= <-]; simpl.
  - destruct (Num.gtb (horizontalMotion m) 0); tauto.
  - destruct (Num.gtb (verticalMotion m) 0); tauto.
Qed.

Lemma analyzeDynamicGesture_label (thr : float) (frames : list ImageData)
      (r : GestureResult) :
  analyzeDynamicGesture thr frames = Some r -> In (gesture r) classifierLabels.
Proof.
  unfold analyzeDynamicGesture.
  destruct (length frames <? 3)%nat; try discriminate.
  destruct (nth_error frames (length frames - 1)); try discriminate.
  destruct (nth_error frames (length frames - 2)); try discriminate.
  apply classifyMotion_label.
Qed.


(** ** The dynamic classifier *)

(** A number above an absolute value is positive. *)
Lemma above_abs_positive (h v : float) :
  (abs v <? h) = true -> (abs v <? abs h) = true /\ (0 <? h) = true.
Proof.
  rewrite !ltb_spec, !abs_spec. change (Prim2SF 0) with (S754_zero false).
  unfold SFltb.
  destruct (Prim2SF v) as [sv|sv| |sv mv ev], (Prim2SF h) as [sh|sh| |sh mh eh];
    simpl; try discriminate; try (destruct sh; simpl; auto; discriminate).
Qed.

(** The two most recent frames of a buffer of at least three are the ones
    compared. *)
Lemma analyzeDynamicGesture_recent (thr : float) (older : list ImageData)
      (previous current : ImageData) :
  (1 <= length older)%nat ->
  analyzeDynamicGesture thr (older ++ [previous; current]) =
  classifyMotion (accumulateMotion thr current previous).
Proof.
  intros H. unfold analyzeDynamicGesture.
  rewrite length_app. simpl length.
  replace (length older + 2 <? 3)%nat with false by (symmetry; apply Nat.ltb_ge; lia).
  replace (length older + 2 - 1)%nat with (length older + 1)%nat by lia.
  replace (length older + 2 - 2)%nat with (length older + 0)%nat by lia.
  rewrite !nth_error_app2 by lia.
  replace (length older + 1 - length older)%nat with 1%nat by lia.
  replace (length older + 0 - length older)%nat with 0%nat by lia.
  reflexivity.
Qed.

Lemma classifyMotion_below (m : Motion) :
  Num.gtb (motionMagnitude m) 1000 = false -> classifyMotion m = None.
Proof.
  intros H. unfold classifyMotion. now rewrite H.
Qed.

Lemma classifyMotion_above (m : Motion) :
  Num.gtb (motionMagnitude m) 1000 = true ->
  exists r, classifyMotion m = Some r /\
    confidence r = Num.min 85 (60 + motionMagnitude m / 100) /\
    (confidence r <=? 85) = true /\
    gesture r =
      (if Num.gtb (abs (horizontalMotion m)) (abs (verticalMotion m))
       then if Num.gtb (horizontalMotion m) 0 then "Swipe Right" else "Swipe Left"
       else if Num.gtb (verticalMotion m) 0 then "Swipe Down" else "Swipe Up")%string.
Proof.
  intros H. unfold classifyMotion. rewrite H.
  assert (Hc : (Num.min 85 (60 + motionMagnitude m / 100) <=? 85) = true).
  { apply min_85_le, scaled_not_nan. eapply ltb_true_not_nan_r. exact H. }
  destruct (Num.gtb (abs (horizontalMotion m)) (abs (verticalMotion m)));
    eexists; (split; [reflexivity|]); simpl; auto.
Qed.

(** *** Blank frames *)

Lemma channel_allZero (img : ImageData) (i : nat) :
  allZero img -> channel img i = 0 \/ channel img i = nan.
Proof.
  intros H. unfold channel. destruct (nth_error (data img) i) as [b|] eqn:E; auto.
  apply nth_error_In in E. unfold allZero in H. rewrite Forall_forall in H.
  rewrite (H b E). left. reflexivity.
Qed.

Lemma gray_allZero (img : ImageData) (i : nat) :
  allZero img -> gray img i = 0 \/ gray img i = nan.
Proof.
  intros H. unfold gray.
  destruct (channel_allZero img i H) as [-> | ->],
           (channel_allZero img (i + 1) H) as [-> | ->],
           (channel_allZero img (i + 2) H) as [-> | ->]; auto.
Qed.

Lemma motionStep_allZero (thr : float) (current previous : ImageData)
      (m : Motion) (i : nat) :
  allZero current -> allZero previous ->
  motionMagnitude m = 0 ->
  motionMagnitude (motionStep thr current previous m i) = 0.
Proof.
  intros Hc Hp Hm. unfold motionStep.
  destruct (gray_allZero current i Hc) as [-> | ->],
           (gray_allZero previous i Hp) as [-> | ->];
    match goal with
    | |- context [Num.gtb ?d thr] =>
        let v := eval vm_compute in d in change d with v
    end;
    try (unfold Num.gtb; rewrite ltb_nan_r; exact Hm).
  destruct (Num.gtb 0 thr); [|exact Hm].
  simpl. rewrite Hm. reflexivity.
Qed.

Lemma accumulateMotion_allZero (thr : float) (current previous : ImageData) :
  allZero current -> allZero previous ->
  motionMagnitude (accumulateMotion thr current previous) = 0.
Proof.
  intros Hc Hp. unfold accumulateMotion.
  generalize (loopOffsets (length (data current))).
  assert (H0 : motionMagnitude (mkMotion 0 0 0) = 0) by reflexivity.
  revert H0. generalize (mkMotion 0 0 0).
  intros m Hm l. revert m Hm.
  induction l as [|i l IH]; intros m Hm; simpl; auto.
  apply IH, motionStep_allZero; assumption.
Qed.

Lemma analyzeDynamicGesture_allZero (thr : float) (frames : list ImageData) :
  Forall allZero frames -> analyzeDynamicGesture thr frames = None.
Proof.
  intros H. unfold analyzeDynamicGesture.
  destruct (length frames <? 3)%nat; auto.
  destruct (nth_error frames (length frames - 1)) as [c|] eqn:Ec; auto.
  destruct (nth_error frames (length frames - 2)) as [p|] eqn:Ep; auto.
  rewrite Forall_forall in H.
  apply classifyMotion_below.
  rewrite accumulateMotion_allZero by (apply H; eapply nth_error_In; eauto).
  reflexivity.
Qed.


(** ** The arbiter *)

(** Learning never throws. *)
Lemma addCustomGesture_returns (seen : State) (g : string) (st : State) :
  snd (addCustomGesture seen g st) = Return tt.
Proof.
  unfold addCustomGesture. destruct (negb (includes g (customGestures seen))); reflexivity.
Qed.

Lemma captureCustomGesture_returns (seen : State) (g : option string) (c : float)
      (st : State) :
  snd (captureCustomGesture seen g c st) = Return tt.
Proof.
  unfold captureCustomGesture. destruct g as [g|]; [|reflexivity].
  destruct (isLearningMode seen && truthy g && Num.gtb c 70); [|reflexivity].
  apply addCustomGesture_returns.
Qed.

Local Arguments captureCustomGesture : simpl never.
Local Arguments Nat.leb : simpl never.

Ltac run_capture :=
  match goal with
  | |- context [captureCustomGesture ?a ?b ?c ?d] =>
      let R := fresh "R" in
      pose proof (captureCustomGesture_returns a b c d) as R;
      destruct (captureCustomGesture a b c d) as [? ?];
      simpl in R; subst; simpl
  end.

(** [analyzeGesture] on a detected hand: the buffer statement, then the
    arbitration of the classifiers, then the learning statement on the
    winner. *)
Lemma analyzeGesture_run (seen : State) (hand : Hand) (rest : list Hand)
      (points : list Point3D) (fd : option ImageData) (st : State) :
  landmarks hand = Some points ->
  analyzeGesture seen (Some (hand :: rest)) fd st =
  let st1 :=
    match fd with
    | Some f =>
        if (maxFrameBuffer <=? length (frameBuffer seen))%nat
        then setFrameBuffer (fun prev => slice_from1 prev ++ [f]) st
        else setFrameBuffer (fun prev => prev ++ [f]) st
    | None => st
    end in
  match spec_arbiter seen points with
  | Throw e => (st1, Throw e)
  | Return w =>
      (fst (captureCustomGesture seen (option_map gesture w) (winnerConfidence w) st1),
       Return w)
  end.
Proof.
  intros H. unfold analyzeGesture. rewrite H.
  assert (Ts : forall r, analyzeStaticGesture points = Return (Some r) ->
                         truthy (gesture r) = true)
    by (intros r E; apply classifierLabels_truthy, analyzeStaticGesture_label with (1 := E)).
  assert (Tt : forall r, analyzeTrackingGesture points = Return (Some r) ->
                         truthy (gesture r) = true)
    by (intros r E; apply classifierLabels_truthy, analyzeTrackingGesture_label with (1 := E)).
  assert (Td : forall r, analyzeDynamicGesture (motionThreshold seen) (frameBuffer seen) = Some r ->
                         truthy (gesture r) = true)
    by (intros r E; apply classifierLabels_truthy, analyzeDynamicGesture_label with (1 := E)).
  unfold spec_arbiter, spec_override, bind, lift, ret, queue, Num.gtb.
  destruct fd as [f|]; [destruct (maxFrameBuffer <=? length (frameBuffer seen))%nat|].
  all: destruct (analyzeStaticGesture points) as [[sg|]|e] eqn:Es; simpl; try reflexivity.
  all: try (pose proof (Ts _ eq_refl) as Hs).
  all: destruct (detectionMethod seen); simpl.
  all: repeat match goal with
       | |- context [(3 <=? ?n)%nat] => destruct (3 <=? n)%nat; simpl
       | |- context [analyzeDynamicGesture ?t ?fb] =>
           let E := fresh "Ed" in
           destruct (analyzeDynamicGesture t fb) as [dg|] eqn:E;
           [pose proof (Td _ eq_refl)|]; simpl
       | |- context [analyzeTrackingGesture ?p] =>
           let E := fresh "Et" in
           destruct (analyzeTrackingGesture p) as [[tg|]|e'] eqn:E;
           [pose proof (Tt _ eq_refl)| |]; simpl
       | |- context [if (?a <? ?b) then _ else _] => destruct (a <? b); simpl
       end.
  all: try reflexivity.
  all: run_capture.
  all: repeat match goal with
       | T : truthy _ = true |- _ => rewrite T; clear T
       end.
  all: try reflexivity.
  all: repeat match goal with r : GestureResult |- _ => destruct r end; reflexivity.
Qed.

Lemma spec_arbiter_label (seen : State) (points : list Point3D) (r : GestureResult) :
  spec_arbiter seen points = Return (Some r) -> In (gesture r) classifierLabels.
Proof.
  unfold spec_arbiter, spec_override.
  destruct (analyzeStaticGesture points) as [s|] eqn:Es; simpl; [|discriminate].
  assert (Hs : forall q, s = Some q -> In (gesture q) classifierLabels)
    by (intros q ->; eapply analyzeStaticGesture_label; eauto).
  destruct (detectionMethod seen).
  - intros [= ->]. now apply Hs.
  - destruct (3 <=? length (frameBuffer seen))%nat; [|intros [= ->]; now apply Hs].
    destruct (analyzeDynamicGesture _ _) as [dg|] eqn:Ed; [|intros [= ->]; now apply Hs].
    destruct (winnerConfidence s <? confidence dg); intros [= E].
    + inversion E; subst. eapply analyzeDynamicGesture_label; eauto.
    + now apply Hs.
  - destruct (analyzeTrackingGesture points) as [[tg|]|] eqn:Et; simpl;
      try discriminate; [|intros [= ->]; now apply Hs].
    destruct (winnerConfidence s <? confidence tg); intros [= E].
    + inversion E; subst. eapply analyzeTrackingGesture_label; eauto.
    + now apply Hs.
Qed.

(** Without a detected hand [analyzeGesture] returns [null] and queues
    nothing. *)
Lemma analyzeGesture_cases (seen : State) (lms : option (list Hand))
      (fd : option ImageData) (st : State) :
  analyzeGesture seen lms fd st = (st, Return None) \/
  exists hand rest points,
    lms = Some (hand :: rest) /\ landmarks hand = Some points.
Proof.
  destruct lms as [[|hand rest]|]; try (left; reflexivity).
  destruct (landmarks hand) as [points|] eqn:E.
  - right. eauto.
  - left. unfold analyzeGesture. now rewrite E.
Qed.

Lemma analyzeGesture_label (seen : State) (lms : option (list Hand))
      (fd : option ImageData) (st : State) (r : GestureResult) :
  snd (analyzeGesture seen lms fd st) = Return (Some r) ->
  In (gesture r) classifierLabels.
Proof.
  destruct (analyzeGesture_cases seen lms fd st) as [-> | (hand & rest & points & -> & E)];
    [discriminate|].
  rewrite (analyzeGesture_run _ _ _ _ _ _ E). cbv zeta.
  destruct (spec_arbiter seen points) as [w|] eqn:Ea; simpl; [|discriminate].
  intros [= ->]. eapply spec_arbiter_label; eauto.
Qed.

(** *** What the learning statement changes *)

Lemma captureCustomGesture_customGestures (seen : State) (g : option string)
      (c : float) (st : State) :
  customGestures (fst (captureCustomGesture seen g c st)) =
  match g with
  | Some l =>
      if isLearningMode seen && truthy l && Num.gtb c 70 &&
         negb (includes l (customGestures seen))
      then customGestures st ++ [l]
      else customGestures st
  | None => customGestures st
  end.
Proof.
  unfold captureCustomGesture, addCustomGesture. destruct g as [l|]; [|reflexivity].
  destruct (isLearningMode seen && truthy l && Num.gtb c 70); [|reflexivity].
  destruct (negb (includes l (customGestures seen))); reflexivity.
Qed.

Lemma captureCustomGesture_others (seen : State) (g : option string)
      (c : float) (st : State) :
  let st' := fst (captureCustomGesture seen g c st) in
  frameBuffer st' = frameBuffer st /\ gestureHistory st' = gestureHistory st /\
  gestureSequence st' = gestureSequence st /\ sessionStats st' = sessionStats st.
Proof.
  unfold captureCustomGesture, addCustomGesture. destruct g as [l|]; [|simpl; auto].
  destruct (isLearningMode seen && truthy l && Num.gtb c 70); [|simpl; auto].
  destruct (negb (includes l (customGestures seen))); simpl; auto.
Qed.

Lemma analyzeGesture_gestureHistory (seen : State) (lms : option (list Hand))
      (fd : option ImageData) (st : State) :
  gestureHistory (fst (analyzeGesture seen lms fd st)) = gestureHistory st.
Proof.
  destruct (analyzeGesture_cases seen lms fd st) as [-> | (hand & rest & points & -> & E)];
    [reflexivity|].
  rewrite (analyzeGesture_run _ _ _ _ _ _ E). cbv zeta.
  assert (H1 : forall f, gestureHistory (setFrameBuffer f st) = gestureHistory st)
    by reflexivity.
  destruct (spec_arbiter seen points) as [w|]; simpl.
  - rewrite (proj1 (proj2 (captureCustomGesture_others _ _ _ _))).
    destruct fd; [destruct (_ <=? _)%nat|]; reflexivity.
  - destruct fd; [destruct (_ <=? _)%nat|]; reflexivity.
Qed.

Lemma analyzeGesture_frameBuffer (seen : State) (hand : Hand) (rest : list Hand)
      (points : list Point3D) (f : ImageData) (st : State) :
  landmarks hand = Some points ->
  frameBuffer (fst (analyzeGesture seen (Some (hand :: rest)) (Some f) st)) =
  if (maxFrameBuffer <=? length (frameBuffer seen))%nat
  then slice_from1 (frameBuffer st) ++ [f]
  else frameBuffer st ++ [f].
Proof.
  intros E. rewrite (analyzeGesture_run _ _ _ _ _ _ E). cbv zeta.
  destruct (spec_arbiter seen points) as [w|]; simpl.
  - rewrite (proj1 (captureCustomGesture_others _ _ _ _)).
    destruct (_ <=? _)%nat; reflexivity.
  - destruct (_ <=? _)%nat; reflexivity.
Qed.

(** ** Bounded logs *)

Lemma slice_last_length {A : Type} (n : nat) (l : list A) :
  length (slice_last n l) = Nat.min n (length l).
Proof.
  unfold slice_last. rewrite length_skipn. lia.
Qed.

Lemma slice_last_all {A : Type} (n : nat) (l : list A) :
  (length l <= n)%nat -> slice_last n l = l.
Proof.
  intros H. unfold slice_last. replace (length l - n)%nat with 0%nat by lia. reflexivity.
Qed.

Lemma slice_last_app {A : Type} (n : nat) (l l' : list A) :
  slice_last n (slice_last n l ++ l') = slice_last n (l ++ l').
Proof.
  unfold slice_last. rewrite !length_app, length_skipn.
  set (k := (length l - n)%nat).
  replace (length l + length l' - n)%nat
    with ((length l - k + length l' - n) + k)%nat by lia.
  rewrite <- skipn_skipn, (skipn_app k l l').
  replace (k - length l)%nat with 0%nat by lia. reflexivity.
Qed.

(** Appending to the last [n] elements keeps the last [n + 1]. *)
Lemma slice_last_snoc {A : Type} (n : nat) (l : list A) (a : A) :
  slice_last n l ++ [a] = slice_last (S n) (l ++ [a]).
Proof.
  unfold slice_last. rewrite length_app. simpl length.
  replace (length l + 1 - S n)%nat with (length l - n)%nat by lia.
  rewrite skipn_app.
  replace (length l - n - length l)%nat with 0%nat by lia. reflexivity.
Qed.

Lemma slice_last_suffix {A : Type} (n : nat) (l l' : list A) :
  (n <= length l')%nat -> slice_last n (l ++ l') = skipn (length l' - n) l'.
Proof.
  intros H. unfold slice_last. rewrite length_app, skipn_app.
  rewrite skipn_all2 by lia. simpl. f_equal. lia.
Qed.


(** ** The frame callback *)

(** An exception of [analyzeGesture] is caught and nothing is queued. *)
Lemma processVideoFrame_catches (seen : State) (videoReady : bool)
      (results : option (list Hand)) (now : Z) (st : State) (e : exn) :
  snd (analyzeGesture seen results None st) = Throw e ->
  processVideoFrame seen videoReady results now st = (st, Return tt).
Proof.
  intros H. unfold processVideoFrame.
  destruct (negb videoReady || negb (handLandmarker seen) || negb (isRecording seen));
    [reflexivity|].
  destruct (analyzeGesture_cases seen results None st)
    as [E | (hand & rest & points & -> & E)].
  - rewrite E in H. discriminate.
  - unfold try_catch, bind. revert H.
    rewrite (analyzeGesture_run _ _ _ _ _ _ E). cbv zeta.
    destruct (spec_arbiter seen points); simpl; [discriminate|reflexivity].
Qed.

Lemma processVideoFrame_history (seen : State) (videoReady : bool)
      (results : option (list Hand)) (now : Z) (st : State) :
  gestureHistory (fst (processVideoFrame seen videoReady results now st)) =
  match classification seen videoReady results st with
  | Some gr => slice_last 19 (gestureHistory st) ++ [mkEntry (gesture gr) now (confidence gr)]
  | None => gestureHistory st
  end.
Proof.
  unfold processVideoFrame, classification.
  destruct videoReady, (handLandmarker seen), (isRecording seen); simpl; try reflexivity.
  destruct results as [[|hand rest]|]; try reflexivity.
  pose proof (analyzeGesture_gestureHistory seen (Some (hand :: rest)) None st) as Hh.
  pose proof (analyzeGesture_label seen (Some (hand :: rest)) None st) as Hl.
  unfold try_catch, bind.
  destruct (analyzeGesture seen (Some (hand :: rest)) None st) as [st1 [[gr|]|e]];
    simpl in *; try (now rewrite Hh).
  destruct (classifierLabels_truthy _ (Hl gr eq_refl)) as [_ ->]. simpl.
  now rewrite Hh.
Qed.

(** * Properties of the specification *)

(** ** C1: priority of the static rules *)

(** C1 (as amended).  The rules of the Static Classifier are tried in a
    fixed order in which Open Palm comes before OK Hand: every hand that
    satisfies the Open-Palm conditions is classified Open Palm with
    confidence 83, whatever the distance between thumb tip and index tip.
    OK Hand (confidence 90) is the result exactly when none of the five
    finger-curl rules matches and that distance is below 0.05. *)
Theorem static_rules_priority :
  (forall points : list Point3D,
      allFingersUp points = Return true ->
      analyzeStaticGesture points = Return (Some (mkResult "Open Palm" 83))) /\
  (forall points : list Point3D,
      analyzeStaticGesture points = Return (Some (mkResult "OK Hand" 90)) <->
      thumbsUp points = Return false /\ peaceSign points = Return false /\
      pointing points = Return false /\ allFingersUp points = Return false /\
      allFingersDown points = Return false /\
      exists d, thumbIndexDistance points = Return d /\ (d <? 0.05) = true).
Proof.
  split.
  - exact open_palm_rule.
  - exact ok_hand_rule.
Qed.

Lemma static_rules_priority_witness :
  analyzeStaticGesture palmWithCircle = Return (Some (mkResult "Open Palm" 83)).
Proof.
  apply (proj1 static_rules_priority palmWithCircle). reflexivity.
Defined.

(** A hand of 21 points with four extended fingers and the thumb tip on
    the index tip satisfies the Open-Palm conditions and the OK-Hand
    distance condition, and is not classified OK Hand. *)
Lemma okhand_does_not_override :
  length palmWithCircle = 21%nat /\
  allFingersUp palmWithCircle = Return true /\
  (exists d, thumbIndexDistance palmWithCircle = Return d /\ (d <? 0.05) = true) /\
  analyzeStaticGesture palmWithCircle <> Return (Some (mkResult "OK Hand" 90)).
Proof.
  split; [reflexivity|]. split; [reflexivity|]. split.
  - exists 0. split; reflexivity.
  - vm_compute. discriminate.
Qed.

(** ** C2: malformed hands *)

(** C2 (as amended).  On a hand of at least 21 points neither the Static
    nor the Tracking Classifier throws, whatever the coordinates, finite or
    not, and both return [null] when the x and y of every point are NaN.
    On a hand of fewer than 21 points the Tracking Classifier throws a
    [TypeError], and so does the Static Classifier on fewer than 9 points;
    the frame callback catches what [analyzeGesture] throws and queues no
    update. *)
Theorem malformed_hands :
  (forall points : list Point3D,
      (21 <= length points)%nat ->
      (exists r, analyzeStaticGesture points = Return r) /\
      (exists r, analyzeTrackingGesture points = Return r)) /\
  (forall points : list Point3D,
      (21 <= length points)%nat ->
      (forall p, In p points -> x p = nan /\ y p = nan) ->
      analyzeStaticGesture points = Return None /\
      analyzeTrackingGesture points = Return None) /\
  (forall points : list Point3D,
      (length points < 21)%nat -> analyzeTrackingGesture points = Throw TypeError) /\
  (forall points : list Point3D,
      (length points < 9)%nat -> analyzeStaticGesture points = Throw TypeError) /\
  (forall (seen : State) (videoReady : bool) (results : option (list Hand))
          (now : Z) (st : State) (e : exn),
      snd (analyzeGesture seen results None st) = Throw e ->
      processVideoFrame seen videoReady results now st = (st, Return tt)).
Proof.
  repeat split.
  - now apply analyzeStaticGesture_total.
  - now apply analyzeTrackingGesture_total.
  - now apply analyzeStaticGesture_nan.
  - now apply analyzeTrackingGesture_nan.
  - exact analyzeTrackingGesture_short.
  - exact analyzeStaticGesture_short.
  - exact processVideoFrame_catches.
Qed.

Lemma malformed_hands_witness :
  ((exists r, analyzeStaticGesture (zeroHand ++ nanHand) = Return r) /\
   (exists r, analyzeTrackingGesture (zeroHand ++ nanHand) = Return r)) /\
  (analyzeStaticGesture nanHand = Return None /\
   analyzeTrackingGesture nanHand = Return None) /\
  analyzeTrackingGesture (firstn 20 zeroHand) = Throw TypeError /\
  analyzeStaticGesture (firstn 8 zeroHand) = Throw TypeError /\
  processVideoFrame recordingState true (resultsOf []) 0 recordingState
  = (recordingState, Return tt).
Proof.
  destruct malformed_hands as (Htotal & Hnan & Htrack & Hstatic & Hcatch).
  split; [|split; [|split; [|split]]].
  - apply Htotal. simpl. lia.
  - apply Hnan.
    + simpl. lia.
    + intros p Hp. apply repeat_spec in Hp. subst p. split; reflexivity.
  - apply Htrack. simpl. lia.
  - apply Hstatic. simpl. lia.
  - apply (Hcatch _ _ _ _ _ TypeError). reflexivity.
Defined.

(** The empty hand has fewer than 21 points and both classifiers throw on
    it instead of returning [null]; a hand of 21 points with an infinite
    coordinate is classified instead of being rejected. *)
Lemma short_hand_throws :
  (length (@nil Point3D) < 21)%nat /\
  analyzeStaticGesture [] = Throw TypeError /\
  analyzeStaticGesture [] <> Return None /\
  analyzeTrackingGesture [] = Throw TypeError /\
  analyzeTrackingGesture [] <> Return None /\
  analyzeTrackingGesture (firstn 20 zeroHand ++ [mkPoint infinity 0 0])
  = Return (Some (mkResult "Spread" 85)).
Proof.
  split; [simpl; lia|].
  split; [reflexivity|]. split; [discriminate|].
  split; [reflexivity|]. split; [discriminate|].
  reflexivity.
Qed.

(** ** C3: the degenerate hand *)

(** C3 (as amended).  On the hand whose 21 points are all zero no
    classifier throws: the Static Classifier returns OK Hand with confidence
    90 (thumb tip and index tip are at distance 0) and the Tracking
    Classifier returns Pinch with confidence 87 (the spread is 0).  The
    Dynamic Classifier reads frames, not the hand; it never throws, and on
    frames whose bytes are all zero it returns [null]. *)
Theorem degenerate_hand :
  length zeroHand = 21%nat /\
  analyzeStaticGesture zeroHand = Return (Some (mkResult "OK Hand" 90)) /\
  analyzeTrackingGesture zeroHand = Return (Some (mkResult "Pinch" 87)) /\
  (forall (thr : float) (frames : list ImageData),
      Forall allZero frames -> analyzeDynamicGesture thr frames = None).
Proof.
  split; [reflexivity|]. split; [reflexivity|]. split; [reflexivity|].
  exact analyzeDynamicGesture_allZero.
Qed.

Lemma degenerate_hand_witness :
  analyzeDynamicGesture 50 [blankFrame 2 2; blankFrame 2 2; blankFrame 2 2] = None.
Proof.
  apply (proj2 (proj2 (proj2 degenerate_hand))).
  repeat (constructor; [unfold allZero; simpl; repeat constructor|]).
  constructor.
Defined.

(** The all-zero hand is classified by the Static and by the Tracking
    Classifier. *)
Lemma degenerate_hand_not_null :
  analyzeStaticGesture zeroHand <> Return None /\
  analyzeTrackingGesture zeroHand <> Return None.
Proof.
  split; vm_compute; discriminate.
Qed.


(** ** C5: the arbiter *)

(** On a first hand that holds its points under [landmarks] the arbiter
    takes the result of the Static Classifier; under [frame_diff], with at
    least 3 frames buffered, the result of the Dynamic Classifier replaces
    it exactly when its confidence is strictly greater; under
    [object_detection] the result of the Tracking Classifier does, by the
    same rule. *)
Lemma arbiter_override_rule (seen : State) (hand : Hand) (rest : list Hand)
        (points : list Point3D) (fd : option ImageData) (st : State) :
  landmarks hand = Some points ->
  snd (analyzeGesture seen (Some (hand :: rest)) fd st) = spec_arbiter seen points.
Proof.
  intros H. rewrite (analyzeGesture_run _ _ _ _ _ _ H). cbv zeta.
  destruct (spec_arbiter seen points); reflexivity.
Qed.

Lemma arbiter_override_rule_witness :
  snd (analyzeGesture learningState (resultsOf thumbsUpHand) None learningState)
  = Return (Some (mkResult "Thumbs Up" 92)) /\
  analyzeTrackingGesture thumbsUpHand = Return (Some (mkResult "Pinch" 87)).
Proof.
  split; [|reflexivity].
  unfold resultsOf.
  rewrite (arbiter_override_rule learningState (mkHand (Some thumbsUpHand)) []
                                 thumbsUpHand None learningState eq_refl).
  reflexivity.
Defined.

(** ** C6: the gesture history *)

Lemma frames_run_history (st : State) (es : list HistoryEntry) (st' : State) :
  frames_run st es st' ->
  gestureHistory st' =
  match es with
  | [] => gestureHistory st
  | _ => slice_last 20 (gestureHistory st ++ es)
  end.
Proof.
  induction 1 as [st | seen ready results now gr st st' es Hc _ IH
                     | seen ready results now st st' es Hc _ IH].
  - reflexivity.
  - rewrite processVideoFrame_history, Hc, slice_last_snoc in IH.
    rewrite IH. destruct es as [|e es].
    + reflexivity.
    + rewrite slice_last_app, <- app_assoc. reflexivity.
  - rewrite processVideoFrame_history, Hc in IH. exact IH.
Qed.

(** C6.  The gesture history only grows at its end and keeps the 20 most
    recent entries: along any run of the frame callback its length stays
    within 20, it consists of the last 20 of the old entries followed by the
    new ones, and after 25 classified frames it has length 20 and holds
    entries 6 through 25 in arrival order. *)
Theorem history_bounded_fifo (st : State) (es : list HistoryEntry) (st' : State) :
  frames_run st es st' ->
  ((length (gestureHistory st) <= 20)%nat -> (length (gestureHistory st') <= 20)%nat) /\
  (es <> [] -> gestureHistory st' = slice_last 20 (gestureHistory st ++ es)) /\
  (length es = 25%nat ->
   length (gestureHistory st') = 20%nat /\ gestureHistory st' = skipn 5 es).
Proof.
  intros H. apply frames_run_history in H. split; [|split].
  - intros Hb. rewrite H. destruct es; [exact Hb|].
    rewrite slice_last_length. lia.
  - intros Hne. rewrite H. destruct es; [contradiction|reflexivity].
  - intros Hl. rewrite H. destruct es as [|e es]; [discriminate|].
    rewrite slice_last_suffix by lia. rewrite Hl. simpl Nat.sub.
    split; [|reflexivity]. rewrite length_skipn. lia.
Qed.

(** ** C7: the frame buffer *)

Lemma buffer_push {A : Type} (l : list A) (a : A) :
  (length l <= maxFrameBuffer)%nat ->
  (if (maxFrameBuffer <=? length l)%nat then slice_from1 l ++ [a] else l ++ [a])
  = slice_last maxFrameBuffer (l ++ [a]).
Proof.
  unfold maxFrameBuffer. intros H. destruct (10 <=? length l)%nat eqn:E.
  - apply Nat.leb_le in E. destruct l as [|b l]; [simpl in E; lia|].
    unfold slice_last, slice_from1. rewrite length_app. simpl length in *.
    replace (S (length l) + 1 - 10)%nat with 1%nat by lia.
    reflexivity.
  - apply Nat.leb_gt in E. rewrite slice_last_all; [reflexivity|].
    rewrite length_app. simpl. lia.
Qed.

(** With a callback that holds the current buffer on every call, the
    buffer consists of the last 10 of the old frames followed by the new
    ones. *)
Lemma submitFrames_buffer (fs : list ImageData) (st : State) :
  (length (frameBuffer st) <= maxFrameBuffer)%nat ->
  frameBuffer (submitFrames fs st) = slice_last maxFrameBuffer (frameBuffer st ++ fs) /\
  (length (frameBuffer (submitFrames fs st)) <= maxFrameBuffer)%nat.
Proof.
  unfold submitFrames. revert st. induction fs as [|f fs IH]; intros st Hb.
  - cbn [fold_left]. rewrite app_nil_r, slice_last_all by exact Hb. auto.
  - cbn [fold_left].
    set (st1 := fst (analyzeGesture st (resultsOf thumbsUpHand) (Some f) st)).
    assert (E : frameBuffer st1 = slice_last maxFrameBuffer (frameBuffer st ++ [f])).
    { unfold st1, resultsOf.
      rewrite (analyzeGesture_frameBuffer st (mkHand (Some thumbsUpHand)) []
                 thumbsUpHand f st eq_refl).
      apply buffer_push, Hb. }
    destruct (IH st1) as [IH1 IH2]; [rewrite E, slice_last_length; lia|].
    split; [|exact IH2].
    rewrite IH1, E, slice_last_app, <- app_assoc. reflexivity.
Qed.

(** *** Sample runs *)

Lemma classification_thumbsUp (st : State) :
  classification recordingState true (resultsOf thumbsUpHand) st
  = Some (mkResult "Thumbs Up" 92).
Proof.
  unfold classification, resultsOf. cbn [recordingState handLandmarker isRecording andb].
  rewrite (analyzeGesture_run recordingState (mkHand (Some thumbsUpHand)) []
                              thumbsUpHand None st eq_refl).
  reflexivity.
Qed.

Lemma replayFrames_run (nows : list Z) (st : State) :
  frames_run st (map (fun now => mkEntry "Thumbs Up" now 92) nows) (replayFrames nows st).
Proof.
  revert st. induction nows as [|now nows IH]; intros st.
  - apply run_done.
  - apply (run_classified recordingState true (resultsOf thumbsUpHand) now
                          (mkResult "Thumbs Up" 92)).
    + apply classification_thumbsUp.
    + apply IH.
Qed.

Lemma history_bounded_fifo_witness :
  length (gestureHistory (replayFrames sampleTimes recordingState)) = 20%nat /\
  gestureHistory (replayFrames sampleTimes recordingState) = skipn 5 sampleEntries.
Proof.
  apply (history_bounded_fifo recordingState sampleEntries
                              (replayFrames sampleTimes recordingState)).
  - apply replayFrames_run.
  - reflexivity.
Defined.

(** ** C8: reset *)

(** C8.  From every state, recording or not, [resetSession] returns
    without throwing and leaves the session statistics at
    [{gesturesDetected: 0, accuracy: 0, sessionTime: 0}], the gesture
    history, the gesture sequence and the frame buffer empty, and the custom
    gestures as they were. *)
Theorem reset_clears_session (st : State) :
  snd (resetSession st) = Return tt /\
  sessionStats (fst (resetSession st)) = mkStats 0 0 0 /\
  gestureHistory (fst (resetSession st)) = [] /\
  gestureSequence (fst (resetSession st)) = [] /\
  frameBuffer (fst (resetSession st)) = [] /\
  customGestures (fst (resetSession st)) = customGestures st /\
  isRecording (fst (resetSession st)) = isRecording st.
Proof.
  repeat split.
Qed.

(** ** C9: learning mode *)

(** With a callback whose closure holds the current custom gestures, a
    frame in learning mode adds the winning label exactly when the winning
    confidence is strictly greater than 70 and the label is not among them
    yet; for a label "Spread" that is not among them, confidence 90 adds it
    and confidence 65 adds nothing. *)
Lemma learning_with_current_closure :
  (forall (seen : State) (lms : option (list Hand)) (fd : option ImageData) (st : State),
      isLearningMode seen = true ->
      customGestures seen = customGestures st ->
      customGestures (fst (analyzeGesture seen lms fd st)) =
      match snd (analyzeGesture seen lms fd st) with
      | Return (Some r) =>
          if Num.gtb (confidence r) 70 && negb (includes (gesture r) (customGestures st))
          then customGestures st ++ [gesture r]
          else customGestures st
      | _ => customGestures st
      end) /\
  (forall (seen st : State),
      isLearningMode seen = true ->
      customGestures seen = customGestures st ->
      includes "Spread" (customGestures st) = false ->
      customGestures (fst (captureCustomGesture seen (Some "Spread"%string) 90 st))
      = customGestures st ++ ["Spread"%string] /\
      customGestures (fst (captureCustomGesture seen (Some "Spread"%string) 65 st))
      = customGestures st).
Proof.
  split.
  - intros seen lms fd st Hl Hc.
    destruct (analyzeGesture_cases seen lms fd st)
      as [-> | (hand & rest & points & -> & E)]; [reflexivity|].
    rewrite (analyzeGesture_run _ _ _ _ _ _ E). cbv zeta.
    assert (H1 : forall f, customGestures (setFrameBuffer f st) = customGestures st)
      by reflexivity.
    destruct (spec_arbiter seen points) as [[r|]|] eqn:Ea; cbn [fst snd].
    + rewrite captureCustomGesture_customGestures. cbn [option_map winnerConfidence].
      destruct (classifierLabels_truthy _ (spec_arbiter_label _ _ _ Ea)) as [-> _].
      rewrite Hl, Hc. cbn [andb].
      destruct fd; [destruct (_ <=? _)%nat|]; reflexivity.
    + rewrite captureCustomGesture_customGestures. cbn [option_map].
      destruct fd; [destruct (_ <=? _)%nat|]; reflexivity.
    + destruct fd; [destruct (_ <=? _)%nat|]; reflexivity.
  - intros seen st Hl Hc Hi.
    rewrite !captureCustomGesture_customGestures, Hl, Hc, Hi. split; reflexivity.
Qed.

(** The membership test of [addCustomGesture] reads the custom gestures
    its closure captured, the append applies to the current ones: a label
    that the closure does not hold is appended whether or not the state
    holds it already. *)
Lemma learning_with_stale_closure (seen st : State) (g : string) (c : float) :
  isLearningMode seen = true -> truthy g = true -> Num.gtb c 70 = true ->
  includes g (customGestures seen) = false ->
  customGestures (fst (captureCustomGesture seen (Some g) c st)) = customGestures st ++ [g].
Proof.
  intros Hl Ht Hc Hi.
  now rewrite captureCustomGesture_customGestures, Hl, Ht, Hc, Hi.
Qed.

(** Two consecutive frames in learning mode, with the same thumbs-up hand
    held under [landmarks], go through the same memoised [analyzeGesture]:
    the first frame changes none of its dependencies, so the closure still
    holds the empty custom gestures on the second frame.  The first frame
    adds "Thumbs Up"; on the second frame the winner is again "Thumbs Up"
    with confidence 92, the label is already among the custom gestures, and
    it is added a second time. *)
Lemma stale_closure_learns_twice :
  frameBuffer afterFirstFrame = frameBuffer learningState /\
  detectionMethod afterFirstFrame = detectionMethod learningState /\
  isLearningMode afterFirstFrame = isLearningMode learningState /\
  customGestures afterFirstFrame = ["Thumbs Up"%string] /\
  snd (analyzeGesture learningState (resultsOf thumbsUpHand) None afterFirstFrame)
  = Return (Some (mkResult "Thumbs Up" 92)) /\
  includes "Thumbs Up" (customGestures afterFirstFrame) = true /\
  customGestures afterSecondFrame = ["Thumbs Up"%string; "Thumbs Up"%string].
Proof.
  repeat split.
Qed.

(** ** C10: the labels *)

(** C10.  Every result of the Static, the Dynamic and the Tracking
    Classifier carries one of the twelve labels Thumbs Up, Peace Sign,
    Pointing, Open Palm, Fist, OK Hand, Swipe Right, Swipe Left, Swipe Up,
    Swipe Down, Pinch and Spread; "Unknown" is not among them, so the label
    of a result of [analyzeGesture] is never "Unknown" and the check in the
    frame callback rejects nothing. *)
Theorem classifiers_never_unknown :
  (forall (points : list Point3D) (r : GestureResult),
      analyzeStaticGesture points = Return (Some r) -> In (gesture r) classifierLabels) /\
  (forall (thr : float) (frames : list ImageData) (r : GestureResult),
      analyzeDynamicGesture thr frames = Some r -> In (gesture r) classifierLabels) /\
  (forall (points : list Point3D) (r : GestureResult),
      analyzeTrackingGesture points = Return (Some r) -> In (gesture r) classifierLabels) /\
  ~ In "Unknown"%string classifierLabels /\
  (forall (seen : State) (lms : option (list Hand)) (fd : option ImageData)
          (st : State) (r : GestureResult),
      snd (analyzeGesture seen lms fd st) = Return (Some r) ->
      In (gesture r) classifierLabels /\ String.eqb (gesture r) "Unknown" = false).
Proof.
  split; [exact analyzeStaticGesture_label|].
  split; [exact analyzeDynamicGesture_label|].
  split; [exact analyzeTrackingGesture_label|].
  split.
  - intros H. apply classifierLabels_truthy in H. destruct H as [_ H]. discriminate.
  - intros seen lms fd st r H. apply analyzeGesture_label in H.
    split; [exact H|]. now apply classifierLabels_truthy.
Qed.

Lemma classifiers_never_unknown_witness :
  In "Thumbs Up"%string classifierLabels /\
  In "Swipe Right"%string classifierLabels /\
  In "Pinch"%string classifierLabels /\
  String.eqb "Thumbs Up" "Unknown" = false.
Proof.
  destruct classifiers_never_unknown as (Hs & Hd & Ht & _ & Ha).
  split; [|split; [|split]].
  - apply (Hs thumbsUpHand (mkResult "Thumbs Up" 92)). reflexivity.
  - apply (Hd 50 [flatFrame 10 10; flatFrame 10 10; rightShiftedFrame 10 10]
              (mkResult "Swipe Right" 85)). vm_compute. reflexivity.
  - apply (Ht thumbsUpHand (mkResult "Pinch" 87)). reflexivity.
  - apply (Ha recordingState (resultsOf thumbsUpHand) None recordingState
              (mkResult "Thumbs Up" 92)). reflexivity.
Defined.


(** * Further properties of the code *)

(** ** The rules of the static classifier *)

Lemma y_gt_not_lt (points : list Point3D) (i j : nat) :
  y_gt points i j = Return true -> y_lt points i j = Return false.
Proof.
  unfold y_lt, y_gt, Num.gtb.
  destruct (py points i); [|discriminate]. destruct (py points j); [|discriminate].
  simpl. intros [= H]. now rewrite (ltb_asym _ _ H).
Qed.

Lemma y_gt_defined (points : list Point3D) (i j : nat) (b : bool) :
  y_gt points i j = Return b -> (i < length points)%nat /\ (j < length points)%nat.
Proof.
  unfold y_gt. destruct (py points i) eqn:Ei; [|discriminate].
  destruct (py points j) eqn:Ej; [|discriminate].
  intros _. split; eapply py_defined; eauto.
Qed.

Lemma thumbsUp_true (points : list Point3D) :
  thumbsUp points = Return true <->
  thumbUp points = Return true /\ allFingersDown points = Return true.
Proof.
  unfold thumbsUp. change (allFingersDown points) with (otherFingersDown points).
  destruct (thumbUp points) as [[|]|]; simpl; split;
    try discriminate; try (intros [H1 H2]; discriminate || assumption); auto.
Qed.

Lemma analyzeStaticGesture_results (points : list Point3D) (r : GestureResult) :
  analyzeStaticGesture points = Return (Some r) -> In r staticResults.
Proof.
  unfold analyzeStaticGesture, staticResults.
  destruct (thumbsUp points) as [[|]|]; simpl; try discriminate;
    [intros [= <-]; tauto|].
  destruct (peaceSign points) as [[|]|]; simpl; try discriminate;
    [intros [= <-]; tauto|].
  destruct (pointing points) as [[|]|]; simpl; try discriminate;
    [intros [= <-]; tauto|].
  destruct (allFingersUp points) as [[|]|]; simpl; try discriminate;
    [intros [= <-]; tauto|].
  destruct (allFingersDown points) as [[|]|]; simpl; try discriminate;
    [intros [= <-]; tauto|].
  destruct (thumbIndexDistance points) as [d|]; simpl; try discriminate.
  destruct (d <? 0.05); try discriminate. intros [= <-]; tauto.
Qed.

Lemma analyzeTrackingGesture_results (points : list Point3D) (r : GestureResult) :
  analyzeTrackingGesture points = Return (Some r) -> In r trackingResults.
Proof.
  unfold analyzeTrackingGesture, trackingResults.
  destruct (totalSpread points) as [t|]; simpl; try discriminate.
  destruct (t <? 0.15); [intros [= <-]; tauto|].
  destruct (Num.gtb t 0.4); [intros [= <-]; tauto|discriminate].
Qed.

(** X1.  Thumbs Up and Fist differ by the thumb alone: the Static
    Classifier returns Thumbs Up (92) exactly when the thumb tip is above
    both thumb joints and the four fingers are curled, and Fist (80)
    exactly when the four fingers are curled and the thumb tip is not above
    both joints. *)
Theorem thumbs_up_or_fist (points : list Point3D) :
  (analyzeStaticGesture points = Return (Some (mkResult "Thumbs Up" 92)) <->
   thumbUp points = Return true /\ allFingersDown points = Return true) /\
  (analyzeStaticGesture points = Return (Some (mkResult "Fist" 80)) <->
   thumbUp points = Return false /\ allFingersDown points = Return true).
Proof.
  split.
  - rewrite <- thumbsUp_true. unfold analyzeStaticGesture. split.
    + destruct (thumbsUp points) as [[|]|]; simpl; try discriminate; [reflexivity|].
      destruct (peaceSign points) as [[|]|]; simpl; try discriminate.
      destruct (pointing points) as [[|]|]; simpl; try discriminate.
      destruct (allFingersUp points) as [[|]|]; simpl; try discriminate.
      destruct (allFingersDown points) as [[|]|]; simpl; try discriminate.
      destruct (thumbIndexDistance points) as [d|]; simpl; try discriminate.
      destruct (d <? 0.05); discriminate.
    + intros ->. reflexivity.
  - split.
    + unfold analyzeStaticGesture.
      destruct (thumbsUp points) as [[|]|] eqn:Et; simpl; try discriminate.
      destruct (peaceSign points) as [[|]|]; simpl; try discriminate.
      destruct (pointing points) as [[|]|]; simpl; try discriminate.
      destruct (allFingersUp points) as [[|]|]; simpl; try discriminate.
      destruct (allFingersDown points) as [[|]|] eqn:Ed; simpl; try discriminate.
      * intros _. split; [|reflexivity].
        revert Et. unfold thumbsUp.
        change (otherFingersDown points) with (allFingersDown points). rewrite Ed.
        destruct (thumbUp points) as [[|]|]; simpl; congruence.
      * destruct (thumbIndexDistance points) as [d|]; simpl; try discriminate.
        destruct (d <? 0.05); discriminate.
    + intros [Ht Hd]. pose proof Hd as Hd'. unfold allFingersDown in Hd.
      apply oand_true in Hd as [Hd H4]. apply oand_true in Hd as [Hd H3].
      apply oand_true in Hd as [H1 H2].
      pose proof (y_gt_not_lt _ _ _ H1) as G1.
      unfold analyzeStaticGesture, thumbsUp, peaceSign, pointing, allFingersUp.
      rewrite Ht, Hd', G1. reflexivity.
Qed.

Lemma thumbs_up_or_fist_witness :
  analyzeStaticGesture thumbsUpHand = Return (Some (mkResult "Thumbs Up" 92)).
Proof.
  apply (proj1 (thumbs_up_or_fist thumbsUpHand)). split; reflexivity.
Defined.

(** X2.  Peace Sign and Pointing are decided by their own finger
    conditions: the Static Classifier returns Peace Sign (88) exactly when
    index and middle are extended and ring and pinky curled, and Pointing
    (85) exactly when the index is extended and the three others curled,
    whatever the thumb does. *)
Theorem peace_sign_and_pointing (points : list Point3D) :
  (analyzeStaticGesture points = Return (Some (mkResult "Peace Sign" 88)) <->
   peaceSign points = Return true) /\
  (analyzeStaticGesture points = Return (Some (mkResult "Pointing" 85)) <->
   pointing points = Return true).
Proof.
  assert (Hthumb : forall b, y_lt points 8 6 = Return true ->
                             y_gt points 20 18 = Return b ->
                             thumbsUp points = Return false).
  { intros b H1 H4. destruct (y_gt_defined _ _ _ _ H4) as [L _].
    destruct (thumbUp_total points) as [tu Htu]; [lia|].
    unfold thumbsUp, otherFingersDown. rewrite Htu, (y_lt_not_gt _ _ _ H1).
    destruct tu; reflexivity. }
  split; split.
  - unfold analyzeStaticGesture.
    destruct (thumbsUp points) as [[|]|]; simpl; try discriminate.
    destruct (peaceSign points) as [[|]|]; simpl; try discriminate; [reflexivity|].
    destruct (pointing points) as [[|]|]; simpl; try discriminate.
    destruct (allFingersUp points) as [[|]|]; simpl; try discriminate.
    destruct (allFingersDown points) as [[|]|]; simpl; try discriminate.
    destruct (thumbIndexDistance points) as [d|]; simpl; try discriminate.
    destruct (d <? 0.05); discriminate.
  - intros H. pose proof H as H'. unfold peaceSign in H.
    apply oand_true in H as [H H4]. apply oand_true in H as [H H3].
    apply oand_true in H as [H1 H2].
    unfold analyzeStaticGesture. rewrite (Hthumb _ H1 H4), H'. reflexivity.
  - unfold analyzeStaticGesture.
    destruct (thumbsUp points) as [[|]|]; simpl; try discriminate.
    destruct (peaceSign points) as [[|]|]; simpl; try discriminate.
    destruct (pointing points) as [[|]|]; simpl; try discriminate; [reflexivity|].
    destruct (allFingersUp points) as [[|]|]; simpl; try discriminate.
    destruct (allFingersDown points) as [[|]|]; simpl; try discriminate.
    destruct (thumbIndexDistance points) as [d|]; simpl; try discriminate.
    destruct (d <? 0.05); discriminate.
  - intros H. pose proof H as H'. unfold pointing in H.
    apply oand_true in H as [H H4]. apply oand_true in H as [H H3].
    apply oand_true in H as [H1 H2].
    unfold analyzeStaticGesture, peaceSign.
    rewrite (Hthumb _ H1 H4), H', H1, (y_gt_not_lt _ _ _ H2). reflexivity.
Qed.

Lemma peace_sign_and_pointing_witness :
  analyzeStaticGesture
    (handOfYs [0.9; 0.8; 0.7; 0.6; 0.5;
               0.7; 0.6; 0.55; 0.5;
               0.7; 0.6; 0.55; 0.5;
               0.6; 0.6; 0.65; 0.7;
               0.6; 0.6; 0.65; 0.7])
  = Return (Some (mkResult "Peace Sign" 88)).
Proof.
  apply (proj1 (peace_sign_and_pointing _)). reflexivity.
Defined.

(** X3.  The Static Classifier reads the heights of landmarks 2, 3, 4, 6,
    8, 10, 12, 14, 16, 18 and 20 and the abscissas of landmarks 4 and 8, and
    nothing else: two hands on which these reads agree get the same
    outcome, whatever their depths, their wrists and their other
    landmarks. *)
Theorem static_reads (p q : list Point3D) :
  (forall i, In i staticHeights -> py p i = py q i) ->
  px p 4 = px q 4 -> px p 8 = px q 8 ->
  analyzeStaticGesture p = analyzeStaticGesture q.
Proof.
  intros H X4 X8.
  assert (E : forall i, In i staticHeights -> py p i = py q i) by exact H.
  unfold staticHeights in E.
  unfold analyzeStaticGesture, thumbsUp, thumbUp, otherFingersDown, peaceSign,
    pointing, allFingersUp, allFingersDown, thumbIndexDistance, y_lt, y_gt.
  rewrite X4, X8.
  rewrite (E 2%nat), (E 3%nat), (E 4%nat), (E 6%nat), (E 8%nat), (E 10%nat),
    (E 12%nat), (E 14%nat), (E 16%nat), (E 18%nat), (E 20%nat) by (simpl; tauto).
  reflexivity.
Qed.

(** X4.  The Tracking Classifier reads the x and y of the fingertips 8,
    12, 16 and 20 and nothing else; the wrist it names is never used. *)
Theorem tracking_reads (p q : list Point3D) :
  (forall i, In i fingertipIndices -> px p i = px q i /\ py p i = py q i) ->
  analyzeTrackingGesture p = analyzeTrackingGesture q.
Proof.
  intros H.
  assert (E : forall i, In i fingertipIndices ->
                match nth_error p i, nth_error q i with
                | Some a, Some b => x a = x b /\ y a = y b
                | None, None => True
                | _, _ => False
                end).
  { intros i Hi. destruct (H i Hi) as [Hx Hy]. unfold px, py in Hx, Hy.
    destruct (nth_error p i), (nth_error q i); try discriminate; auto.
    split; congruence. }
  unfold fingertipIndices in E.
  pose proof (E 8%nat ltac:(simpl; tauto)) as E8.
  pose proof (E 12%nat ltac:(simpl; tauto)) as E12.
  pose proof (E 16%nat ltac:(simpl; tauto)) as E16.
  pose proof (E 20%nat ltac:(simpl; tauto)) as E20.
  unfold analyzeTrackingGesture. rewrite !totalSpread_eq.
  unfold spreadStep, fingertip, fingertips. cbn [Nat.add].
  destruct (nth_error p 8) as [a8|], (nth_error q 8) as [b8|]; try contradiction;
    destruct (nth_error p 12) as [a12|], (nth_error q 12) as [b12|]; try contradiction;
    destruct (nth_error p 16) as [a16|], (nth_error q 16) as [b16|]; try contradiction;
    destruct (nth_error p 20) as [a20|], (nth_error q 20) as [b20|]; try contradiction;
    cbn [obind]; try reflexivity.
  destruct E8 as [-> ->], E12 as [-> ->], E16 as [-> ->], E20 as [-> ->].
  reflexivity.
Qed.

Lemma static_reads_witness :
  analyzeStaticGesture (map (fun pt => mkPoint (x pt) (y pt) 7) thumbsUpHand)
  = analyzeStaticGesture thumbsUpHand.
Proof.
  apply static_reads.
  - intros i Hi. unfold staticHeights in Hi. simpl in Hi.
    repeat (destruct Hi as [<-|Hi]; [reflexivity|]). contradiction.
  - reflexivity.
  - reflexivity.
Defined.

Lemma tracking_reads_witness :
  analyzeTrackingGesture (mkPoint 9 9 9 :: tl thumbsUpHand)
  = analyzeTrackingGesture thumbsUpHand.
Proof.
  apply tracking_reads.
  intros i Hi. unfold fingertipIndices in Hi. simpl in Hi.
  repeat (destruct Hi as [<-|Hi]; [split; reflexivity|]). contradiction.
Defined.


(** ** What the arbiter returns *)

Lemma compare_cont_Eq (m k : positive) :
  PosDef.Pos.compare_cont Eq m k = Pos.compare m k.
Proof. reflexivity. Qed.

Lemma mantissa_85_92 (m : positive) :
  (m ?= 5981343255101440)%positive <> Gt -> (m ?= 6473924464345088)%positive <> Gt.
Proof.
  intros H G. apply Pos.compare_gt_iff in G.
  destruct (m ?= 5981343255101440)%positive eqn:E; [| |congruence].
  - apply Pos.compare_eq in E. subst m. vm_compute in G. discriminate.
  - apply Pos.compare_lt_iff in E.
    pose proof (Pos.lt_trans _ _ _ G E) as K. vm_compute in K. discriminate.
Qed.

Lemma leb_85_92 (v : float) : (v <=? 85) = true -> (v <=? 92) = true.
Proof.
  rewrite !leb_spec.
  change (Prim2SF 85) with (S754_finite false 5981343255101440 (-46)).
  change (Prim2SF 92) with (S754_finite false 6473924464345088 (-46)).
  unfold SFleb.
  destruct (Prim2SF v) as [s|s| |s m e]; cbn [SFcompare]; auto;
    try (destruct s; intros; (reflexivity || assumption)).
  destruct s; [reflexivity|].
  destruct (e ?= -46)%Z; auto.
  rewrite (compare_cont_Eq m 5981343255101440), (compare_cont_Eq m 6473924464345088).
  pose proof (mantissa_85_92 m) as T.
  destruct (m ?= 5981343255101440)%positive; try discriminate; intros _;
    destruct (m ?= 6473924464345088)%positive; try reflexivity;
    exfalso; apply T; congruence.
Qed.

Lemma includes_In (g : string) (l : list string) :
  includes g l = true <-> In g l.
Proof.
  unfold includes. rewrite existsb_exists. split.
  - intros (h & Hh & E). apply String.eqb_eq in E. now subst.
  - intros H. exists g. split; [exact H|apply String.eqb_refl].
Qed.

(** The outcome of [analyzeGesture] is [null] without a hand and the
    arbitration of the classifiers otherwise. *)
Lemma analyzeGesture_outcome (seen : State) (lms : option (list Hand))
      (fd : option ImageData) (st : State) :
  snd (analyzeGesture seen lms fd st) = Return None \/
  exists hand rest points,
    lms = Some (hand :: rest) /\ landmarks hand = Some points /\
    snd (analyzeGesture seen lms fd st) = spec_arbiter seen points.
Proof.
  destruct (analyzeGesture_cases seen lms fd st) as [-> | (hand & rest & points & -> & E)];
    [left; reflexivity|].
  right. exists hand, rest, points. split; [reflexivity|]. split; [exact E|].
  rewrite (analyzeGesture_run _ _ _ _ _ _ E). cbv zeta.
  destruct (spec_arbiter seen points); reflexivity.
Qed.

Lemma spec_arbiter_results (seen : State) (points : list Point3D) (r : GestureResult) :
  detectionMethod seen <> frame_diff ->
  spec_arbiter seen points = Return (Some r) ->
  In r (staticResults ++ trackingResults).
Proof.
  intros Hm. unfold spec_arbiter, spec_override.
  destruct (analyzeStaticGesture points) as [s|] eqn:Es; cbn [obind]; [|discriminate].
  assert (Hs : forall q, s = Some q -> In q (staticResults ++ trackingResults))
    by (intros q ->; apply in_or_app; left; eapply analyzeStaticGesture_results; eauto).
  destruct (detectionMethod seen); [|contradiction|].
  - intros [= ->]. now apply Hs.
  - destruct (analyzeTrackingGesture points) as [[tg|]|] eqn:Et; cbn [obind];
      try discriminate; [|intros [= ->]; now apply Hs].
    destruct (winnerConfidence s <? confidence tg); intros [= E].
    + subst tg. apply in_or_app. right.
      eapply analyzeTrackingGesture_results; eauto.
    + now apply Hs.
Qed.

Ltac each_result H :=
  simpl in H; repeat (destruct H as [<-|H]; [|]); [..|contradiction].

(** X5.  Under object detection, when both classifiers match: Thumbs Up,
    Peace Sign and OK Hand are never replaced by the tracking result, Open
    Palm and Fist always are, and Pointing is replaced by Pinch but not by
    Spread (equal confidence does not replace). *)
Theorem tracking_override_table (seen : State) (hand : Hand) (rest : list Hand)
        (points : list Point3D) (fd : option ImageData) (st : State)
        (s t : GestureResult) :
  detectionMethod seen = object_detection ->
  landmarks hand = Some points ->
  analyzeStaticGesture points = Return (Some s) ->
  analyzeTrackingGesture points = Return (Some t) ->
  exists w,
    snd (analyzeGesture seen (Some (hand :: rest)) fd st) = Return (Some w) /\
    (In (gesture s) ["Thumbs Up"; "Peace Sign"; "OK Hand"]%string -> w = s) /\
    (In (gesture s) ["Open Palm"; "Fist"]%string -> w = t) /\
    (gesture s = "Pointing"%string ->
     w = if String.eqb (gesture t) "Pinch" then t else s).
Proof.
  intros Hm Hl Hs Ht.
  destruct (analyzeGesture_outcome seen (Some (hand :: rest)) fd st)
    as [E | (h & r & p & [= <- <-] & Hl' & ->)].
  - rewrite (analyzeGesture_run _ _ _ _ _ _ Hl) in E. cbv zeta in E.
    unfold spec_arbiter in E. rewrite Hs, Hm, Ht in E. simpl in E.
    unfold spec_override in E. destruct (_ <? _) in E; discriminate.
  - assert (p = points) by congruence. subst p.
    unfold spec_arbiter, spec_override. rewrite Hs, Hm, Ht. cbn [obind winnerConfidence].
    pose proof (analyzeStaticGesture_results _ _ Hs) as Is.
    pose proof (analyzeTrackingGesture_results _ _ Ht) as It.
    unfold staticResults in Is. unfold trackingResults in It.
    each_result Is; each_result It;
      (eexists; split; [reflexivity|]; simpl;
       repeat split; intros; try reflexivity;
       repeat match goal with
              | H : _ \/ _ |- _ => destruct H
              | H : False |- _ => contradiction
              | H : _ = _ |- _ => discriminate H
              end).
Qed.

Lemma tracking_override_table_witness :
  snd (analyzeGesture learningState (resultsOf thumbsUpHand) None learningState)
  = Return (Some (mkResult "Thumbs Up" 92)).
Proof.
  destruct (tracking_override_table learningState (mkHand (Some thumbsUpHand)) []
              thumbsUpHand None learningState
              (mkResult "Thumbs Up" 92) (mkResult "Pinch" 87)
              eq_refl eq_refl eq_refl eq_refl) as (w & Hw & Hkeep & _).
  rewrite (Hkeep ltac:(simpl; tauto)) in Hw. exact Hw.
Defined.

(** X6.  Unless the detection method is frame difference, every winner
    has a confidence above the learning threshold of 70: in learning mode,
    with a closure that holds the current custom gestures, the winning
    label is among the custom gestures after the frame. *)
Theorem learning_threshold_always_met (seen : State) (lms : option (list Hand))
        (fd : option ImageData) (st : State) (r : GestureResult) :
  detectionMethod seen <> frame_diff ->
  snd (analyzeGesture seen lms fd st) = Return (Some r) ->
  Num.gtb (confidence r) 70 = true /\
  (isLearningMode seen = true -> customGestures seen = customGestures st ->
   In (gesture r) (customGestures (fst (analyzeGesture seen lms fd st)))).
Proof.
  intros Hm Hr.
  assert (Hc : Num.gtb (confidence r) 70 = true).
  { destruct (analyzeGesture_outcome seen lms fd st)
      as [E | (h & rs & p & -> & Hl & E)]; [congruence|].
    rewrite E in Hr. apply (spec_arbiter_results _ _ _ Hm) in Hr.
    unfold staticResults, trackingResults in Hr.
    each_result Hr; reflexivity. }
  split; [exact Hc|]. intros Hl Hcg.
  rewrite (proj1 learning_with_current_closure seen lms fd st Hl Hcg), Hr, Hc.
  cbn [andb]. destruct (includes (gesture r) (customGestures st)) eqn:Ei; cbn [negb].
  - now apply includes_In.
  - apply in_or_app. right. now left.
Qed.

Lemma learning_threshold_always_met_witness :
  Num.gtb 92 70 = true /\
  In "Thumbs Up"%string
     (customGestures (fst (analyzeGesture learningState (resultsOf thumbsUpHand)
                                          None learningState))).
Proof.
  destruct (learning_threshold_always_met learningState (resultsOf thumbsUpHand) None
              learningState (mkResult "Thumbs Up" 92)) as [H1 H2].
  - discriminate.
  - reflexivity.
  - split; [exact H1|]. apply H2; reflexivity.
Defined.

(** X7.  No classification carries a confidence above 92, whatever the
    detection method, the buffer and the hand. *)
Theorem confidence_at_most_92 (seen : State) (lms : option (list Hand))
        (fd : option ImageData) (st : State) (r : GestureResult) :
  snd (analyzeGesture seen lms fd st) = Return (Some r) ->
  (confidence r <=? 92) = true.
Proof.
  intros Hr.
  destruct (analyzeGesture_outcome seen lms fd st)
    as [E | (h & rs & p & -> & Hl & E)]; [congruence|].
  rewrite E in Hr. clear E. revert Hr. unfold spec_arbiter, spec_override.
  destruct (analyzeStaticGesture p) as [s|] eqn:Es; cbn [obind]; [|discriminate].
  assert (Hs : forall q, s = Some q -> (confidence q <=? 92) = true).
  { intros q ->. apply analyzeStaticGesture_results in Es.
    unfold staticResults in Es. each_result Es; reflexivity. }
  assert (Hd : forall q, analyzeDynamicGesture (motionThreshold seen) (frameBuffer seen)
                         = Some q -> (confidence q <=? 92) = true).
  { intros q. unfold analyzeDynamicGesture.
    destruct (length (frameBuffer seen) <? 3)%nat; [discriminate|].
    destruct (nth_error _ _) as [c|]; [|discriminate].
    destruct (nth_error _ _) as [pv|]; [|discriminate].
    intros Hq. destruct (Num.gtb (motionMagnitude (accumulateMotion (motionThreshold seen) c pv)) 1000) eqn:Hm.
    - destruct (classifyMotion_above _ Hm) as (q' & Hq' & _ & Hle & _).
      rewrite Hq in Hq'. inversion Hq'; subst. now apply leb_85_92.
    - rewrite (classifyMotion_below _ Hm) in Hq. discriminate. }
  destruct (detectionMethod seen).
  - intros [= ->]. now apply Hs.
  - destruct (3 <=? length (frameBuffer seen))%nat; [|intros [= ->]; now apply Hs].
    destruct (analyzeDynamicGesture _ _) as [dg|] eqn:Ed; [|intros [= ->]; now apply Hs].
    destruct (winnerConfidence s <? confidence dg); intros [= E].
    + inversion E; subst. now apply Hd.
    + now apply Hs.
  - destruct (analyzeTrackingGesture p) as [[tg|]|] eqn:Et; cbn [obind];
      try discriminate; [|intros [= ->]; now apply Hs].
    destruct (winnerConfidence s <? confidence tg); intros [= E].
    + inversion E; subst. apply analyzeTrackingGesture_results in Et.
      unfold trackingResults in Et. each_result Et; reflexivity.
    + now apply Hs.
Qed.

Lemma confidence_at_most_92_witness :
  (92 <=? 92) = true.
Proof.
  apply (confidence_at_most_92 recordingState (resultsOf thumbsUpHand) None
                               recordingState (mkResult "Thumbs Up" 92)).
  reflexivity.
Defined.

(** X8.  Every label a classifier returns is one the panel lists as
    available: static labels are among the ten "Standard Gestures", dynamic
    and tracking labels among the "Dynamic Gestures".  The listed labels
    Stop, Victory, Hello and Goodbye are never returned. *)
Theorem labels_are_listed :
  (forall (points : list Point3D) (r : GestureResult),
      analyzeStaticGesture points = Return (Some r) -> In (gesture r) standardGestures) /\
  (forall (thr : float) (frames : list ImageData) (r : GestureResult),
      analyzeDynamicGesture thr frames = Some r -> In (gesture r) dynamicGestures) /\
  (forall (points : list Point3D) (r : GestureResult),
      analyzeTrackingGesture points = Return (Some r) -> In (gesture r) dynamicGestures) /\
  (forall (seen : State) (lms : option (list Hand)) (fd : option ImageData)
          (st : State) (r : GestureResult),
      snd (analyzeGesture seen lms fd st) = Return (Some r) ->
      In (gesture r) gestureLabels /\
      ~ In (gesture r) ["Stop"; "Victory"; "Hello"; "Goodbye"]%string).
Proof.
  split; [|split; [|split]].
  - intros points r H. apply analyzeStaticGesture_results in H.
    unfold staticResults in H. each_result H; simpl; tauto.
  - intros thr frames r. unfold analyzeDynamicGesture.
    destruct (length frames <? 3)%nat; [discriminate|].
    destruct (nth_error _ _); [|discriminate].
    destruct (nth_error _ _); [|discriminate].
    unfold classifyMotion.
    destruct (Num.gtb (motionMagnitude _) 1000); [|discriminate].
    destruct (Num.gtb (abs _) (abs _)); intros [= <-]; simpl;
      match goal with |- context [if ?c then _ else _] => destruct c end; tauto.
  - intros points r H. apply analyzeTrackingGesture_results in H.
    unfold trackingResults in H. each_result H; simpl; tauto.
  - intros seen lms fd st r H. apply analyzeGesture_label in H.
    unfold classifierLabels in H. simpl in H.
    repeat (destruct H as [<-|H];
            [split; [simpl; tauto | simpl; intuition discriminate]|]).
    contradiction.
Qed.

Lemma labels_are_listed_witness :
  In "Thumbs Up"%string standardGestures /\ In "Pinch"%string dynamicGestures.
Proof.
  destruct labels_are_listed as (Hs & _ & Ht & _).
  split.
  - apply (Hs thumbsUpHand (mkResult "Thumbs Up" 92)). reflexivity.
  - apply (Ht thumbsUpHand (mkResult "Pinch" 87)). reflexivity.
Defined.

(** X9.  Unless the detection method is frame difference, the line under
    the confidence bar never asks to adjust the hand: it reads "Good
    recognition" for a Fist and "Excellent recognition!" for every other
    winner. *)
Theorem recognition_message_of_winner (seen : State) (lms : option (list Hand))
        (fd : option ImageData) (st : State) (r : GestureResult) :
  detectionMethod seen <> frame_diff ->
  snd (analyzeGesture seen lms fd st) = Return (Some r) ->
  recognitionMessage (confidence r) =
  (if String.eqb (gesture r) "Fist" then "Good recognition"
   else "Excellent recognition!")%string.
Proof.
  intros Hm Hr.
  destruct (analyzeGesture_outcome seen lms fd st)
    as [E | (h & rs & p & -> & Hl & E)]; [congruence|].
  rewrite E in Hr. apply (spec_arbiter_results _ _ _ Hm) in Hr.
  unfold staticResults, trackingResults in Hr.
  each_result Hr; reflexivity.
Qed.

Lemma recognition_message_of_winner_witness :
  recognitionMessage 92 = "Excellent recognition!"%string.
Proof.
  apply (recognition_message_of_winner recordingState (resultsOf thumbsUpHand) None
           recordingState (mkResult "Thumbs Up" 92)).
  - discriminate.
  - reflexivity.
Defined.


(** ** Frames without motion *)

(** The difference of a number with itself is 0, or NaN when the number
    is NaN or infinite. *)
Lemma abs_sub_diag (v : float) : abs (v - v) = 0 \/ abs (v - v) = nan.
Proof.
  assert (H : Prim2SF (abs (v - v)) = S754_zero false \/ Prim2SF (abs (v - v)) = S754_nan).
  { rewrite abs_spec, sub_spec. unfold SF64sub, SFsub.
    destruct (Prim2SF v) as [s|s| |s m e]; cbn [SFabs]; auto.
    - destruct s; auto.
    - destruct s; auto.
    - rewrite Z.sub_diag. auto. }
  destruct H as [H|H]; [left|right]; apply Prim2SF_inj; rewrite H; reflexivity.
Qed.

Lemma motionStep_still (thr : float) (current previous : ImageData)
      (m : Motion) (i : nat) :
  data current = data previous ->
  motionMagnitude m = 0 ->
  motionMagnitude (motionStep thr current previous m i) = 0.
Proof.
  intros Hd Hm. unfold motionStep.
  assert (Hg : gray current i = gray previous i)
    by (unfold gray, channel; now rewrite Hd).
  rewrite Hg.
  destruct (abs_sub_diag (gray previous i)) as [-> | ->].
  - destruct (Num.gtb 0 thr); [|exact Hm].
    cbn [motionMagnitude]. rewrite Hm. reflexivity.
  - unfold Num.gtb. rewrite ltb_nan_r. exact Hm.
Qed.

Lemma accumulateMotion_still (thr : float) (current previous : ImageData) :
  data current = data previous ->
  motionMagnitude (accumulateMotion thr current previous) = 0.
Proof.
  intros Hd. unfold accumulateMotion.
  generalize (loopOffsets (length (data current))).
  assert (H0 : motionMagnitude (mkMotion 0 0 0) = 0) by reflexivity.
  revert H0. generalize (mkMotion 0 0 0).
  intros m Hm l. revert m Hm.
  induction l as [|i l IH]; intros m Hm; cbn [fold_left]; auto.
  apply IH, motionStep_still; assumption.
Qed.

(** X10.  A still scene is never a swipe: when the two most recent frames
    hold the same bytes, the Dynamic Classifier returns [null], whatever
    the threshold, the size of the frames and the older frames. *)
Theorem still_scene_is_null (thr : float) (older : list ImageData)
        (previous current : ImageData) :
  data current = data previous ->
  analyzeDynamicGesture thr (older ++ [previous; current]) = None.
Proof.
  intros Hd. destruct older as [|f older].
  - reflexivity.
  - rewrite analyzeDynamicGesture_recent by (simpl; lia).
    apply classifyMotion_below.
    rewrite (accumulateMotion_still thr current previous Hd). reflexivity.
Qed.

Lemma still_scene_is_null_witness :
  analyzeDynamicGesture 50 ([flatFrame 10 10] ++ [rightShiftedFrame 10 10;
                                                  rightShiftedFrame 10 10]) = None.
Proof.
  apply still_scene_is_null. reflexivity.
Defined.

(** X11.  Only the two most recent frames are compared: with fewer than
    three frames the Dynamic Classifier returns [null], also for a pair it
    would classify, and with three or more the older frames do not change
    the result. *)
Theorem only_recent_frames_count (thr : float) (previous current : ImageData) :
  analyzeDynamicGesture thr [] = None /\
  analyzeDynamicGesture thr [current] = None /\
  analyzeDynamicGesture thr [previous; current] = None /\
  (forall older older' : list ImageData,
      older <> [] -> older' <> [] ->
      analyzeDynamicGesture thr (older ++ [previous; current])
      = analyzeDynamicGesture thr (older' ++ [previous; current])).
Proof.
  repeat split.
  intros older older' H H'.
  rewrite !analyzeDynamicGesture_recent; [reflexivity| |];
    [destruct older' | destruct older]; simpl; try lia; contradiction.
Qed.

Lemma only_recent_frames_count_witness :
  analyzeDynamicGesture 50 [flatFrame 10 10; rightShiftedFrame 10 10] = None /\
  analyzeDynamicGesture 50 ([blankFrame 10 10] ++ [flatFrame 10 10; rightShiftedFrame 10 10])
  = analyzeDynamicGesture 50 ([flatFrame 10 10; flatFrame 10 10]
                              ++ [flatFrame 10 10; rightShiftedFrame 10 10]).
Proof.
  destruct (only_recent_frames_count 50 (flatFrame 10 10) (rightShiftedFrame 10 10))
    as (_ & _ & H2 & H3).
  split; [exact H2|]. apply H3; discriminate.
Defined.

(** X12.  The threshold test is strict and false on NaN: with a NaN
    threshold no pixel counts as motion and the Dynamic Classifier returns
    [null] on every buffer. *)
Theorem nan_threshold_is_null (frames : list ImageData) :
  analyzeDynamicGesture nan frames = None.
Proof.
  unfold analyzeDynamicGesture.
  destruct (length frames <? 3)%nat; [reflexivity|].
  destruct (nth_error _ _) as [c|]; [|reflexivity].
  destruct (nth_error _ _) as [p|]; [|reflexivity].
  apply classifyMotion_below.
  assert (H : accumulateMotion nan c p = mkMotion 0 0 0).
  { unfold accumulateMotion. generalize (loopOffsets (length (data c))).
    induction l as [|i l IH]; [reflexivity|].
    cbn [fold_left]. unfold motionStep at 2. unfold Num.gtb. rewrite ltb_nan_l. exact IH. }
  rewrite H. reflexivity.
Qed.


(** ** The frame callback, continued *)

(** The frame callback in one equation: a classified frame runs the
    learning statement and queues the five updates, any other frame queues
    nothing; in both cases the callback returns. *)
Lemma processVideoFrame_run (seen : State) (videoReady : bool)
      (results : option (list Hand)) (now : Z) (st : State) :
  processVideoFrame seen videoReady results now st =
  match classification seen videoReady results st with
  | Some gr =>
      (recordGesture gr now
         (fst (captureCustomGesture seen (Some (gesture gr)) (confidence gr) st)),
       Return tt)
  | None => (st, Return tt)
  end.
Proof.
  unfold processVideoFrame, classification.
  destruct videoReady, (handLandmarker seen), (isRecording seen);
    cbn [negb orb andb]; try reflexivity.
  destruct results as [[|hand rest]|]; try reflexivity.
  unfold try_catch, bind.
  destruct (landmarks hand) as [points|] eqn:E.
  - rewrite (analyzeGesture_run _ _ _ _ _ _ E). cbv zeta.
    destruct (spec_arbiter seen points) as [[r|]|e] eqn:Ea; cbn [fst snd option_map].
    + destruct (classifierLabels_truthy _ (spec_arbiter_label _ _ _ Ea)) as [_ ->].
      reflexivity.
    + reflexivity.
    + reflexivity.
  - unfold analyzeGesture. rewrite E. reflexivity.
Qed.

Lemma classification_label (seen : State) (videoReady : bool)
      (results : option (list Hand)) (st : State) (gr : GestureResult) :
  classification seen videoReady results st = Some gr ->
  In (gesture gr) classifierLabels.
Proof.
  unfold classification.
  destruct (videoReady && handLandmarker seen && isRecording seen); [|discriminate].
  destruct results as [[|hand rest]|]; try discriminate.
  pose proof (analyzeGesture_label seen (Some (hand :: rest)) None st) as Hl.
  destruct (snd (analyzeGesture seen (Some (hand :: rest)) None st)) as [[r|]|];
    try discriminate.
  intros [= <-]. now apply Hl.
Qed.

(** Frames that are not classified leave the state as it is. *)
Lemma frames_run_nil (st st' : State) (es : list HistoryEntry) :
  frames_run st es st' -> es = [] -> st' = st.
Proof.
  induction 1 as [st | seen ready results now gr st st' es Hc _ IH
                     | seen ready results now st st' es Hc _ IH]; intros He.
  - reflexivity.
  - discriminate.
  - rewrite processVideoFrame_run, Hc in IH. exact (IH He).
Qed.

(** An induction principle for runs: a property of the state that every
    classified frame establishes from itself holds along the run. *)
Lemma frames_run_ind_classified (P : State -> list HistoryEntry -> State -> Prop) :
  (forall st, P st [] st) ->
  (forall seen gr now st st' es,
      In (gesture gr) classifierLabels ->
      P (recordGesture gr now
           (fst (captureCustomGesture seen (Some (gesture gr)) (confidence gr) st)))
        es st' ->
      P st (mkEntry (gesture gr) now (confidence gr) :: es) st') ->
  forall st es st', frames_run st es st' -> P st es st'.
Proof.
  intros H0 Hs st es st'.
  induction 1 as [st | seen ready results now gr st st' es Hc _ IH
                     | seen ready results now st st' es Hc _ IH].
  - apply H0.
  - rewrite processVideoFrame_run, Hc in IH.
    apply (Hs seen). + eapply classification_label; eauto. + exact IH.
  - rewrite processVideoFrame_run, Hc in IH. exact IH.
Qed.

(** X13.  The frame callback never throws, also when a classifier does,
    and a frame that is not classified (no recording, no detector, video
    not ready, no hand, a classifier that throws or matches nothing)
    changes no state cell. *)
Theorem frame_callback_never_throws (seen : State) (videoReady : bool)
        (results : option (list Hand)) (now : Z) (st : State) :
  snd (processVideoFrame seen videoReady results now st) = Return tt /\
  (classification seen videoReady results st = None ->
   fst (processVideoFrame seen videoReady results now st) = st) /\
  (forall e, snd (analyzeGesture seen results None st) = Throw e ->
             classification seen videoReady results st = None) /\
  (isRecording seen = false \/ handLandmarker seen = false \/ videoReady = false \/
   results = None \/ results = Some [] ->
   classification seen videoReady results st = None).
Proof.
  rewrite processVideoFrame_run. repeat split.
  - destruct (classification _ _ _ _); reflexivity.
  - intros ->. reflexivity.
  - intros e He. unfold classification. rewrite He.
    destruct (_ && _ && _); [|reflexivity].
    destruct results as [[|? ?]|]; reflexivity.
  - unfold classification.
    intros [-> | [-> | [-> | [-> | ->]]]]; rewrite ?andb_false_r; try reflexivity.
    + destruct (_ && _ && _); reflexivity.
    + destruct (_ && _ && _); reflexivity.
Qed.

Lemma frame_callback_never_throws_witness :
  processVideoFrame recordingState true (resultsOf []) 7 recordingState
  = (recordingState, Return tt).
Proof.
  destruct (frame_callback_never_throws recordingState true (resultsOf []) 7
                                        recordingState) as (H1 & H2 & H3 & _).
  rewrite (surjective_pairing (processVideoFrame _ _ _ _ _)), H1, H2; [reflexivity|].
  apply (H3 TypeError). reflexivity.
Defined.


(** The learning statement appends at most the winning label, and only
    in learning mode for a confidence above 70; it changes no other cell. *)
Lemma captureCustomGesture_appends (seen : State) (g : option string) (c : float)
      (st : State) :
  exists added,
    fst (captureCustomGesture seen g c st) = setCustomGestures (fun prev => prev ++ added) st /\
    (added = [] \/
     exists l, g = Some l /\ added = [l] /\ Num.gtb c 70 = true /\
               isLearningMode seen = true).
Proof.
  assert (H0 : st = setCustomGestures (fun prev => prev ++ []) st).
  { destruct st. unfold setCustomGestures. cbn. now rewrite app_nil_r. }
  unfold captureCustomGesture, addCustomGesture.
  destruct g as [l|]; [|exists []; split; [exact H0|now left]].
  destruct (isLearningMode seen) eqn:El; cbn [andb];
    [|exists []; split; [exact H0|now left]].
  destruct (truthy l); cbn [andb]; [|exists []; split; [exact H0|now left]].
  destruct (Num.gtb c 70) eqn:Ec; [|exists []; split; [exact H0|now left]].
  destruct (negb (includes l (customGestures seen)));
    [|exists []; split; [exact H0|now left]].
  exists [l]. split; [reflexivity|]. right. exists l. auto.
Qed.

Lemma slice_last_map {A B : Type} (f : A -> B) (n : nat) (l : list A) :
  slice_last n (map f l) = map f (slice_last n l).
Proof.
  unfold slice_last. now rewrite length_map, skipn_map.
Qed.

Lemma slice_last_slice_last {A : Type} (m n : nat) (l : list A) :
  (m <= n)%nat -> slice_last m (slice_last n l) = slice_last m l.
Proof.
  intros H. unfold slice_last. rewrite length_skipn, skipn_skipn. f_equal. lia.
Qed.

(** The state after a classified frame, cell by cell. *)
Lemma recordGesture_cells (seen : State) (gr : GestureResult) (now : Z) (st : State) :
  let st1 := recordGesture gr now
               (fst (captureCustomGesture seen (Some (gesture gr)) (confidence gr) st)) in
  gestureSequence st1 = slice_last 4 (gestureSequence st) ++ [gesture gr] /\
  gestureHistory st1 = slice_last 19 (gestureHistory st)
                       ++ [mkEntry (gesture gr) now (confidence gr)] /\
  frameBuffer st1 = frameBuffer st /\
  isRecording st1 = isRecording st /\
  recognizedGesture st1 = Some (gesture gr) /\
  shownConfidence st1 = confidence gr /\
  gesturesDetected (sessionStats st1) = gesturesDetected (sessionStats st) + 1 /\
  sessionTime (sessionStats st1) = sessionTime (sessionStats st) + 1.
Proof.
  destruct (captureCustomGesture_appends seen (Some (gesture gr)) (confidence gr) st)
    as (added & -> & _).
  cbn. repeat split.
Qed.

Lemma frames_run_sequence (st : State) (es : list HistoryEntry) (st' : State) :
  frames_run st es st' ->
  gestureSequence st' =
  match es with
  | [] => gestureSequence st
  | _ => slice_last 5 (gestureSequence st ++ map entryGesture es)
  end.
Proof.
  induction 1 as [st | seen gr now st st' es _ IH] using frames_run_ind_classified.
  - reflexivity.
  -
    destruct (recordGesture_cells seen gr now st) as (Hs & _).
    rewrite Hs, slice_last_snoc in IH. rewrite IH. destruct es as [|e es].
    + reflexivity.
    + rewrite slice_last_app, <- app_assoc. reflexivity.
Qed.

Lemma frames_run_frameBuffer (st : State) (es : list HistoryEntry) (st' : State) :
  frames_run st es st' -> frameBuffer st' = frameBuffer st.
Proof.
  induction 1 as [st | seen gr now st st' es _ IH] using frames_run_ind_classified.
  - reflexivity.
  -
    destruct (recordGesture_cells seen gr now st) as (_ & _ & Hb & _).
    now rewrite IH.
Qed.

Lemma frames_run_isRecording (st : State) (es : list HistoryEntry) (st' : State) :
  frames_run st es st' -> isRecording st' = isRecording st.
Proof.
  induction 1 as [st | seen gr now st st' es _ IH] using frames_run_ind_classified.
  - reflexivity.
  -
    destruct (recordGesture_cells seen gr now st) as (_ & _ & _ & Hb & _).
    now rewrite IH.
Qed.

Lemma frames_run_counters (st : State) (es : list HistoryEntry) (st' : State) :
  frames_run st es st' -> countersAgree st -> countersAgree st'.
Proof.
  induction 1 as [st | seen gr now st st' es _ IH] using frames_run_ind_classified.
  - auto.
  - intros H. apply IH. unfold countersAgree in *.
    destruct (recordGesture_cells seen gr now st) as (_ & _ & _ & _ & _ & _ & -> & ->).
    now rewrite H.
Qed.

Lemma frames_run_follows (st : State) (es : list HistoryEntry) (st' : State) :
  frames_run st es st' -> sequenceFollowsHistory st -> sequenceFollowsHistory st'.
Proof.
  intros H Hi. unfold sequenceFollowsHistory in *.
  rewrite (frames_run_sequence _ _ _ H), (frames_run_history _ _ _ H).
  destruct es as [|e es]; [exact Hi|].
  rewrite Hi, <- map_app, slice_last_map, slice_last_app.
  now rewrite slice_last_slice_last by lia.
Qed.

(** With fewer than three frames in the closure's buffer, and under manual
    detection with any buffer, [analyzeGesture] returns what the Static
    Classifier returns. *)
Lemma analyzeGesture_static_only (seen : State) (hand : Hand) (rest : list Hand)
      (points : list Point3D) (fd : option ImageData) (st : State) :
  landmarks hand = Some points ->
  detectionMethod seen = manual \/
  (detectionMethod seen = frame_diff /\ (length (frameBuffer seen) < 3)%nat) ->
  snd (analyzeGesture seen (Some (hand :: rest)) fd st) = analyzeStaticGesture points.
Proof.
  intros Hl Hm. rewrite (analyzeGesture_run _ _ _ _ _ _ Hl). cbv zeta.
  assert (E : spec_arbiter seen points = analyzeStaticGesture points).
  { unfold spec_arbiter. destruct (analyzeStaticGesture points) as [s|e]; cbn [obind];
      [|reflexivity].
    destruct Hm as [-> | [-> Hb]]; [reflexivity|].
    apply Nat.leb_gt in Hb. now rewrite Hb. }
  rewrite E. destruct (analyzeStaticGesture points); reflexivity.
Qed.

(** X14.  The frame callback changes neither the frame buffer nor a
    setting: along every run the frame buffer, the recording flag, the
    detector, the detection method, the learning mode, the motion threshold
    and the background subtraction are as at the start. *)
Theorem frames_keep_buffer_and_settings (st : State) (es : list HistoryEntry)
        (st' : State) :
  frames_run st es st' ->
  frameBuffer st' = frameBuffer st /\ isRecording st' = isRecording st /\
  handLandmarker st' = handLandmarker st /\ detectionMethod st' = detectionMethod st /\
  isLearningMode st' = isLearningMode st /\ motionThreshold st' = motionThreshold st /\
  backgroundSubtraction st' = backgroundSubtraction st.
Proof.
  induction 1 as [st | seen gr now st st' es _ IH] using frames_run_ind_classified.
  - repeat split.
  -
    destruct (captureCustomGesture_appends seen (Some (gesture gr)) (confidence gr) st)
      as (added & E & _).
    rewrite E in IH. exact IH.
Qed.

Lemma frames_keep_buffer_and_settings_witness :
  frameBuffer (replayFrames sampleTimes recordingState) = frameBuffer recordingState /\
  detectionMethod (replayFrames sampleTimes recordingState) = detectionMethod recordingState.
Proof.
  destruct (frames_keep_buffer_and_settings recordingState sampleEntries
              (replayFrames sampleTimes recordingState) (replayFrames_run _ _))
    as (H1 & _ & _ & H2 & _).
  split; assumption.
Defined.




(** The display after a run: unchanged without a classified frame, the
    newest entry otherwise. *)
Lemma frames_run_display (d : HistoryEntry) (st : State) (es : list HistoryEntry)
      (st' : State) :
  frames_run st es st' ->
  match es with
  | [] => st' = st
  | _ => recognizedGesture st' = Some (entryGesture (last es d)) /\
         shownConfidence st' = entryConfidence (last es d) /\
         last (gestureHistory st') d = last es d /\
         In (entryGesture (last es d)) classifierLabels
  end.
Proof.
  induction 1 as [st | seen gr now st st' es Hg IH] using frames_run_ind_classified.
  - reflexivity.
  - destruct es as [|e es].
    + subst st'.
      destruct (recordGesture_cells seen gr now st) as (_ & Hh & _ & _ & Hr & Hc & _).
      rewrite Hh, Hr, Hc, last_last. auto.
    + exact IH.
Qed.

(** The newest element comes first in the reversed tail of a log. *)
Lemma slice_last_newest {A : Type} (n : nat) (l : list A) (d : A) :
  (1 <= n)%nat -> l <> [] -> hd_error (rev (slice_last n l)) = Some (last l d).
Proof.
  intros Hn Hl. destruct (exists_last Hl) as (l' & a & ->).
  rewrite last_last. unfold slice_last. rewrite length_app. simpl length.
  rewrite skipn_app.
  replace (length l' + 1 - n - length l')%nat with 0%nat by lia.
  simpl skipn. rewrite rev_app_distr. reflexivity.
Qed.

(** X16.  The gesture sequence keeps the five most recent labels: along
    any run it consists of the last five of the old labels followed by the
    labels of the classified frames, and its length stays within five. *)
Theorem gesture_sequence_fifo (st : State) (es : list HistoryEntry) (st' : State) :
  frames_run st es st' ->
  ((length (gestureSequence st) <= 5)%nat -> (length (gestureSequence st') <= 5)%nat) /\
  (es <> [] ->
   gestureSequence st' = slice_last 5 (gestureSequence st ++ map entryGesture es)) /\
  ((5 <= length es)%nat ->
   gestureSequence st' = map entryGesture (skipn (length es - 5) es)).
Proof.
  intros H. apply frames_run_sequence in H. split; [|split].
  - intros Hb. rewrite H. destruct es; [exact Hb|].
    rewrite slice_last_length. lia.
  - intros Hne. rewrite H. destruct es; [contradiction|reflexivity].
  - intros Hl. rewrite H. destruct es as [|e es]; [simpl in Hl; lia|].
    rewrite slice_last_suffix by (rewrite length_map; exact Hl).
    now rewrite length_map, skipn_map.
Qed.

Lemma gesture_sequence_fifo_witness :
  gestureSequence (replayFrames sampleTimes recordingState)
  = map entryGesture (skipn 20 sampleEntries).
Proof.
  apply (gesture_sequence_fifo recordingState sampleEntries
                               (replayFrames sampleTimes recordingState)).
  - apply replayFrames_run.
  - vm_compute. lia.
Defined.

(** X17.  The gesture sequence and the history agree: at mount and after
    a reset the sequence holds the labels of the five newest history
    entries, every run keeps it so, and the "Recent Gestures" panel then
    lists the sequence backwards. *)
Theorem sequence_follows_history :
  sequenceFollowsHistory initialState /\
  (forall st, sequenceFollowsHistory (fst (resetSession st))) /\
  (forall st es st',
      frames_run st es st' -> sequenceFollowsHistory st ->
      sequenceFollowsHistory st' /\
      map entryGesture (shownHistory st') = rev (gestureSequence st')).
Proof.
  split; [reflexivity|]. split; [reflexivity|].
  intros st es st' H Hi.
  pose proof (frames_run_follows _ _ _ H Hi) as Hf.
  split; [exact Hf|].
  unfold shownHistory. now rewrite Hf, map_rev.
Qed.

Lemma sequence_follows_history_witness :
  sequenceFollowsHistory (replayFrames sampleTimes recordingState) /\
  map entryGesture (shownHistory (replayFrames sampleTimes recordingState))
  = rev (gestureSequence (replayFrames sampleTimes recordingState)).
Proof.
  destruct sequence_follows_history as (_ & _ & H).
  apply (H recordingState sampleEntries).
  - apply replayFrames_run.
  - reflexivity.
Defined.



(** X19.  What the component displays is the newest history entry: after
    a run with at least one classified frame, the recognised gesture and
    the confidence are those of the last classified frame, which is the last
    entry of the history, and while recording the overlay shows it. *)
Theorem display_is_newest_entry (d : HistoryEntry) (st : State)
        (es : list HistoryEntry) (st' : State) :
  frames_run st es st' ->
  es <> [] ->
  recognizedGesture st' = Some (entryGesture (last es d)) /\
  shownConfidence st' = entryConfidence (last es d) /\
  last (gestureHistory st') d = last es d /\
  hd_error (shownHistory st') = Some (last es d) /\
  (isRecording st = true -> overlayShown st' = true).
Proof.
  intros H Hne. pose proof (frames_run_display d _ _ _ H) as Hd.
  pose proof (frames_run_history _ _ _ H) as Hh.
  destruct es as [|e es]; [contradiction|].
  destruct Hd as (Hr & Hc & Hl & Hin).
  split; [exact Hr|]. split; [exact Hc|]. split; [exact Hl|]. split.
  - unfold shownHistory. rewrite <- Hl. apply slice_last_newest; [lia|].
    intros E. apply (f_equal (@length _)) in E. revert E.
    rewrite Hh, slice_last_length, length_app. cbn [length]. lia.
  - intros Hrec. unfold overlayShown.
    rewrite (frames_run_isRecording _ _ _ H), Hrec, Hr.
    apply (classifierLabels_truthy _ Hin).
Qed.

Lemma display_is_newest_entry_witness :
  recognizedGesture (replayFrames sampleTimes recordingState) = Some "Thumbs Up"%string /\
  overlayShown (replayFrames sampleTimes recordingState) = true.
Proof.
  destruct (display_is_newest_entry (mkEntry "" 0 0) recordingState sampleEntries
              (replayFrames sampleTimes recordingState) (replayFrames_run _ _))
    as (H1 & _ & _ & _ & H2).
  - discriminate.
  - split; [exact H1|]. apply H2. reflexivity.
Defined.

(** X20.  Custom gestures are only ever appended: after any run the old
    custom gestures are a prefix of the new ones, every added label is the
    label of a classified frame with confidence above 70, and a callback
    whose render is not in learning mode adds nothing. *)
Theorem custom_gestures_only_grow :
  (forall st es st',
      frames_run st es st' ->
      exists added,
        customGestures st' = customGestures st ++ added /\
        Forall (fun g => exists e, In e es /\ entryGesture e = g /\
                                   Num.gtb (entryConfidence e) 70 = true) added) /\
  (forall seen videoReady results now st,
      isLearningMode seen = false ->
      customGestures (fst (processVideoFrame seen videoReady results now st))
      = customGestures st).
Proof.
  split.
  - induction 1 as [st | seen gr now st st' es _ IH] using frames_run_ind_classified.
    + exists []. split; [now rewrite app_nil_r|constructor].
    + destruct IH as (added & E & Ha).
      destruct (captureCustomGesture_appends seen (Some (gesture gr)) (confidence gr) st)
        as (a0 & E0 & Hor).
      rewrite E0 in E. cbn in E.
      exists (a0 ++ added). split; [now rewrite app_assoc|].
      apply Forall_app. split.
      * destruct Hor as [-> | (l & [= <-] & -> & Hc & _)]; [constructor|].
        constructor; [|constructor].
        exists (mkEntry (gesture gr) now (confidence gr)). simpl. auto.
      * eapply Forall_impl; [|exact Ha].
        intros g (e & Hin & Hg & Hc). exists e. simpl. auto.
  - intros seen videoReady results now st Hl.
    rewrite processVideoFrame_run.
    destruct (classification seen videoReady results st) as [gr|]; [|reflexivity].
    destruct (captureCustomGesture_appends seen (Some (gesture gr)) (confidence gr) st)
      as (a0 & E0 & Hor).
    rewrite E0. cbn.
    destruct Hor as [-> | (l & _ & _ & _ & Hl')]; [apply app_nil_r|congruence].
Qed.

Lemma custom_gestures_only_grow_witness :
  customGestures (fst (processVideoFrame recordingState true (resultsOf thumbsUpHand) 7
                                         learningState))
  = customGestures learningState.
Proof.
  apply (proj2 custom_gestures_only_grow). reflexivity.
Defined.



(** ** Buttons and panels *)

(** X22.  A reset starts the logs afresh without stopping the recording:
    after a reset followed by any run, the history is the last 20 and the
    sequence the labels of the last 5 of the frames classified since, the
    frame buffer is empty and the recording flag is what it was before the
    reset; a second reset right after the first changes nothing. *)
Theorem reset_then_run :
  (forall st es st',
      frames_run (fst (resetSession st)) es st' ->
      gestureHistory st' = slice_last 20 es /\
      gestureSequence st' = slice_last 5 (map entryGesture es) /\
      frameBuffer st' = [] /\
      isRecording st' = isRecording st /\
      countersAgree st') /\
  (forall st, fst (resetSession (fst (resetSession st))) = fst (resetSession st)) /\
  (forall st, overlayShown (fst (resetSession st)) = false).
Proof.
  split; [|split].
  - intros st es st' H.
    rewrite (frames_run_history _ _ _ H), (frames_run_sequence _ _ _ H),
      (frames_run_frameBuffer _ _ _ H), (frames_run_isRecording _ _ _ H).
    repeat split.
    + destruct es; reflexivity.
    + destruct es; reflexivity.
    + apply (frames_run_counters _ _ _ H). reflexivity.
  - reflexivity.
  - intros st. unfold overlayShown. cbn. apply andb_false_r.
Qed.

Lemma reset_then_run_witness :
  gestureHistory (replayFrames sampleTimes (fst (resetSession learningState)))
  = slice_last 20 sampleEntries.
Proof.
  apply (proj1 reset_then_run learningState sampleEntries). apply replayFrames_run.
Defined.

(** X23.  Stopping the camera is not a reset: it ends the recording and
    clears the display, so the overlay is hidden and a frame callback of
    the new render does nothing, but the history, the sequence, the
    statistics, the custom gestures and the frame buffer stay. *)
Theorem stop_keeps_the_session (c : Component) :
  isWebcamActive (stopWebcam c) = false /\
  overlayShown (session (stopWebcam c)) = false /\
  recognizedGesture (session (stopWebcam c)) = None /\
  shownConfidence (session (stopWebcam c)) = 0 /\
  isRecording (session (stopWebcam c)) = false /\
  gestureHistory (session (stopWebcam c)) = gestureHistory (session c) /\
  shownHistory (session (stopWebcam c)) = shownHistory (session c) /\
  gestureSequence (session (stopWebcam c)) = gestureSequence (session c) /\
  sessionStats (session (stopWebcam c)) = sessionStats (session c) /\
  customGestures (session (stopWebcam c)) = customGestures (session c) /\
  frameBuffer (session (stopWebcam c)) = frameBuffer (session c) /\
  (forall videoReady results now st,
      processVideoFrame (session (stopWebcam c)) videoReady results now st
      = (st, Return tt)) /\
  stopWebcam (stopWebcam c) = stopWebcam c.
Proof.
  repeat split.
  intros videoReady results now st. unfold processVideoFrame.
  cbn [stopWebcam session isRecording setConfidence setRecognizedGesture setIsRecording negb].
  now rewrite orb_true_r.
Qed.

(** X24.  [toggleRecording] writes the negation of the flag its render
    saw: the toast names the value written, two clicks handled by
    successive renders restore the state, and a second click handled by the
    same render changes nothing. *)
Theorem toggle_recording (seen st : State) :
  isRecording (fst (toggleRecording seen st)) = negb (isRecording seen) /\
  fst (toggleRecording seen st) = setIsRecording (fun _ => negb (isRecording seen)) st /\
  snd (toggleRecording seen st)
  = Return (if isRecording seen then "Recording Stopped" else "Recording Started")%string /\
  snd (toggleRecording seen st)
  = Return (if isRecording (fst (toggleRecording seen st))
            then "Recording Started" else "Recording Stopped")%string /\
  fst (toggleRecording (fst (toggleRecording st st)) (fst (toggleRecording st st))) = st /\
  toggleRecording seen (fst (toggleRecording seen st)) = toggleRecording seen st /\
  recognizedGesture (fst (toggleRecording seen st)) = recognizedGesture st /\
  gestureHistory (fst (toggleRecording seen st)) = gestureHistory st.
Proof.
  unfold toggleRecording, bind, queue, ret.
  destruct st as [r g c s h m gh lm cg bs mt gs fb]; destruct (isRecording seen), r;
    repeat split.
Qed.

(** X25.  The "Recent Gestures" panel shows at most five entries, newest
    first: after a run with at least five classified frames it lists the
    five most recent of them in reverse order of arrival. *)
Theorem recent_gestures_panel (st : State) (es : list HistoryEntry) (st' : State) :
  frames_run st es st' ->
  (length (shownHistory st') <= 5)%nat /\
  ((5 <= length es)%nat -> shownHistory st' = firstn 5 (rev es)).
Proof.
  intros H. unfold shownHistory. split.
  - rewrite length_rev, slice_last_length. lia.
  - intros Hl. rewrite (frames_run_history _ _ _ H).
    destruct es as [|e es]; [simpl in Hl; lia|].
    rewrite slice_last_slice_last by lia.
    rewrite slice_last_suffix by exact Hl.
    now rewrite firstn_rev.
Qed.

Lemma recent_gestures_panel_witness :
  shownHistory (replayFrames sampleTimes recordingState) = firstn 5 (rev sampleEntries).
Proof.
  apply (recent_gestures_panel recordingState sampleEntries
                               (replayFrames sampleTimes recordingState)).
  - apply replayFrames_run.
  - vm_compute. lia.
Defined.


(** ** What the pixel loop reads *)

Lemma add_nan_r (v : float) : v + nan = nan.
Proof.
  apply Prim2SF_inj. rewrite add_spec. unfold SF64add, SFadd.
  change (Prim2SF nan) with S754_nan.
  destruct (Prim2SF v) as [s|s| |s m e]; reflexivity.
Qed.

Lemma sub_nan_r (v : float) : v - nan = nan.
Proof.
  apply Prim2SF_inj. rewrite sub_spec. unfold SF64sub, SFsub.
  change (Prim2SF nan) with S754_nan.
  destruct (Prim2SF v) as [s|s| |s m e]; reflexivity.
Qed.

Lemma fold_left_ext_in {A B : Type} (f g : A -> B -> A) (l : list B) (a : A) :
  (forall x, In x l -> forall acc, f acc x = g acc x) ->
  fold_left f l a = fold_left g l a.
Proof.
  revert a. induction l as [|x l IH]; intros a H; [reflexivity|].
  cbn [fold_left]. rewrite (H x (or_introl eq_refl)).
  apply IH. intros y Hy. apply H. now right.
Qed.

Lemma loopOffsets_multiple (len i : nat) :
  In i (loopOffsets len) -> exists k, i = (4 * k)%nat.
Proof.
  unfold loopOffsets. rewrite in_map_iff. intros (k & <- & _). now exists k.
Qed.

(** X26.  The alpha channel is ignored: two pairs of frames of the same
    size that agree on every red, green and blue byte are classified
    alike. *)
Theorem alpha_is_ignored (thr : float) (older : list ImageData)
        (previous current previous' current' : ImageData) :
  length (data current) = length (data current') ->
  width current = width current' ->
  height current = height current' ->
  (forall i, (i mod 4 <> 3)%nat ->
             nth_error (data current) i = nth_error (data current') i /\
             nth_error (data previous) i = nth_error (data previous') i) ->
  analyzeDynamicGesture thr (older ++ [previous; current])
  = analyzeDynamicGesture thr (older ++ [previous'; current']).
Proof.
  intros Hlen Hw Hh Hrgb. destruct older as [|f older]; [reflexivity|].
  rewrite !analyzeDynamicGesture_recent by (simpl; lia).
  f_equal. unfold accumulateMotion. rewrite <- Hlen.
  apply fold_left_ext_in. intros i Hi m.
  destruct (loopOffsets_multiple _ _ Hi) as (k & ->).
  assert (Hg : forall a b,
             (forall i, (i mod 4 <> 3)%nat -> nth_error (data a) i = nth_error (data b) i) ->
             gray a (4 * k) = gray b (4 * k)).
  { intros a b H. unfold gray, channel.
    rewrite !H; [reflexivity| | |].
    - replace (4 * k + 2)%nat with (2 + k * 4)%nat by lia.
      rewrite Nat.Div0.mod_add. discriminate.
    - replace (4 * k + 1)%nat with (1 + k * 4)%nat by lia.
      rewrite Nat.Div0.mod_add. discriminate.
    - replace (4 * k)%nat with (0 + k * 4)%nat by lia.
      rewrite Nat.Div0.mod_add. discriminate. }
  unfold motionStep.
  rewrite (Hg current current') by (intros j Hj; apply Hrgb, Hj).
  rewrite (Hg previous previous') by (intros j Hj; apply Hrgb, Hj).
  rewrite Hw, Hh. reflexivity.
Qed.

Lemma alpha_is_ignored_witness :
  analyzeDynamicGesture 50 ([flatFrame 2 2] ++ [blankFrame 2 2; flatFrame 2 2])
  = analyzeDynamicGesture 50
      ([flatFrame 2 2] ++ [blankFrame 2 2;
                           mkImage (flat_map (fun _ => [Byte.x64; Byte.x64; Byte.x64; Byte.x00])
                                                 (seq 0 4)) 2 2]).
Proof.
  apply alpha_is_ignored; try reflexivity.
  intros i Hi. split; [|reflexivity].
  do 16 (destruct i as [|i]; [first [reflexivity | exfalso; apply Hi; reflexivity]|]).
  reflexivity.
Defined.

(** X27.  A previous frame without a complete pixel gives no motion:
    every read past the end of its data is NaN, no difference exceeds the
    threshold, and the Dynamic Classifier returns [null] without throwing. *)
Theorem short_previous_frame_is_null (thr : float) (older : list ImageData)
        (previous current : ImageData) :
  (length (data previous) <= 2)%nat ->
  analyzeDynamicGesture thr (older ++ [previous; current]) = None.
Proof.
  intros Hs. destruct older as [|f older]; [reflexivity|].
  rewrite analyzeDynamicGesture_recent by (simpl; lia).
  apply classifyMotion_below.
  assert (H : accumulateMotion thr current previous = mkMotion 0 0 0);
    [|now rewrite H].
  unfold accumulateMotion. generalize (loopOffsets (length (data current))).
  induction l as [|i l IH]; [reflexivity|].
  cbn [fold_left]. unfold motionStep at 2.
  assert (Hg : gray previous i = nan).
  { unfold gray. unfold channel at 3.
    replace (nth_error (data previous) (i + 2)) with (@None Byte.byte)
      by (symmetry; apply nth_error_None; lia).
    now rewrite add_nan_r. }
  rewrite Hg, sub_nan_r. unfold Num.gtb. rewrite ltb_nan_r. exact IH.
Qed.

Lemma short_previous_frame_is_null_witness :
  analyzeDynamicGesture 50 ([flatFrame 10 10] ++ [mkImage [] 10 10; flatFrame 10 10])
  = None.
Proof.
  apply short_previous_frame_is_null. simpl. lia.
Defined.

(** ** The component on the detector's answer *)

(** Without a [landmarks] property on the first hand, [analyzeGesture]
    returns [null] before any classifier, buffer or learning statement. *)
Lemma analyzeGesture_detected (seen : State) (hands : list (list Point3D))
      (fd : option ImageData) (st : State) :
  analyzeGesture seen (detected hands) fd st = (st, Return None).
Proof.
  destruct hands as [|points hands]; reflexivity.
Qed.

Lemma processVideoFrame_detected (seen : State) (videoReady : bool)
      (hands : list (list Point3D)) (now : Z) (st : State) :
  processVideoFrame seen videoReady (detected hands) now st = (st, Return tt).
Proof.
  unfold processVideoFrame.
  destruct (negb videoReady || negb (handLandmarker seen) || negb (isRecording seen));
    [reflexivity|].
  unfold try_catch, bind.
  destruct hands as [|points hands]; reflexivity.
Qed.

Lemma submitThrough_detected (seen : State) (hands : list (list Point3D))
      (fs : list ImageData) (st : State) :
  submitThrough seen (detected hands) fs st = st.
Proof.
  unfold submitThrough. revert st. induction fs as [|f fs IH]; intros st; [reflexivity|].
  cbn [fold_left]. rewrite analyzeGesture_detected. apply IH.
Qed.

(** One closure whose captured buffer is below the capacity never evicts:
    every frame it is handed is appended. *)
Lemma submitThrough_appends (seen : State) (hand : Hand) (rest : list Hand)
      (points : list Point3D) (fs : list ImageData) (st : State) :
  landmarks hand = Some points ->
  (length (frameBuffer seen) < maxFrameBuffer)%nat ->
  frameBuffer (submitThrough seen (Some (hand :: rest)) fs st) = frameBuffer st ++ fs.
Proof.
  intros Hl Hb. unfold submitThrough. revert st.
  induction fs as [|f fs IH]; intros st; cbn [fold_left].
  - now rewrite app_nil_r.
  - rewrite IH, (analyzeGesture_frameBuffer _ _ _ _ _ _ Hl).
    apply Nat.leb_gt in Hb. rewrite Hb, <- app_assoc. reflexivity.
Qed.

(** C5 (the code on a detected hand).  The hands [processVideoFrame] hands
    to the arbiter are the detector's arrays of 21 points, which have no
    [landmarks] property: [analyzeGesture] returns [null] on them before it
    calls a classifier, whatever the detection method, and the frame
    callback records nothing.  For the thumbs-up hand the Static Classifier
    returns Thumbs Up with confidence 92, which is what the arbiter of the
    specification selects; the code returns [null]. *)
Theorem detected_hand_is_not_classified :
  analyzeStaticGesture thumbsUpHand = Return (Some (mkResult "Thumbs Up" 92)) /\
  spec_arbiter recordingState thumbsUpHand = Return (Some (mkResult "Thumbs Up" 92)) /\
  analyzeGesture recordingState (detected [thumbsUpHand]) None recordingState
  = (recordingState, Return None) /\
  (forall seen hands fd st, analyzeGesture seen (detected hands) fd st = (st, Return None)) /\
  (forall seen videoReady hands now st,
      processVideoFrame seen videoReady (detected hands) now st = (st, Return tt)).
Proof.
  split; [reflexivity|]. split; [reflexivity|]. split; [reflexivity|]. split.
  - apply analyzeGesture_detected.
  - apply processVideoFrame_detected.
Qed.

(** C7 (the code on fifteen frames).  The capacity test reads the buffer
    the closure captured, the update applies to the current one: fifteen
    frames handed to the [analyzeGesture] of one render, with a hand that
    holds its points under [landmarks], leave a buffer of fifteen frames,
    and so does any number of frames through a closure whose captured
    buffer is below the capacity.  With the hands the detector returns the
    frames are dropped before the buffer statement, and the frame callback
    hands no frame at all: the buffer stays as it was. *)
Theorem frame_buffer_overflows :
  frameBuffer (submitThrough initialState (resultsOf thumbsUpHand) sampleFrames initialState)
  = sampleFrames /\
  length (frameBuffer (submitThrough initialState (resultsOf thumbsUpHand) sampleFrames
                                     initialState)) = 15%nat /\
  (forall seen hand rest points fs st,
      landmarks hand = Some points ->
      (length (frameBuffer seen) < maxFrameBuffer)%nat ->
      frameBuffer (submitThrough seen (Some (hand :: rest)) fs st) = frameBuffer st ++ fs) /\
  frameBuffer (submitThrough initialState (detected [thumbsUpHand]) sampleFrames initialState)
  = [] /\
  (forall seen hands fs st,
      frameBuffer (submitThrough seen (detected hands) fs st) = frameBuffer st) /\
  (forall st es st', frames_run st es st' -> frameBuffer st' = frameBuffer st).
Proof.
  assert (E : frameBuffer (submitThrough initialState (resultsOf thumbsUpHand)
                                         sampleFrames initialState) = sampleFrames).
  { unfold resultsOf.
    rewrite (submitThrough_appends initialState (mkHand (Some thumbsUpHand)) []
               thumbsUpHand sampleFrames initialState eq_refl).
    - reflexivity.
    - unfold maxFrameBuffer. simpl. lia. }
  split; [exact E|]. split; [rewrite E; reflexivity|].
  split; [apply submitThrough_appends|].
  split; [now rewrite submitThrough_detected|].
  split.
  - intros seen hands fs st. now rewrite submitThrough_detected.
  - apply frames_run_frameBuffer.
Qed.



(** * Swipes *)

Section Integers.

Local Open Scope Z_scope.

(** ** Integer arithmetic on binary64 numbers *)


Lemma shl_val (p : positive) (k : Z) : 0 <= k -> Zpos (shl p k) = Zpos p * 2 ^ k.
Proof.
  intros Hk. destruct k as [|n|n]; [simpl; lia| |lia].
  unfold shl. clear Hk. induction n as [|n IH] using Pos.peano_ind.
  - simpl. lia.
  - rewrite Pos.iter_succ, Pos2Z.inj_succ, Z.pow_succ_r by lia.
    rewrite Pos2Z.inj_xO, IH. ring.
Qed.

Lemma shl_digits (p : positive) (k : Z) :
  0 <= k -> Zpos (digits2_pos (shl p k)) = Zpos (digits2_pos p) + k.
Proof.
  intros Hk. destruct k as [|n|n]; [simpl; lia| |lia].
  unfold shl. clear Hk. induction n as [|n IH] using Pos.peano_ind.
  - simpl. lia.
  - rewrite Pos.iter_succ. cbn [digits2_pos]. rewrite Pos2Z.inj_succ, IH. lia.
Qed.

Lemma shl_shl (p : positive) (a b : Z) :
  0 <= a -> 0 <= b -> shl (shl p a) b = shl p (a + b).
Proof.
  intros Ha Hb. apply Pos2Z.inj. rewrite !shl_val by lia.
  rewrite Z.pow_add_r by lia. ring.
Qed.

Lemma shl_0 (p : positive) (k : Z) : k <= 0 -> shl p k = p.
Proof.
  destruct k; try reflexivity. lia.
Qed.

Lemma shl_align_shl (m : positive) (e e' : Z) :
  shl_align m e e' = (shl m (e - e'), Z.min e e').
Proof.
  unfold shl_align. destruct (e' - e) as [|d|d] eqn:E.
  - rewrite shl_0 by lia. f_equal. lia.
  - rewrite shl_0 by lia. f_equal. lia.
  - replace (e - e') with (Zpos d) by lia. cbn [shl]. f_equal. lia.
Qed.

Lemma digits2_pos_size (p : positive) : digits2_pos p = Pos.size p.
Proof.
  induction p; cbn; congruence.
Qed.

Lemma digits_bounds (p : positive) :
  2 ^ (Zpos (digits2_pos p) - 1) <= Zpos p < 2 ^ Zpos (digits2_pos p).
Proof.
  rewrite digits2_pos_size.
  pose proof (Pos.size_gt p) as H1. pose proof (Pos.size_le p) as H2.
  apply Pos2Z.pos_lt_pos in H1. apply Pos2Z.pos_le_pos in H2.
  rewrite Pos2Z.inj_pow in H1, H2.
  split; [|exact H1].
  replace (Zpos (Pos.size p)) with (Z.succ (Zpos (Pos.size p) - 1)) in H2 by lia.
  rewrite Z.pow_succ_r in H2 by lia. lia.
Qed.

Lemma digits_le_53 (p : positive) : Zpos p < 2 ^ 53 -> Zpos (digits2_pos p) <= 53.
Proof.
  intros H. pose proof (digits_bounds p) as [H1 _].
  destruct (Z.le_gt_cases (Zpos (digits2_pos p)) 53) as [L|L]; [exact L|].
  assert (2 ^ 53 <= 2 ^ (Zpos (digits2_pos p) - 1)) by (apply Z.pow_le_mono_r; lia).
  lia.
Qed.

Lemma digits_mono (p q : positive) :
  (p <= q)%positive -> Zpos (digits2_pos p) <= Zpos (digits2_pos q).
Proof.
  intros H. pose proof (digits_bounds p) as [H1 _]. pose proof (digits_bounds q) as [_ H2].
  destruct (Z.le_gt_cases (Zpos (digits2_pos p)) (Zpos (digits2_pos q))) as [L|L]; [exact L|].
  assert (2 ^ Zpos (digits2_pos q) <= 2 ^ (Zpos (digits2_pos p) - 1))
    by (apply Z.pow_le_mono_r; lia).
  lia.
Qed.

(** *** Rounding an exact value *)

Lemma iter_pos_shr_exact (n : positive) (q : positive) :
  SpecFloat.iter_pos shr_1 n
    {| shr_m := Zpos (Pos.iter xO q n); shr_r := false; shr_s := false |}
  = {| shr_m := Zpos q; shr_r := false; shr_s := false |}.
Proof.
  revert q. induction n as [n IH|n IH|]; intros q; cbn [SpecFloat.iter_pos Pos.iter].
  - cbn [shr_1 orb]. rewrite IH. apply IH.
  - rewrite IH. apply IH.
  - reflexivity.
Qed.

Lemma binary_round_aux_exact (s : bool) (q : positive) (n e : Z) :
  Zpos (digits2_pos q) = 53 -> 0 <= n -> -1074 <= e <= 971 ->
  binary_round_aux 53 1024 s (Zpos (shl q n)) (e - n) loc_Exact = S754_finite s q e.
Proof.
  intros Hd Hn He. unfold binary_round_aux, shr_fexp. cbn [Zdigits2 shr_record_of_loc].
  rewrite shl_digits by exact Hn. rewrite Hd.
  unfold fexp, SpecFloat.emin.
  replace (Z.max (53 + n + (e - n) - 53) (3 - 1024 - 53)) with e by lia.
  assert (E : shr {| shr_m := Zpos (shl q n); shr_r := false; shr_s := false |} (e - n)
                  (e - (e - n))
              = ({| shr_m := Zpos q; shr_r := false; shr_s := false |}, e)).
  { replace (e - (e - n)) with n by lia. destruct n as [|p|p]; [| |lia].
    - cbn [shr shl]. f_equal. lia.
    - cbn [shr shl]. rewrite iter_pos_shr_exact. f_equal. lia. }
  rewrite E. cbn [shr_m loc_of_shr_record round_nearest_even Zdigits2 shr_record_of_loc].
  rewrite Hd.
  replace (Z.max (53 + e - 53) (3 - 1024 - 53)) with e by lia.
  rewrite Z.sub_diag. cbn [shr shr_m].
  replace (e <=? 1024 - 53) with true by (symmetry; apply Z.leb_le; lia).
  reflexivity.
Qed.

Lemma binary_round_exact (s : bool) (p : positive) (k : Z) :
  Zpos p < 2 ^ 53 -> 0 <= k ->
  binary_round 53 1024 s (shl p k) (- k) = intSF s p.
Proof.
  intros Hp Hk. pose proof (digits_le_53 p Hp) as Hd.
  assert (H1 : 1 <= Zpos (digits2_pos p)) by lia.
  unfold binary_round. rewrite shl_digits by exact Hk.
  unfold fexp, SpecFloat.emin.
  replace (Z.max (Zpos (digits2_pos p) + k + - k - 53) (3 - 1024 - 53))
    with (Zpos (digits2_pos p) - 53) by (clear Hp; lia).
  clear Hp.
  rewrite shl_align_shl.
  set (d := Zpos (digits2_pos p)) in *.
  unfold intSF. fold d.
  destruct (Z.le_gt_cases k (53 - d)) as [L|L].
  - rewrite shl_shl by lia.
    replace (k + (- k - (d - 53))) with (53 - d) by lia.
    replace (Z.min (- k) (d - 53)) with (d - 53 - 0) by lia.
    rewrite <- (shl_0 (shl p (53 - d)) 0) at 1 by lia.
    apply binary_round_aux_exact; [|lia|lia].
    rewrite shl_digits by lia. fold d. lia.
  - rewrite (shl_0 _ (- k - (d - 53))) by lia.
    replace (Z.min (- k) (d - 53)) with (d - 53 - (k - (53 - d))) by lia.
    replace (shl p k) with (shl (shl p (53 - d)) (k - (53 - d)))
      by (rewrite shl_shl by lia; f_equal; lia).
    apply binary_round_aux_exact; [|lia|lia].
    rewrite shl_digits by lia. fold d. lia.
Qed.

(** *** Addition, subtraction and comparison of integers *)

Lemma intSF_mantissa (s : bool) (p : positive) :
  Zpos p < 2 ^ 53 ->
  exists m e, intSF s p = S754_finite s m e /\
              e = Zpos (digits2_pos p) - 53 /\
              Zpos m = Zpos p * 2 ^ (- e) /\ 0 <= - e.
Proof.
  intros Hp. pose proof (digits_le_53 p Hp) as Hd. clear Hp.
  eexists _, _. split; [reflexivity|]. split; [reflexivity|].
  split; [|lia]. rewrite shl_val by lia. f_equal. f_equal. lia.
Qed.

Lemma zSF_signed (s : bool) (p : positive) : zSF (signed s p) = intSF s p.
Proof.
  destruct s; reflexivity.
Qed.

Lemma binary_normalize_exact (z k : Z) :
  Z.abs z < 2 ^ 53 -> 0 <= k ->
  binary_normalize 53 1024 (z * 2 ^ k) (- k) false = zSF z.
Proof.
  intros Hz Hk. destruct z as [|p|p].
  - reflexivity.
  - change (Z.abs (Zpos p)) with (Zpos p) in Hz.
    rewrite <- (shl_val p k Hk). cbn [binary_normalize zSF].
    apply binary_round_exact; assumption.
  - change (Z.abs (Zneg p)) with (Zpos p) in Hz.
    replace (Zneg p * 2 ^ k) with (Zneg (shl p k))
      by (rewrite <- Pos2Z.opp_pos, shl_val by exact Hk; rewrite <- Pos2Z.opp_pos; ring).
    cbn [binary_normalize zSF].
    apply binary_round_exact; assumption.
Qed.

Lemma aligned (p q : positive) :
  Zpos p < 2 ^ 53 -> Zpos q < 2 ^ 53 ->
  let dp := Zpos (digits2_pos p) in
  let dq := Zpos (digits2_pos q) in
  let k := 53 - Z.min dp dq in
  0 <= k /\
  Z.min (dp - 53) (dq - 53) = - k /\
  Zpos (fst (shl_align (shl p (53 - dp)) (dp - 53) (- k))) = Zpos p * 2 ^ k /\
  Zpos (fst (shl_align (shl q (53 - dq)) (dq - 53) (- k))) = Zpos q * 2 ^ k.
Proof.
  intros Hp Hq dp dq k.
  pose proof (digits_le_53 p Hp). pose proof (digits_le_53 q Hq). clear Hp Hq.
  fold dp in H. fold dq in H0.
  assert (1 <= dp) by (unfold dp; lia). assert (1 <= dq) by (unfold dq; lia).
  split; [unfold k; lia|]. split; [unfold k; lia|].
  rewrite !shl_align_shl. cbn [fst].
  rewrite !shl_shl by (unfold k; lia). rewrite !shl_val by (unfold k; lia).
  split; f_equal; f_equal; unfold k; lia.
Qed.

Lemma SFadd_intSF (s t : bool) (p q : positive) :
  Zpos p < 2 ^ 53 -> Zpos q < 2 ^ 53 ->
  Z.abs (signed s p + signed t q) < 2 ^ 53 ->
  SFadd 53 1024 (intSF s p) (intSF t q) = zSF (signed s p + signed t q).
Proof.
  intros Hp Hq Hz. destruct (aligned p q Hp Hq) as (Hk & Hm & Ep & Eq).
  unfold intSF at 1 2. cbn [SFadd]. rewrite Hm, Ep, Eq.
  set (k := 53 - Z.min (Zpos (digits2_pos p)) (Zpos (digits2_pos q))) in *.
  replace (cond_Zopp s (Zpos p * 2 ^ k) + cond_Zopp t (Zpos q * 2 ^ k))
    with ((signed s p + signed t q) * 2 ^ k)
    by (unfold signed; destruct s, t; cbn [cond_Zopp]; ring).
  apply binary_normalize_exact; assumption.
Qed.

Lemma SFsub_intSF (s t : bool) (p q : positive) :
  Zpos p < 2 ^ 53 -> Zpos q < 2 ^ 53 ->
  Z.abs (signed s p - signed t q) < 2 ^ 53 ->
  SFsub 53 1024 (intSF s p) (intSF t q) = zSF (signed s p - signed t q).
Proof.
  intros Hp Hq Hz. destruct (aligned p q Hp Hq) as (Hk & Hm & Ep & Eq).
  unfold intSF at 1 2. cbn [SFsub]. rewrite Hm, Ep, Eq.
  set (k := 53 - Z.min (Zpos (digits2_pos p)) (Zpos (digits2_pos q))) in *.
  replace (cond_Zopp s (Zpos p * 2 ^ k) - cond_Zopp t (Zpos q * 2 ^ k))
    with ((signed s p - signed t q) * 2 ^ k)
    by (unfold signed; destruct s, t; cbn [cond_Zopp]; ring).
  apply binary_normalize_exact; assumption.
Qed.

Lemma zSF_cases (z : Z) :
  z = 0 \/ exists s p, z = signed s p /\ Z.abs z = Zpos p /\ zSF z = intSF s p.
Proof.
  destruct z as [|p|p]; [now left| |]; right.
  - exists false, p. repeat split.
  - exists true, p. repeat split.
Qed.

Lemma SFadd_zSF (a b : Z) :
  Z.abs a < 2 ^ 53 -> Z.abs b < 2 ^ 53 -> Z.abs (a + b) < 2 ^ 53 ->
  SFadd 53 1024 (zSF a) (zSF b) = zSF (a + b).
Proof.
  intros Ha Hb Hab.
  destruct (zSF_cases a) as [-> | (s & p & Ea & Ap & Za)].
  - destruct (zSF_cases b) as [-> | (t & q & Eb & Aq & Zb)]; [reflexivity|].
    rewrite Z.add_0_l, Zb. reflexivity.
  - destruct (zSF_cases b) as [-> | (t & q & Eb & Aq & Zb)].
    + rewrite Z.add_0_r, Za. reflexivity.
    + rewrite Za, Zb. rewrite Ea, Eb in Hab |- *. rewrite Ap in Ha. rewrite Aq in Hb.
      apply SFadd_intSF; assumption.
Qed.

Lemma SFsub_zSF (a b : Z) :
  Z.abs a < 2 ^ 53 -> Z.abs b < 2 ^ 53 -> Z.abs (a - b) < 2 ^ 53 ->
  SFsub 53 1024 (zSF a) (zSF b) = zSF (a - b).
Proof.
  intros Ha Hb Hab.
  destruct (zSF_cases a) as [-> | (s & p & Ea & Ap & Za)].
  - destruct (zSF_cases b) as [-> | (t & q & Eb & Aq & Zb)]; [reflexivity|].
    rewrite Z.sub_0_l, Zb, Eb. destruct t; reflexivity.
  - destruct (zSF_cases b) as [-> | (t & q & Eb & Aq & Zb)].
    + rewrite Z.sub_0_r, Za. reflexivity.
    + rewrite Za, Zb. rewrite Ea, Eb in Hab |- *. rewrite Ap in Ha. rewrite Aq in Hb.
      apply SFsub_intSF; assumption.
Qed.

Lemma intSF_compare (p q : positive) :
  Zpos p < 2 ^ 53 -> Zpos q < 2 ^ 53 ->
  match Z.compare (Zpos (digits2_pos p) - 53) (Zpos (digits2_pos q) - 53) with
  | Lt => Lt
  | Gt => Gt
  | Eq => Pos.compare_cont Eq (shl p (53 - Zpos (digits2_pos p)))
                              (shl q (53 - Zpos (digits2_pos q)))
  end = Pos.compare p q.
Proof.
  intros Hp Hq.
  pose proof (digits_le_53 p Hp) as Dp. pose proof (digits_le_53 q Hq) as Dq. clear Hp Hq.
  pose proof (digits_bounds p) as [Lp Up]. pose proof (digits_bounds q) as [Lq Uq].
  set (dp := Zpos (digits2_pos p)) in *. set (dq := Zpos (digits2_pos q)) in *.
  symmetry. destruct (Z.compare_spec (dp - 53) (dq - 53)) as [E|L|G].
  - assert (E' : dp = dq) by lia.
    change ((Zpos p ?= Zpos q)
            = (Zpos (shl p (53 - dp)) ?= Zpos (shl q (53 - dq)))).
    rewrite !shl_val by lia. rewrite E'.
    assert (Hc : 0 < 2 ^ (53 - dq)) by (apply Z.pow_pos_nonneg; lia).
    generalize dependent (2 ^ (53 - dq)). intros c Hc.
    destruct (Z.compare_spec (Zpos p) (Zpos q)),
             (Z.compare_spec (Zpos p * c) (Zpos q * c)); try reflexivity; nia.
  - apply Pos.compare_lt_iff. apply Pos2Z.pos_lt_pos.
    assert (2 ^ dp <= 2 ^ (dq - 1)) by (apply Z.pow_le_mono_r; lia). lia.
  - apply Pos.compare_gt_iff. apply Pos2Z.pos_lt_pos.
    assert (2 ^ dq <= 2 ^ (dp - 1)) by (apply Z.pow_le_mono_r; lia). lia.
Qed.

Lemma CompOpp_match (c x : comparison) :
  match c with Eq => CompOpp x | Lt => Gt | Gt => Lt end
  = CompOpp (match c with Eq => x | Lt => Lt | Gt => Gt end).
Proof.
  destruct c; reflexivity.
Qed.

Lemma SFcompare_zSF (a b : Z) :
  Z.abs a < 2 ^ 53 -> Z.abs b < 2 ^ 53 ->
  SFcompare (zSF a) (zSF b) = Some (Z.compare a b).
Proof.
  intros Ha Hb.
  destruct a as [|p|p], b as [|q|q]; try reflexivity.
  - cbn [zSF intSF SFcompare]. f_equal. exact (intSF_compare p q Ha Hb).
  - cbn [zSF intSF SFcompare]. f_equal.
    etransitivity; [apply CompOpp_match|].
    change (Zneg p ?= Zneg q) with (CompOpp (Pos.compare p q)).
    f_equal. exact (intSF_compare p q Ha Hb).
Qed.

(** *** The same on numbers *)

Lemma Prim2SF_of_N (n : N) :
  Z.of_N n < 2 ^ 53 -> Prim2SF (Num.of_N n) = zSF (Z.of_N n).
Proof.
  intros Hn. unfold Num.of_N. rewrite of_uint63_spec, Uint63.of_Z_spec.
  rewrite Z.mod_small.
  - rewrite <- (binary_normalize_exact (Z.of_N n) 0) by (try rewrite Z.abs_eq; lia).
    f_equal. simpl. lia.
  - split; [lia|]. apply Z.lt_trans with (1 := Hn). reflexivity.
Qed.

Lemma Prim2SF_Zf (z : Z) : Z.abs z < 2 ^ 53 -> Prim2SF (Zf z) = zSF z.
Proof.
  intros Hz. unfold Zf. destruct z as [|p|p].
  - reflexivity.
  - cbn [Z.ltb Z.compare]. rewrite Prim2SF_of_N; [reflexivity|exact Hz].
  - cbn [Z.ltb Z.compare]. rewrite opp_spec, Prim2SF_of_N; [reflexivity|exact Hz].
Qed.

Lemma of_N_Zf (n : N) : Num.of_N n = Zf (Z.of_N n).
Proof.
  unfold Zf. destruct n; reflexivity.
Qed.

Lemma Zf_add (a b : Z) :
  Z.abs a < 2 ^ 53 -> Z.abs b < 2 ^ 53 -> Z.abs (a + b) < 2 ^ 53 ->
  (Zf a + Zf b)%float = Zf (a + b).
Proof.
  intros Ha Hb Hab. apply Prim2SF_inj.
  rewrite add_spec, !Prim2SF_Zf by assumption. apply SFadd_zSF; assumption.
Qed.

Lemma Zf_sub (a b : Z) :
  Z.abs a < 2 ^ 53 -> Z.abs b < 2 ^ 53 -> Z.abs (a - b) < 2 ^ 53 ->
  (Zf a - Zf b)%float = Zf (a - b).
Proof.
  intros Ha Hb Hab. apply Prim2SF_inj.
  rewrite sub_spec, !Prim2SF_Zf by assumption. apply SFsub_zSF; assumption.
Qed.

Lemma Zf_abs (a : Z) : Z.abs a < 2 ^ 53 -> abs (Zf a) = Zf (Z.abs a).
Proof.
  intros Ha. apply Prim2SF_inj.
  rewrite abs_spec, !Prim2SF_Zf by (try rewrite Z.abs_idemp; assumption).
  destruct a; reflexivity.
Qed.

Lemma Zf_ltb (a b : Z) :
  Z.abs a < 2 ^ 53 -> Z.abs b < 2 ^ 53 -> (Zf a <? Zf b)%float = (a <? b).
Proof.
  intros Ha Hb. rewrite ltb_spec, !Prim2SF_Zf by assumption.
  unfold SFltb. rewrite SFcompare_zSF by assumption.
  unfold Z.ltb. destruct (a ?= b); reflexivity.
Qed.

Lemma Zf_leb (a b : Z) :
  Z.abs a < 2 ^ 53 -> Z.abs b < 2 ^ 53 -> (Zf a <=? Zf b)%float = (a <=? b).
Proof.
  intros Ha Hb. rewrite leb_spec, !Prim2SF_Zf by assumption.
  unfold SFleb. rewrite SFcompare_zSF by assumption.
  unfold Z.leb. destruct (a ?= b); reflexivity.
Qed.

(** *** The order of binary64 numbers *)

Lemma lex_compare_trans (e1 e2 e3 : Z) (m1 m2 m3 : positive) :
  let c a b (x y : positive) :=
    match Z.compare a b with Lt => Lt | Gt => Gt | Eq => Pos.compare x y end in
  (c e1 e2 m1 m2 <> Gt -> c e2 e3 m2 m3 <> Gt ->
   c e1 e3 m1 m3 = match c e1 e2 m1 m2 with Eq => c e2 e3 m2 m3 | _ => Lt end) /\
  (c e1 e2 m1 m2 <> Lt -> c e2 e3 m2 m3 <> Lt ->
   c e1 e3 m1 m3 = match c e1 e2 m1 m2 with Eq => c e2 e3 m2 m3 | _ => Gt end).
Proof.
  intros c. unfold c.
  destruct (Z.compare_spec e1 e2), (Z.compare_spec e2 e3), (Z.compare_spec e1 e3);
    try lia; subst;
    destruct (Pos.compare_spec m1 m2), (Pos.compare_spec m2 m3), (Pos.compare_spec m1 m3);
    try lia; split; intros N1 N2; try reflexivity;
    try (exfalso; apply N1; reflexivity); try (exfalso; apply N2; reflexivity).
Qed.

Lemma match_Lt (c : comparison) : Lt = match c with Eq => Lt | _ => Lt end.
Proof.
  destruct c; reflexivity.
Qed.

Lemma SFcompare_trans (x y z : spec_float) (c1 c2 : comparison) :
  SFcompare x y = Some c1 -> SFcompare y z = Some c2 ->
  c1 <> Gt -> c2 <> Gt ->
  SFcompare x z = Some (match c1 with Eq => c2 | _ => Lt end).
Proof.
  destruct x as [sx|sx| |sx mx ex], y as [sy|sy| |sy my ey], z as [sz|sz| |sz mz ez];
    cbn [SFcompare]; try discriminate;
    intros [= <-] [= <-] N1 N2;
    repeat match goal with
           | s : bool |- _ => destruct s
           end;
    try reflexivity; try (exfalso; apply N1; reflexivity);
    try (exfalso; apply N2; reflexivity);
    try (f_equal; apply match_Lt).
  - f_equal. destruct (lex_compare_trans ex ey ez mx my mz) as [_ H].
    cbv zeta in H. revert N1 N2 H.
    change (PosDef.Pos.compare_cont Eq) with Pos.compare.
    destruct (Z.compare ex ey), (Z.compare ey ez), (Z.compare ex ez);
      destruct (Pos.compare mx my), (Pos.compare my mz), (Pos.compare mx mz);
      cbn [CompOpp]; intros N1 N2 H; try reflexivity;
      try (exfalso; apply N1; reflexivity); try (exfalso; apply N2; reflexivity);
      try (specialize (H ltac:(discriminate) ltac:(discriminate)); discriminate H).
  - f_equal. destruct (lex_compare_trans ex ey ez mx my mz) as [H _].
    cbv zeta in H. revert N1 N2 H.
    change (PosDef.Pos.compare_cont Eq) with Pos.compare.
    destruct (Z.compare ex ey), (Z.compare ey ez), (Z.compare ex ez);
      destruct (Pos.compare mx my), (Pos.compare my mz), (Pos.compare mx mz);
      intros N1 N2 H; try reflexivity;
      try (exfalso; apply N1; reflexivity); try (exfalso; apply N2; reflexivity);
      try (specialize (H ltac:(discriminate) ltac:(discriminate)); discriminate H).
Qed.

Lemma ltb_leb_trans (t u v : float) :
  (t <? u)%float = true -> (u <=? v)%float = true -> (t <? v)%float = true.
Proof.
  rewrite !ltb_spec, leb_spec. unfold SFltb, SFleb.
  destruct (SFcompare (Prim2SF t) (Prim2SF u)) as [[]|] eqn:E1; try discriminate.
  destruct (SFcompare (Prim2SF u) (Prim2SF v)) as [[]|] eqn:E2; try discriminate;
    intros _ _; rewrite (SFcompare_trans _ _ _ _ _ E1 E2); try reflexivity; discriminate.
Qed.

Lemma leb_ltb_trans (t u v : float) :
  (t <=? u)%float = true -> (u <? v)%float = true -> (t <? v)%float = true.
Proof.
  rewrite !ltb_spec, leb_spec. unfold SFltb, SFleb.
  destruct (SFcompare (Prim2SF t) (Prim2SF u)) as [[]|] eqn:E1; try discriminate;
  destruct (SFcompare (Prim2SF u) (Prim2SF v)) as [[]|] eqn:E2; try discriminate;
    intros _ _; rewrite (SFcompare_trans _ _ _ _ _ E1 E2); try reflexivity; discriminate.
Qed.

End Integers.

(** ** The thresholds of the pixel loop *)

Lemma forall_range_spec (n : nat) (lo : N) (P : N -> bool) :
  forall_range n lo P = true ->
  forall k, (lo <= k < lo + 2 ^ N.of_nat n)%N -> P k = true.
Proof.
  revert lo. induction n as [|n IH]; intros lo H k Hk.
  - cbn in *. replace k with lo by lia. exact H.
  - cbn [forall_range] in H. apply andb_prop in H. destruct H as [H1 H2].
    rewrite Nnat.Nat2N.inj_succ, N.pow_succ_r' in Hk.
    destruct (N.lt_ge_cases k (lo + 2 ^ N.of_nat n)) as [L|G].
    + apply (IH lo H1). lia.
    + apply (IH _ H2). lia.
Qed.

Lemma thresholds_checked : forall_range 16 0 thresholds_ok = true.
Proof.
  vm_compute. reflexivity.
Qed.

Lemma third_checked : forall_range 8 0 third_ok = true.
Proof.
  vm_compute. reflexivity.
Qed.

Lemma of_N_leb (a b : N) :
  (a <= b)%N -> (b < 2 ^ 53)%N -> (Num.of_N a <=? Num.of_N b)%float = true.
Proof.
  intros Hab Hb. rewrite !of_N_Zf.
  change (2 ^ 53)%N with 9007199254740992%N in Hb.
  rewrite Zf_leb; [apply Z.leb_le; lia| |];
    change (2 ^ 53)%Z with 9007199254740992%Z; lia.
Qed.

Lemma beyond60_spec (d c : N) :
  (1 <= d <= maxSide)%N -> (c < 2 ^ 53)%N ->
  Num.gtb (Num.of_N c) (Num.of_N d * 0.6) = (beyond60 d <=? c)%N.
Proof.
  intros Hd Hc. unfold maxSide in Hd.
  assert (H : thresholds_ok d = true).
  { apply (forall_range_spec 16 0 thresholds_ok thresholds_checked).
    change (2 ^ N.of_nat 16)%N with 65536%N. lia. }
  unfold thresholds_ok in H. replace (d =? 0)%N with false in H by (symmetry; apply N.eqb_neq; lia).
  cbn [orb] in H. cbv zeta in H.
  apply andb_prop in H. destruct H as [H _].
  apply andb_prop in H. destruct H as [H _].
  apply andb_prop in H. destruct H as [H1 H2].
  apply negb_true_iff in H2.
  assert (Hb : (beyond60 d < 2 ^ 53)%N) by (unfold beyond60; change (2 ^ 53)%N with 9007199254740992%N; zify; Z.to_euclidean_division_equations; lia).
  unfold Num.gtb. destruct (beyond60 d <=? c)%N eqn:E.
  - apply N.leb_le in E. apply (ltb_leb_trans _ _ _ H1). now apply of_N_leb.
  - apply N.leb_gt in E.
    destruct (Num.of_N d * 0.6 <? Num.of_N c)%float eqn:F; [|reflexivity].
    rewrite <- H2. symmetry. apply (ltb_leb_trans _ _ _ F). apply of_N_leb; lia.
Qed.

Lemma before40_spec (d c : N) :
  (1 <= d <= maxSide)%N -> (c < 2 ^ 53)%N ->
  (Num.of_N c <? Num.of_N d * 0.4)%float = (c <? before40 d)%N.
Proof.
  intros Hd Hc. unfold maxSide in Hd.
  assert (H : thresholds_ok d = true).
  { apply (forall_range_spec 16 0 thresholds_ok thresholds_checked).
    change (2 ^ N.of_nat 16)%N with 65536%N. lia. }
  unfold thresholds_ok in H. replace (d =? 0)%N with false in H by (symmetry; apply N.eqb_neq; lia).
  cbn [orb] in H. cbv zeta in H.
  apply andb_prop in H. destruct H as [H H4].
  apply andb_prop in H. destruct H as [_ H3].
  apply negb_true_iff in H4.
  assert (Hb : (before40 d < 2 ^ 53)%N) by (unfold before40; change (2 ^ 53)%N with 9007199254740992%N; zify; Z.to_euclidean_division_equations; lia).
  destruct (c <? before40 d)%N eqn:E.
  - apply N.ltb_lt in E. apply (leb_ltb_trans _ (Num.of_N (before40 d - 1))); [|exact H3].
    apply of_N_leb; lia.
  - apply N.ltb_ge in E.
    destruct (Num.of_N c <? Num.of_N d * 0.4)%float eqn:F; [|reflexivity].
    rewrite <- H4. symmetry. apply (leb_ltb_trans _ (Num.of_N c)); [|exact F].
    now apply of_N_leb.
Qed.

Lemma third_of_N (v : N) : (v <= 255)%N -> (Num.of_N (3 * v) / 3)%float = Num.of_N v.
Proof.
  intros Hv. apply FloatAxioms.Leibniz.eqb_spec.
  apply (forall_range_spec 8 0 third_ok third_checked).
  change (2 ^ N.of_nat 8)%N with 256%N. lia.
Qed.

(** ** One step of the pixel loop *)

Ltac pow53 := change (2 ^ 53)%Z with 9007199254740992%Z; lia.

Lemma gray_pixelAt (img : ImageData) (k : nat) :
  gray img (4 * k) = grayOf (pixelAt img k).
Proof.
  unfold gray, grayOf, channel, pixelAt. cbv zeta.
  rewrite !nth_error_firstn, !nth_error_skipn. cbn [Nat.ltb Nat.leb].
  replace (4 * k + 0)%nat with (4 * k)%nat by lia. reflexivity.
Qed.

Lemma motionStep_unchanged (thr : float) (current previous : ImageData)
      (m : Motion) (i : nat) :
  gray current i = gray previous i -> Num.gtb 0 thr = false ->
  motionStep thr current previous m i = m.
Proof.
  intros Hg Ht. unfold motionStep. rewrite Hg.
  destruct (abs_sub_diag (gray previous i)) as [-> | ->].
  - now rewrite Ht.
  - unfold Num.gtb. now rewrite ltb_nan_r.
Qed.

Lemma of_nat_offset (k : nat) : (N.of_nat (4 * k) / 4 = N.of_nat k)%N.
Proof.
  zify. Z.to_euclidean_division_equations. lia.
Qed.

Lemma motionStep_changed (current previous : ImageData) (M H V : Z) (k : nat) (v : N) :
  gray previous (4 * k) = Num.of_N v ->
  gray current (4 * k) = Num.of_N (v + 80) ->
  (v + 80 <= 255)%N ->
  (1 <= width current <= maxSide)%N -> (1 <= height current <= maxSide)%N ->
  (Z.of_nat k < 4294967296)%Z ->
  (Z.abs M <= 4503599627370496)%Z -> (Z.abs H <= 4503599627370496)%Z ->
  (Z.abs V <= 4503599627370496)%Z ->
  motionStep 50 current previous (motionOf M H V) (4 * k) =
  motionOf (M + 80)
           (H + share (width current) (N.of_nat k mod width current))
           (V + share (height current) (N.of_nat k / width current)).
Proof.
  intros Hp Hc Hv Hw Hh Hk HM HH HV.
  set (c := (N.of_nat k mod width current)%N).
  set (r := (N.of_nat k / width current)%N).
  assert (Hc53 : (c < 2 ^ 53)%N).
  { change (2 ^ 53)%N with 9007199254740992%N.
    assert (c <= N.of_nat k)%N by (apply N.Div0.mod_le). lia. }
  assert (Hr53 : (r < 2 ^ 53)%N).
  { change (2 ^ 53)%N with 9007199254740992%N.
    assert (r <= N.of_nat k)%N by (subst r; zify; Z.to_euclidean_division_equations; nia). lia. }
  unfold motionStep. rewrite Hp, Hc, !of_N_Zf.
  rewrite Zf_sub by (rewrite ?Z.abs_eq by lia; pow53).
  replace (Z.of_N (v + 80) - Z.of_N v)%Z with 80%Z by lia.
  rewrite Zf_abs by pow53.
  change (Num.gtb (Zf (Z.abs 80)) 50) with true. cbv iota zeta.
  cbn [motionOf motionMagnitude horizontalMotion verticalMotion].
  rewrite of_nat_offset.
  unfold Num.rem_N, Num.floor_div_N.
  replace (width current =? 0)%N with false by (symmetry; apply N.eqb_neq; lia).
  fold c r.
  rewrite <- !of_N_Zf.
  rewrite (beyond60_spec (width current) c Hw Hc53).
  rewrite (before40_spec (width current) c Hw Hc53).
  rewrite (beyond60_spec (height current) r Hh Hr53).
  rewrite (before40_spec (height current) r Hh Hr53).
  change (Z.abs 80) with 80%Z.
  unfold motionOf, share.
  rewrite (Zf_add M 80) by (try pow53; change (2 ^ 53)%Z with 9007199254740992%Z; lia).
  destruct (beyond60 (width current) <=? c)%N, (c <? before40 (width current))%N,
           (beyond60 (height current) <=? r)%N, (r <? before40 (height current))%N.
  all: rewrite ?Zf_add, ?Zf_sub by (change (2 ^ 53)%Z with 9007199254740992%Z; lia).
  all: f_equal; f_equal; lia.
Qed.

(** ** The loop on a frame whose right half is shifted *)

Lemma rightHalfShifted_size (delta : N) (previous current : ImageData) :
  rightHalfShifted delta previous current = true ->
  width previous = width current /\ height previous = height current /\
  length (data current) = (4 * N.to_nat (width current * height current))%nat.
Proof.
  unfold rightHalfShifted. intros H.
  apply andb_prop in H. destruct H as [H _].
  apply andb_prop in H. destruct H as [H H4].
  apply andb_prop in H. destruct H as [H _].
  apply andb_prop in H. destruct H as [H1 H2].
  apply N.eqb_eq in H1, H2. apply Nat.eqb_eq in H4. auto.
Qed.

Lemma shifted_pixel (previous current : ImageData) (k : nat) :
  rightHalfShifted 80 previous current = true ->
  wholeLuminance previous = true ->
  (k < N.to_nat (width current * height current))%nat ->
  if changedAt (width current) k
  then exists v, (v + 80 <= 255)%N /\
                 gray previous (4 * k) = Num.of_N v /\
                 gray current (4 * k) = Num.of_N (v + 80)
  else gray current (4 * k) = gray previous (4 * k).
Proof.
  intros Hs Hg Hk.
  destruct (rightHalfShifted_size _ _ _ Hs) as (Ew & Eh & _).
  unfold rightHalfShifted in Hs. apply andb_prop in Hs. destruct Hs as [_ Hs].
  unfold wholeLuminance in Hg. rewrite Ew, Eh in Hg.
  rewrite forallb_forall in Hs, Hg.
  assert (Hin : In k (seq 0 (N.to_nat (width current * height current))))
    by (apply in_seq; lia).
  specialize (Hs k Hin). specialize (Hg k Hin). cbv zeta in Hs.
  unfold changedAt. rewrite !gray_pixelAt.
  destruct (width current <=? 2 * (N.of_nat k mod width current))%N.
  - destruct (list_eq_dec N.eq_dec _ _) as [E|]; [clear Hs|discriminate].
    unfold wholeLuminanceAt in Hg.
    destruct (pixelAt previous k) as [|a [|b [|c [|al [|]]]]]; try discriminate.
    apply N.eqb_eq in Hg.
    destruct (pixelAt current k) as [|a' [|b' [|c' [|al' [|]]]]]; try discriminate.
    cbn [map shiftedPixel] in E. injection E as Ea Eb Ec _.
    pose proof (Byte.to_N_bounded a') as Ba. pose proof (Byte.to_N_bounded b') as Bb.
    pose proof (Byte.to_N_bounded c') as Bc.
    rewrite Ea in Ba. rewrite Eb in Bb. rewrite Ec in Bc.
    exists ((Byte.to_N a + Byte.to_N b + Byte.to_N c) / 3)%N.
    unfold grayOf, Num.of_byte. cbn [nth_error]. rewrite Ea, Eb, Ec.
    clear Ea Eb Ec.
    remember (Byte.to_N a) as ta eqn:Ta. remember (Byte.to_N b) as tb eqn:Tb.
    remember (Byte.to_N c) as tc eqn:Tc.
    clear - Ba Bb Bc Hg.
    assert (E3 : (ta + tb + tc = 3 * ((ta + tb + tc) / 3))%N)
      by (zify; Z.to_euclidean_division_equations; lia).
    assert (Hv : ((ta + tb + tc) / 3 + 80 <= 255)%N)
      by (zify; Z.to_euclidean_division_equations; lia).
    split; [exact Hv|].
    rewrite !of_N_Zf.
    rewrite !Zf_add by (rewrite ?Z.abs_eq by lia;
                        change (2 ^ 53)%Z with 9007199254740992%Z; lia).
    replace (Z.of_N ta + Z.of_N tb + Z.of_N tc)%Z
      with (Z.of_N (3 * ((ta + tb + tc) / 3))) by lia.
    replace (Z.of_N (ta + 80) + Z.of_N (tb + 80) + Z.of_N (tc + 80))%Z
      with (Z.of_N (3 * ((ta + tb + tc) / 3 + 80))) by lia.
    rewrite <- !of_N_Zf.
    split; apply third_of_N; lia.
  - destruct (list_eq_dec Byte.byte_eq_dec _ _) as [E|]; [|discriminate].
    now rewrite E.
Qed.

Lemma fold_left_map_offsets {A : Type} (f : A -> nat -> A) (g : nat -> nat)
      (l : list nat) (a : A) :
  fold_left f (map g l) a = fold_left (fun m k => f m (g k)) l a.
Proof.
  revert a. induction l as [|k l IH]; intros a; [reflexivity|]. apply IH.
Qed.

Lemma share_bounds (d x : N) : (- 80 <= share d x <= 80)%Z.
Proof.
  unfold share. destruct (beyond60 d <=? x)%N, (x <? before40 d)%N; lia.
Qed.

Lemma pixel_count (w h : N) :
  (w <= maxSide)%N -> (h <= maxSide)%N ->
  (Z.of_nat (N.to_nat (w * h)) <= 4294836225)%Z.
Proof.
  unfold maxSide. intros Hw Hh. rewrite N_nat_Z. nia.
Qed.

Lemma fold_shifted (previous current : ImageData) :
  rightHalfShifted 80 previous current = true ->
  wholeLuminance previous = true ->
  (1 <= width current <= maxSide)%N -> (1 <= height current <= maxSide)%N ->
  forall (len a : nat) (M H V : Z),
    (a + len <= N.to_nat (width current * height current))%nat ->
    (Z.abs M <= 80 * Z.of_nat a)%Z -> (Z.abs H <= 80 * Z.of_nat a)%Z ->
    (Z.abs V <= 80 * Z.of_nat a)%Z ->
    fold_left (fun m k => motionStep 50 current previous m (4 * k)) (seq a len)
              (motionOf M H V)
    = motionOf (M + Zsum (magnitudeAt (width current)) (seq a len))
               (H + Zsum (horizontalAt (width current)) (seq a len))
               (V + Zsum (verticalAt (width current) (height current)) (seq a len)).
Proof.
  intros Hs Hg Hw Hh.
  pose proof (pixel_count _ _ (proj2 Hw) (proj2 Hh)) as Hn.
  pose proof (fun k => shifted_pixel previous current k Hs Hg) as Hpix.
  remember (N.to_nat (width current * height current)) as n eqn:En. clear En.
  induction len as [|len IH]; intros a M H V Ha HM HH HV.
  - cbn. now rewrite !Z.add_0_r.
  - cbn [seq fold_left Zsum fold_right].
    pose proof (Hpix a ltac:(lia)) as Hp.
    unfold magnitudeAt at 1, horizontalAt at 1, verticalAt at 1.
    fold (Zsum (magnitudeAt (width current)) (seq (S a) len)).
    fold (Zsum (horizontalAt (width current)) (seq (S a) len)).
    fold (Zsum (verticalAt (width current) (height current)) (seq (S a) len)).
    pose proof (share_bounds (width current) (N.of_nat a mod width current)) as B1.
    pose proof (share_bounds (height current) (N.of_nat a / width current)) as B2.
    destruct (changedAt (width current) a).
    + destruct Hp as (v & Hv & Gp & Gc).
      rewrite (motionStep_changed current previous M H V a v Gp Gc Hv Hw Hh)
        by (clear - Ha Hn HM HH HV; lia).
      generalize dependent (share (width current) (N.of_nat a mod width current)).
      generalize dependent (share (height current) (N.of_nat a / width current)).
      intros s2 B2 s1 B1.
      rewrite IH by (clear - Ha Hn HM HH HV B1 B2; lia).
      f_equal; ring.
    + rewrite motionStep_unchanged by (exact Hp || reflexivity).
      rewrite IH by (clear - Ha Hn HM HH HV; lia).
      f_equal; ring.
Qed.

Lemma accumulateMotion_shifted (previous current : ImageData) :
  rightHalfShifted 80 previous current = true ->
  wholeLuminance previous = true ->
  (1 <= width current <= maxSide)%N -> (1 <= height current <= maxSide)%N ->
  let n := N.to_nat (width current * height current) in
  accumulateMotion 50 current previous
  = motionOf (Zsum (magnitudeAt (width current)) (seq 0 n))
             (Zsum (horizontalAt (width current)) (seq 0 n))
             (Zsum (verticalAt (width current) (height current)) (seq 0 n)).
Proof.
  intros Hs Hg Hw Hh n.
  destruct (rightHalfShifted_size _ _ _ Hs) as (_ & _ & El).
  unfold accumulateMotion, loopOffsets. rewrite El. fold n.
  replace ((4 * n + 3) / 4)%nat with n
    by (apply Nat.div_unique with (r := 3%nat); lia).
  rewrite fold_left_map_offsets.
  change (mkMotion 0 0 0) with (motionOf 0 0 0).
  rewrite (fold_shifted previous current Hs Hg Hw Hh n 0 0 0 0) by (cbn; lia).
  rewrite !Z.add_0_l. reflexivity.
Qed.

(** ** Sums over the pixels of a frame *)

Ltac euclid := zify; Z.to_euclidean_division_equations; lia.

Lemma Zsum_app (f : nat -> Z) (l l' : list nat) :
  Zsum f (l ++ l') = (Zsum f l + Zsum f l')%Z.
Proof.
  induction l as [|k l IH]; cbn [Zsum fold_right app]; [reflexivity|].
  fold (Zsum f (l ++ l')). fold (Zsum f l). rewrite IH. ring.
Qed.

Lemma Zsum_ext (f g : nat -> Z) (l : list nat) :
  (forall k, In k l -> f k = g k) -> Zsum f l = Zsum g l.
Proof.
  induction l as [|k l IH]; intros H; [reflexivity|].
  cbn [Zsum fold_right]. fold (Zsum f l). fold (Zsum g l).
  rewrite (H k (or_introl eq_refl)), IH; [reflexivity|].
  intros j Hj. apply H. now right.
Qed.

Lemma Zsum_shift (f : nat -> Z) (a n : nat) :
  Zsum f (seq a n) = Zsum (fun c => f (a + c)%nat) (seq 0 n).
Proof.
  revert f a. induction n as [|n IH]; intros f a; [reflexivity|].
  cbn [seq Zsum fold_right]. fold (Zsum f (seq (S a) n)).
  fold (Zsum (fun c => f (a + c)%nat) (seq 1 n)).
  rewrite (IH f (S a)), (IH (fun c => f (a + c)%nat) 1%nat), Nat.add_0_r.
  f_equal. apply Zsum_ext. intros k _. f_equal. lia.
Qed.

Lemma Zsum_scale (f : nat -> Z) (x : Z) (l : list nat) :
  Zsum (fun k => (f k * x)%Z) l = (Zsum f l * x)%Z.
Proof.
  induction l as [|k l IH]; [reflexivity|].
  cbn [Zsum fold_right]. fold (Zsum (fun k => (f k * x)%Z) l). fold (Zsum f l).
  rewrite IH. ring.
Qed.

Lemma Zsum_sub (f g : nat -> Z) (l : list nat) :
  Zsum (fun k => (f k - g k)%Z) l = (Zsum f l - Zsum g l)%Z.
Proof.
  induction l as [|k l IH]; [reflexivity|].
  cbn [Zsum fold_right]. fold (Zsum (fun k => (f k - g k)%Z) l).
  fold (Zsum f l). fold (Zsum g l). rewrite IH. ring.
Qed.

Lemma Zsum_const (x : Z) (n : nat) :
  Zsum (fun _ => x) (seq 0 n) = (x * Z.of_nat n)%Z.
Proof.
  induction n as [|n IH]; [cbn; ring|].
  rewrite seq_S, Zsum_app, IH. cbn [Zsum fold_right]. lia.
Qed.

(** The number of indices below [n] from [a] on, and below [a]. *)
Lemma Zsum_from (a n : nat) :
  Zsum (fun c => if (a <=? c)%nat then 1%Z else 0%Z) (seq 0 n) = Z.of_nat (n - a).
Proof.
  induction n as [|n IH]; [reflexivity|].
  rewrite seq_S, Zsum_app, IH. cbn [Zsum fold_right Nat.add].
  destruct (Nat.leb_spec a n); lia.
Qed.

Lemma Zsum_below (a n : nat) :
  Zsum (fun c => if (c <? a)%nat then 1%Z else 0%Z) (seq 0 n) = Z.of_nat (Nat.min a n).
Proof.
  induction n as [|n IH]; [cbn; lia|].
  rewrite seq_S, Zsum_app, IH. cbn [Zsum fold_right Nat.add].
  destruct (Nat.ltb_spec n a); lia.
Qed.

(** A sum over the pixels in row-major order is a sum over the rows of
    the sums over the columns. *)
Lemma Zsum_grid (F : nat -> nat -> Z) (wn hn : nat) :
  (0 < wn)%nat ->
  Zsum (fun k => F (k mod wn) (k / wn))%nat (seq 0 (hn * wn))
  = Zsum (fun r => Zsum (fun c => F c r) (seq 0 wn)) (seq 0 hn).
Proof.
  intros Hw. induction hn as [|hn IH]; [reflexivity|].
  replace (S hn * wn)%nat with (hn * wn + wn)%nat by lia.
  rewrite seq_app, Zsum_app, IH, seq_S, Zsum_app. cbn [Zsum fold_right Nat.add].
  rewrite Z.add_0_r. f_equal.
  fold (Zsum (fun k => F (k mod wn) (k / wn))%nat (seq (hn * wn) wn)).
  rewrite Zsum_shift. apply Zsum_ext. intros c Hc. apply in_seq in Hc.
  rewrite (Nat.add_comm (hn * wn) c), Nat.Div0.mod_add, Nat.div_add by lia.
  rewrite Nat.mod_small, Nat.div_small by lia. reflexivity.
Qed.

Lemma grid_index (w : N) (k : nat) :
  (1 <= w)%N ->
  (N.of_nat k mod w)%N = N.of_nat (k mod N.to_nat w) /\
  (N.of_nat k / w)%N = N.of_nat (k / N.to_nat w).
Proof.
  intros Hw. rewrite Nnat.Nat2N.inj_mod, Nnat.Nat2N.inj_div, Nnat.N2Nat.id. auto.
Qed.

(** The three sums of a frame of [w] by [h] pixels. *)
Lemma magnitude_sum (w h : N) :
  (1 <= w)%N ->
  Zsum (magnitudeAt w) (seq 0 (N.to_nat (w * h))) = (80 * Z.of_N (w / 2) * Z.of_N h)%Z.
Proof.
  intros Hw. rewrite Nnat.N2Nat.inj_mul, Nat.mul_comm.
  pose proof (Zsum_grid (fun c _ => if (N.to_nat ((w + 1) / 2) <=? c)%nat then 80 else 0)%Z
                        (N.to_nat w) (N.to_nat h) ltac:(lia)) as G.
  cbv beta in G.
  rewrite (Zsum_ext _ (fun k => if (N.to_nat ((w + 1) / 2) <=? k mod N.to_nat w)%nat
                                then 80 else 0)%Z).
  - rewrite G.
    rewrite (Zsum_ext _ (fun _ => (80 * Z.of_N (w / 2))%Z)).
    + rewrite Zsum_const. lia.
    + intros r _.
      rewrite (Zsum_ext _ (fun c => ((if (N.to_nat ((w + 1) / 2) <=? c)%nat then 1 else 0)
                                     * 80)%Z)).
      * rewrite Zsum_scale, Zsum_from. euclid.
      * intros c _. destruct (_ <=? _)%nat; lia.
  - intros k _. unfold magnitudeAt, changedAt.
    destruct (grid_index w k Hw) as [-> _].
    assert (Hc : (k mod N.to_nat w < N.to_nat w)%nat) by (apply Nat.mod_upper_bound; lia).
    generalize dependent (k mod N.to_nat w)%nat. intros c Hc.
    destruct (N.leb_spec w (2 * N.of_nat c)), (Nat.leb_spec (N.to_nat ((w + 1) / 2)) c);
      try reflexivity; exfalso; euclid.
Qed.

Lemma horizontal_sum (w h : N) :
  (1 <= w)%N ->
  Zsum (horizontalAt w) (seq 0 (N.to_nat (w * h)))
  = (80 * (Z.of_N w - Z.of_N (beyond60 w)) * Z.of_N h)%Z.
Proof.
  intros Hw. rewrite Nnat.N2Nat.inj_mul, Nat.mul_comm.
  pose proof (Zsum_grid (fun c _ => if (N.to_nat (beyond60 w) <=? c)%nat then 80 else 0)%Z
                        (N.to_nat w) (N.to_nat h) ltac:(lia)) as G.
  cbv beta in G.
  rewrite (Zsum_ext _ (fun k => if (N.to_nat (beyond60 w) <=? k mod N.to_nat w)%nat
                                then 80 else 0)%Z).
  - rewrite G.
    rewrite (Zsum_ext _ (fun _ => (80 * (Z.of_N w - Z.of_N (beyond60 w)))%Z)).
    + rewrite Zsum_const. lia.
    + intros r _.
      rewrite (Zsum_ext _ (fun c => ((if (N.to_nat (beyond60 w) <=? c)%nat then 1 else 0)
                                     * 80)%Z)).
      * rewrite Zsum_scale, Zsum_from. unfold beyond60. euclid.
      * intros c _. destruct (_ <=? _)%nat; lia.
  - intros k _. unfold horizontalAt, changedAt, share.
    destruct (grid_index w k Hw) as [-> _].
    assert (Hc : (k mod N.to_nat w < N.to_nat w)%nat) by (apply Nat.mod_upper_bound; lia).
    generalize dependent (k mod N.to_nat w)%nat. intros c Hc.
    unfold beyond60, before40.
    destruct (N.leb_spec w (2 * N.of_nat c)),
             (N.leb_spec (3 * w / 5 + 1) (N.of_nat c)),
             (N.ltb_spec (N.of_nat c) ((2 * w + 4) / 5)),
             (Nat.leb_spec (N.to_nat (3 * w / 5 + 1)) c);
      try reflexivity; exfalso; euclid.
Qed.

Lemma vertical_sum (w h : N) :
  (1 <= w)%N -> (1 <= h)%N ->
  Zsum (verticalAt w h) (seq 0 (N.to_nat (w * h))) = (- (80 * Z.of_N (w / 2)))%Z.
Proof.
  intros Hw Hh. rewrite Nnat.N2Nat.inj_mul, Nat.mul_comm.
  pose proof (Zsum_grid (fun c r => (if (N.to_nat ((w + 1) / 2) <=? c)%nat then 1 else 0)
                                    * share h (N.of_nat r))%Z
                        (N.to_nat w) (N.to_nat h) ltac:(lia)) as G.
  cbv beta in G.
  rewrite (Zsum_ext _ (fun k => (if (N.to_nat ((w + 1) / 2) <=? k mod N.to_nat w)%nat
                                 then 1 else 0)
                                * share h (N.of_nat (k / N.to_nat w)))%Z).
  - rewrite G.
    rewrite (Zsum_ext _ (fun r => (((if (N.to_nat (beyond60 h) <=? r)%nat then 1 else 0)
                                    - (if (r <? N.to_nat (before40 h))%nat then 1 else 0))
                                   * (80 * Z.of_N (w / 2)))%Z)).
    + rewrite Zsum_scale, Zsum_sub, Zsum_from, Zsum_below.
      unfold beyond60, before40.
      match goal with
      | |- (?a * ?b = _)%Z => replace a with (-1)%Z by euclid
      end.
      ring.
    + intros r _. rewrite Zsum_scale, Zsum_from. unfold share, beyond60, before40.
      destruct (N.leb_spec (3 * h / 5 + 1) (N.of_nat r)),
               (N.ltb_spec (N.of_nat r) ((2 * h + 4) / 5)),
               (Nat.leb_spec (N.to_nat (3 * h / 5 + 1)) r),
               (Nat.ltb_spec r (N.to_nat ((2 * h + 4) / 5)));
        try (exfalso; euclid); euclid.
  - intros k _. unfold verticalAt, changedAt.
    destruct (grid_index w k Hw) as [-> ->].
    generalize (k / N.to_nat w)%nat. intros r.
    assert (Hc : (k mod N.to_nat w < N.to_nat w)%nat) by (apply Nat.mod_upper_bound; lia).
    generalize dependent (k mod N.to_nat w)%nat. intros c Hc.
    destruct (N.leb_spec w (2 * N.of_nat c)), (Nat.leb_spec (N.to_nat ((w + 1) / 2)) c);
      try lia; exfalso; euclid.
Qed.

(** With more than 1000 accumulated on a frame at least 3 pixels wide and
    2 pixels high, the horizontal accumulator exceeds the magnitude of the
    vertical one. *)
Lemma horizontal_dominates (w h : Z) :
  (3 <= w -> 2 <= h -> 1000 < 80 * (w / 2) * h ->
   80 * (w / 2) < 80 * (w - (3 * w / 5 + 1)) * h)%Z.
Proof.
  intros Hw Hh Hm.
  assert (Hc : (1 <= w - (3 * w / 5 + 1))%Z) by euclid.
  destruct (Z.le_gt_cases 7 w) as [L|G].
  - assert (w / 2 < 2 * (w - (3 * w / 5 + 1)))%Z by euclid. nia.
  - assert (w / 2 <= 3)%Z by euclid. nia.
Qed.

(** ** Frames whose right half is brighter *)

(** The accumulators after the loop on two frames of whole luminance that
    differ by a luminance shift of +80 across the right half: the magnitude
    counts the changed pixels, the horizontal accumulator those beyond 60%
    of the width, and the vertical accumulator one row of changed pixels
    more before 40% of the height than beyond 60%. *)
Lemma accumulateMotion_rightHalf (previous current : ImageData) :
  rightHalfShifted 80 previous current = true ->
  wholeLuminance previous = true ->
  (1 <= width current <= maxSide)%N -> (1 <= height current <= maxSide)%N ->
  accumulateMotion 50 current previous
  = motionOf (80 * Z.of_N (width current / 2) * Z.of_N (height current))
             (80 * (Z.of_N (width current) - Z.of_N (beyond60 (width current)))
              * Z.of_N (height current))
             (- (80 * Z.of_N (width current / 2))).
Proof.
  intros Hs Hg Hw Hh.
  rewrite (accumulateMotion_shifted previous current Hs Hg Hw Hh). cbv zeta.
  rewrite magnitude_sum, horizontal_sum, vertical_sum by lia. reflexivity.
Qed.

(** Such frames, at least 3 pixels wide and 2 high: the magnitude exceeds
    1000 from 13 changed pixels on, and the horizontal accumulator is then
    positive and larger than the vertical one. *)
Lemma rightHalf_swipe_right (older : list ImageData) (previous current : ImageData) :
  (1 <= length older)%nat ->
  rightHalfShifted 80 previous current = true ->
  wholeLuminance previous = true ->
  (3 <= width current <= maxSide)%N -> (2 <= height current <= maxSide)%N ->
  Num.gtb (motionMagnitude (accumulateMotion 50 current previous)) 1000
  = (13 <=? width current / 2 * height current)%N /\
  (Num.gtb (motionMagnitude (accumulateMotion 50 current previous)) 1000 = true ->
   exists r,
     analyzeDynamicGesture 50 (older ++ [previous; current]) = Some r /\
     gesture r = "Swipe Right"%string /\ (confidence r <=? 85)%float = true).
Proof.
  intros Ho Hs Hg Hw Hh.
  rewrite (analyzeDynamicGesture_recent 50 older previous current Ho).
  rewrite (accumulateMotion_rightHalf previous current Hs Hg) by lia.
  unfold maxSide in Hw, Hh.
  set (w := Z.of_N (width current)). set (h := Z.of_N (height current)).
  replace (Z.of_N (width current / 2)) with (w / 2)%Z by (unfold w; lia).
  replace (Z.of_N (beyond60 (width current))) with (3 * w / 5 + 1)%Z
    by (unfold w, beyond60; lia).
  assert (Bw : (3 <= w <= 65535)%Z) by (unfold w; lia).
  assert (Bh : (2 <= h <= 65535)%Z) by (unfold h; lia).
  assert (B2 : (0 <= w / 2 <= 32767)%Z)
    by (clear - Bw; zify; Z.to_euclidean_division_equations; lia).
  assert (B5 : (1 <= w - (3 * w / 5 + 1) <= 65535)%Z)
    by (clear - Bw; zify; Z.to_euclidean_division_equations; lia).
  pose proof (horizontal_dominates w h ltac:(lia) ltac:(lia)) as D.
  assert (EN : Z.of_N (width current / 2 * height current) = (w / 2 * h)%Z)
    by (rewrite N2Z.inj_mul, N2Z.inj_div; reflexivity).
  generalize dependent (width current / 2 * height current)%N. intros X EN.
  generalize dependent (w / 2)%Z. intros q B2 D EN.
  generalize dependent (w - (3 * w / 5 + 1))%Z. intros c B5 D.
  clearbody h w. clear Hs Hg Hw Hh Bw.
  assert (Bqh : (0 <= q * h <= 32767 * 65535)%Z)
    by (split; [apply Z.mul_nonneg_nonneg|apply Z.mul_le_mono_nonneg]; lia).
  assert (Bch : (1 * 2 <= c * h <= 65535 * 65535)%Z)
    by (split; apply Z.mul_le_mono_nonneg; lia).
  assert (BM : (0 <= 80 * q * h <= 171793448400)%Z) by (clear - Bqh; lia).
  assert (BH : (0 < 80 * c * h <= 343586898000)%Z) by (clear - Bch; lia).
  clear Bqh Bch.
  assert (EX : (80 * Z.of_N X = 80 * q * h)%Z) by lia. clear EN.
  remember (80 * q * h)%Z as M eqn:E1. remember (80 * c * h)%Z as H eqn:E2.
  clear E1 E2.
  cbn [motionOf motionMagnitude].
  assert (EM : Num.gtb (Zf M) 1000 = (1000 <? M)%Z).
  { unfold Num.gtb. change 1000%float with (Zf 1000).
    apply Zf_ltb; change (2 ^ 53)%Z with 9007199254740992%Z; lia. }
  rewrite EM. split.
  - destruct (N.leb_spec 13 X), (Z.ltb_spec 1000 M); try reflexivity; exfalso; lia.
  - intros Hm. apply Z.ltb_lt in Hm. specialize (D Hm).
    destruct (classifyMotion_above (motionOf M H (- (80 * q)))) as (r & Er & _ & Hc & Hgest).
    { cbn [motionOf motionMagnitude]. rewrite EM. now apply Z.ltb_lt. }
    exists r. split; [exact Er|]. split; [|exact Hc].
    rewrite Hgest. cbn [motionOf horizontalMotion verticalMotion].
    rewrite !Zf_abs by (change (2 ^ 53)%Z with 9007199254740992%Z; lia).
    unfold Num.gtb.
    rewrite Zf_ltb by (change (2 ^ 53)%Z with 9007199254740992%Z; lia).
    replace (Z.abs (- (80 * q)) <? Z.abs H)%Z with true by (symmetry; apply Z.ltb_lt; lia).
    change 0%float with (Zf 0).
    rewrite Zf_ltb by (change (2 ^ 53)%Z with 9007199254740992%Z; lia).
    replace (0 <? H)%Z with true by (symmetry; apply Z.ltb_lt; lia).
    reflexivity.
Qed.

(** ** C4: swipes *)



